(** * The staking keeper's delegation ledger (x/staking/keeper/delegation.go)

    A shallow embedding of the keeper methods that manage delegations,
    unbonding delegations, redelegations, their time queues and the
    unbonding-operation index, followed by the properties of the
    specification that concern them.

    Conventions of the embedding:
    - [sdk.Int] and [sdk.Dec] are arbitrary-precision numbers; an [sdk.Int]
      is a [Z], an [sdk.Dec] is a [Z] counting units of 10^-18.
    - [time.Time] is a [Z] (nanoseconds elapsed since the zero [time.Time]),
      a [time.Duration] is a [Z] of nanoseconds.
    - [uint64] operation ids are [N] with the wrap at 2^64 written out.
    - addresses ([sdk.AccAddress], [sdk.ValAddress]) are byte strings;
      records carry their bech32 text, decoded by the keeper's environment.
    - the KV store is a finite map from logical keys to typed values; a Go
      panic is the outcome [Panic]. *)

From stdpp Require Import base option list gmap strings fin_maps sorting.
From Stdlib Require Import ZArith Lia.

Local Open Scope Z_scope.

(** ** Data model *)

Definition Address := string.
Definition GoTime := Z.
Definition Duration := Z.
Definition Int := Z.
Definition Dec := Z.

(** [types.BondStatus]. *)
Inductive BondStatus := Unspecified | Unbonded | Unbonding | Bonded.

Global Instance BondStatus_eq_dec : EqDecision BondStatus.
Proof. solve_decision. Defined.

(** Modelled from the spec: the validator aggregate of the validator
    registry ([types.Validator] is declared outside this file): bonding
    status, total tokens and delegator shares, and the unbonding deadline. *)
Record Validator := mkValidator {
  val_Operator : Address;
  val_Status : BondStatus;
  val_Jailed : bool;
  val_Tokens : Int;
  val_DelegatorShares : Dec;
  val_UnbondingHeight : Z;
  val_UnbondingTime : GoTime;
  val_MinSelfDelegation : Int
}.

Definition IsBonded (v : Validator) : bool := bool_decide (val_Status v = Bonded).
Definition IsUnbonded (v : Validator) : bool := bool_decide (val_Status v = Unbonded).
Definition IsUnbonding (v : Validator) : bool := bool_decide (val_Status v = Unbonding).

Record Delegation := mkDelegation {
  del_DelegatorAddress : string;
  del_ValidatorAddress : string;
  del_Shares : Dec
}.

Record UnbondingDelegationEntry := mkUBDEntry {
  ubde_Id : N;
  ubde_CreationHeight : Z;
  ubde_CompletionTime : GoTime;
  ubde_InitialBalance : Int;
  ubde_Balance : Int;
  ubde_OnHold : bool
}.

Record UnbondingDelegation := mkUBD {
  ubd_DelegatorAddress : string;
  ubd_ValidatorAddress : string;
  ubd_Entries : list UnbondingDelegationEntry
}.

Record RedelegationEntry := mkREDEntry {
  rede_Id : N;
  rede_CreationHeight : Z;
  rede_CompletionTime : GoTime;
  rede_InitialBalance : Int;
  rede_SharesDst : Dec;
  rede_OnHold : bool
}.

Record Redelegation := mkRED {
  red_DelegatorAddress : string;
  red_ValidatorSrcAddress : string;
  red_ValidatorDstAddress : string;
  red_Entries : list RedelegationEntry
}.

Record DVPair := mkDVPair {
  dvp_DelegatorAddress : string;
  dvp_ValidatorAddress : string
}.

Record DVVTriplet := mkDVVTriplet {
  dvv_DelegatorAddress : string;
  dvv_ValidatorSrcAddress : string;
  dvv_ValidatorDstAddress : string
}.

(** Modelled from the spec: an entry is mature when its completion time is
    at or before the current block time ([IsMature] is declared with the
    entry types, outside this file). *)
Definition ubde_IsMature (e : UnbondingDelegationEntry) (now : GoTime) : bool :=
  ubde_CompletionTime e <=? now.
Definition rede_IsMature (e : RedelegationEntry) (now : GoTime) : bool :=
  rede_CompletionTime e <=? now.

Definition ubde_setOnHold (b : bool) (e : UnbondingDelegationEntry) : UnbondingDelegationEntry :=
  mkUBDEntry (ubde_Id e) (ubde_CreationHeight e) (ubde_CompletionTime e)
             (ubde_InitialBalance e) (ubde_Balance e) b.
Definition rede_setOnHold (b : bool) (e : RedelegationEntry) : RedelegationEntry :=
  mkREDEntry (rede_Id e) (rede_CreationHeight e) (rede_CompletionTime e)
             (rede_InitialBalance e) (rede_SharesDst e) b.

Definition ubd_setEntries (es : list UnbondingDelegationEntry) (u : UnbondingDelegation) :=
  mkUBD (ubd_DelegatorAddress u) (ubd_ValidatorAddress u) es.
Definition red_setEntries (es : list RedelegationEntry) (r : Redelegation) :=
  mkRED (red_DelegatorAddress r) (red_ValidatorSrcAddress r) (red_ValidatorDstAddress r) es.

(** ** Go slices

    A slice is a window of [len] elements over a backing array; the
    capacity is the array's length.  Elements past [len] stay in the
    array, and a pointer to an element ([&s[i]]) keeps naming the array
    slot whatever the slice header becomes. *)
Section Slices.
Context {A : Type}.

Record Slice := mkSlice { arr : list A; len : nat }.

Definition of_list (l : list A) : Slice := mkSlice l (length l).
Definition visible (s : Slice) : list A := take (len s) (arr s).

(** [s[i]]: bounds-checked against the length, not the capacity. *)
Definition index (s : Slice) (i : nat) : option A :=
  if decide (i < len s)%nat then arr s !! i else None.

(** [*p] for [p := &s[i]] taken earlier: reads the array slot. *)
Definition deref (s : Slice) (i : nat) : option A := arr s !! i.

(** Modelled from the spec: [RemoveEntry(i)] (declared with the record
    types, outside this file) shifts the entries after [i] down by one,
    [Entries = append(Entries[:i], Entries[i+1:]...)]: the copy happens
    inside the backing array, whose last used slot keeps its old value. *)
Definition RemoveEntry (i : nat) (s : Slice) : Slice :=
  mkSlice (take i (arr s) ++ take (len s - S i) (drop (S i) (arr s)) ++ drop (len s - 1) (arr s))
          (len s - 1).
End Slices.
Global Arguments Slice : clear implicits.

(** ** The store *)

Inductive Key :=
| KDelegation (del val : Address)
| KUBD (del val : Address)
| KUBDByValIndex (val del : Address)
| KRED (del src dst : Address)
| KREDByValSrcIndex (src del dst : Address)
| KREDByValDstIndex (dst del src : Address)
| KUnbondingDelegationTime (t : GoTime)
| KRedelegationTime (t : GoTime)
| KUnbondingOpIndex (id : N)
| KUnbondingDelegationEntryId.

Global Instance Key_eq_dec : EqDecision Key.
Proof. solve_decision. Defined.

Definition Key_code (k : Key) : nat * (list Address * (Z * N)) :=
  match k with
  | KDelegation d v => (0%nat, ([d; v], (0, 0%N)))
  | KUBD d v => (1%nat, ([d; v], (0, 0%N)))
  | KUBDByValIndex v d => (2%nat, ([v; d], (0, 0%N)))
  | KRED d s t => (3%nat, ([d; s; t], (0, 0%N)))
  | KREDByValSrcIndex s d t => (4%nat, ([s; d; t], (0, 0%N)))
  | KREDByValDstIndex t d s => (5%nat, ([t; d; s], (0, 0%N)))
  | KUnbondingDelegationTime t => (6%nat, ([], (t, 0%N)))
  | KRedelegationTime t => (7%nat, ([], (t, 0%N)))
  | KUnbondingOpIndex id => (8%nat, ([], (0, id)))
  | KUnbondingDelegationEntryId => (9%nat, ([], (0, 0%N)))
  end.

Definition Key_decode (c : nat * (list Address * (Z * N))) : Key :=
  match c with
  | (0%nat, ([d; v], _)) => KDelegation d v
  | (1%nat, ([d; v], _)) => KUBD d v
  | (2%nat, ([v; d], _)) => KUBDByValIndex v d
  | (3%nat, ([d; s; t], _)) => KRED d s t
  | (4%nat, ([s; d; t], _)) => KREDByValSrcIndex s d t
  | (5%nat, ([t; d; s], _)) => KREDByValDstIndex t d s
  | (6%nat, (_, (t, _))) => KUnbondingDelegationTime t
  | (7%nat, (_, (t, _))) => KRedelegationTime t
  | (8%nat, (_, (_, id))) => KUnbondingOpIndex id
  | _ => KUnbondingDelegationEntryId
  end.

Global Instance Key_countable : Countable Key.
Proof. apply (inj_countable' Key_code Key_decode). by intros []. Defined.

(** What the codec reads back from the bytes stored under a key. *)
Inductive Value :=
| VDelegation (d : Delegation)
| VUBD (u : UnbondingDelegation)
| VRED (r : Redelegation)
| VDVPairs (l : list DVPair)
| VDVVTriplets (l : list DVVTriplet)
| VUint64 (n : N)
| VKey (k : Key)
| VEmpty.

Record Params := mkParams {
  p_UnbondingTime : Duration;
  p_MaxEntries : N;
  p_BondDenom : string
}.

Definition Coin : Type := string * Int.
Definition Coins := list Coin.

Inductive Pool := BondedPool | NotBondedPool.

(** Calls to the token-custody collaborator that moved funds. *)
Inductive BankCall :=
| DelegateCoinsFromAccountToModule (acc : Address) (pool : Pool) (amt : Coins)
| UndelegateCoinsFromModuleToAccount (pool : Pool) (acc : Address) (amt : Coins)
| PoolToPool (src dst : Pool) (amt : Int).

(** Notifications sent to the hook collaborators. *)
Inductive Hook :=
| BeforeDelegationCreated (del val : Address)
| BeforeDelegationSharesModified (del val : Address)
| BeforeDelegationRemoved (del val : Address)
| AfterDelegationModified (del val : Address)
| AfterUnbondingOpInitiated (id : N).

Inductive Error :=
| ErrDelegatorShareExRateInvalid
| ErrNoDelegatorForAddress
| ErrNotEnoughDelegationShares (held : Dec)
| ErrNoValidatorFound
| ErrMaxUnbondingDelegationEntries
| ErrNoUnbondingDelegation
| ErrSelfRedelegation
| ErrBadRedelegationDst
| ErrTransitiveRedelegation
| ErrMaxRedelegationEntries
| ErrTinyRedelegationAmount
| ErrNoRedelegation
| ErrBech32 (text : string)
| ErrBank (code : N).

Record State := mkState {
  store : gmap Key Value;
  validators : gmap Address Validator;
  bank : list BankCall;
  hooks : list Hook;
  params : Params
}.

Record Context := mkContext {
  BlockTime : GoTime;
  BlockHeight : Z
}.

(** ** Outcomes: a returned value with the state reached, or a Go panic *)

Inductive Res (A : Type) :=
| Done (a : A) (s : State)
| Panic (msg : string).
Global Arguments Done {A} a s.
Global Arguments Panic {A} msg.

Definition M (A : Type) : Type := State → Res A.

Global Instance M_ret : MRet M := λ A a s, Done a s.
Global Instance M_bind : MBind M := λ A B f m s,
  match m s with
  | Done a s' => f a s'
  | Panic msg => Panic msg
  end.

Definition panic {A} (msg : string) : M A := λ _, Panic msg.
Definition gets {A} (f : State → A) : M A := λ s, Done (f s) s.
Definition modify (f : State → State) : M unit := λ s, Done tt (f s).

(** The state an outcome ends in ([s] for a panic, which ends in none). *)
Definition stateOf {A} (r : Res A) (s : State) : State :=
  match r with
  | Done _ s' => s'
  | Panic _ => s
  end.

Definition with_store (f : gmap Key Value → gmap Key Value) (s : State) : State :=
  mkState (f (store s)) (validators s) (bank s) (hooks s) (params s).
Definition with_validators (f : gmap Address Validator → gmap Address Validator) (s : State) : State :=
  mkState (store s) (f (validators s)) (bank s) (hooks s) (params s).
Definition with_bank (f : list BankCall → list BankCall) (s : State) : State :=
  mkState (store s) (validators s) (f (bank s)) (hooks s) (params s).
Definition with_hooks (f : list Hook → list Hook) (s : State) : State :=
  mkState (store s) (validators s) (bank s) (f (hooks s)) (params s).

Definition storeGet (k : Key) : M (option Value) := gets (λ s, store s !! k).
Definition storeSet (k : Key) (v : Value) : M unit := modify (with_store (insert k v)).
Definition storeDelete (k : Key) : M unit := modify (with_store (delete k)).
Definition callHook (h : Hook) : M unit := modify (with_hooks (λ l, l ++ [h])).

(** ** The keeper's environment

    What the methods of this file call but do not define: the address
    codec, the token-custody keeper (an interface of the keeper) and the
    validator half of the staking keeper.  The validator methods act on the
    validator registry only. *)
Record Keeper := mkKeeper {
  AccAddressFromBech32 : string → option Address;
  ValAddressFromBech32 : string → option Address;
  AccAddressString : Address → string;
  ValAddressString : Address → string;
  (** the custody keeper's verdict on a call, given the transfers so far:
      [None] when it performs the transfer *)
  bankKeeper : list BankCall → BankCall → option Error;
  TokensFromShares : Validator → Dec → Dec;
  InvalidExRate : Validator → bool;
  jailValidator : gmap Address Validator → Validator → gmap Address Validator;
  RemoveValidatorTokensAndShares :
    gmap Address Validator → Validator → Dec → gmap Address Validator * Validator * Int;
  AddValidatorTokensAndShares :
    gmap Address Validator → Validator → Int → gmap Address Validator * Validator * Dec;
  RemoveValidator : gmap Address Validator → Address → gmap Address Validator
}.

(** Key constructors of [types/keys.go]. *)
Definition GetDelegationKey (del val : Address) : Key := KDelegation del val.
Definition GetUBDKey (del val : Address) : Key := KUBD del val.
Definition GetUBDByValIndexKey (del val : Address) : Key := KUBDByValIndex val del.
Definition GetREDKey (del src dst : Address) : Key := KRED del src dst.
Definition GetREDByValSrcIndexKey (del src dst : Address) : Key := KREDByValSrcIndex src del dst.
Definition GetREDByValDstIndexKey (del src dst : Address) : Key := KREDByValDstIndex dst del src.
Definition GetUnbondingDelegationTimeKey (t : GoTime) : Key := KUnbondingDelegationTime t.
Definition GetRedelegationTimeKey (t : GoTime) : Key := KRedelegationTime t.
Definition GetUnbondingOpIndexKey (id : N) : Key := KUnbondingOpIndex id.

(** The codec's [MustUnmarshal*]: bytes of another kind make it panic. *)
Definition MustUnmarshalDelegation (v : Value) : M Delegation :=
  match v with VDelegation d => mret d | _ => panic "unmarshal delegation" end.
Definition MustUnmarshalUBD (v : Value) : M UnbondingDelegation :=
  match v with VUBD u => mret u | _ => panic "unmarshal unbonding delegation" end.
Definition MustUnmarshalRED (v : Value) : M Redelegation :=
  match v with VRED r => mret r | _ => panic "unmarshal redelegation" end.
Definition MustUnmarshalDVPairs (v : Value) : M (list DVPair) :=
  match v with VDVPairs l => mret l | _ => panic "unmarshal DVPairs" end.
Definition MustUnmarshalDVVTriplets (v : Value) : M (list DVVTriplet) :=
  match v with VDVVTriplets l => mret l | _ => panic "unmarshal DVVTriplets" end.

(** [sdk.NewCoin]: a negative amount panics. *)
Definition NewCoin (denom : string) (amount : Int) : M Coin :=
  if amount <? 0 then panic "negative coin amount" else mret (denom, amount).

(** [Int.Add] (types/int.go): an [sdk.Int] holds 256 bits at most, and a
    sum that needs more panics. *)
Definition Int_Add (a b : Int) : M Int :=
  if Z.abs (a + b) <? 2 ^ 256 then mret (a + b) else panic "Int overflow".

(** [Coins.Add] for one more coin: the amounts of one denomination are
    added with [Int.Add]. *)
Fixpoint Coins_Add (cs : Coins) (c : Coin) : M Coins :=
  match cs with
  | [] => mret [c]
  | (d, a) :: cs' =>
      if decide (d = c.1) then sum ← Int_Add a c.2; mret ((d, sum) :: cs')
      else cs'' ← Coins_Add cs' c; mret ((d, a) :: cs'')
  end.

(** [s[i]] as an expression: out of range panics. *)
Definition at_index {A} (s : Slice A) (i : nat) : M A :=
  match index s i with
  | Some x => mret x
  | None => panic "index out of range"
  end.

(** Constructors of the record types. *)
Definition NewUnbondingDelegationEntry (creationHeight : Z) (completionTime : GoTime)
    (balance : Int) (id : N) : UnbondingDelegationEntry :=
  mkUBDEntry id creationHeight completionTime balance balance false.

(** Modelled from the spec: [AddEntry] appends a new entry to the record. *)
Definition ubd_AddEntry (ubd : UnbondingDelegation) (creationHeight : Z) (minTime : GoTime)
    (balance : Int) (id : N) : UnbondingDelegation :=
  ubd_setEntries (ubd_Entries ubd ++ [NewUnbondingDelegationEntry creationHeight minTime balance id]) ubd.

(** The redelegation constructors of this revision take no operation id:
    the entry's [Id] keeps its zero value. *)
Definition NewRedelegationEntry (creationHeight : Z) (completionTime : GoTime)
    (balance : Int) (sharesDst : Dec) : RedelegationEntry :=
  mkREDEntry 0%N creationHeight completionTime balance sharesDst false.

Definition red_AddEntry (red : Redelegation) (creationHeight : Z) (minTime : GoTime)
    (balance : Int) (sharesDst : Dec) : Redelegation :=
  red_setEntries (red_Entries red ++ [NewRedelegationEntry creationHeight minTime balance sharesDst]) red.

Fixpoint ubdEntryIndexFrom (es : list UnbondingDelegationEntry) (id : N) (i : nat) : option nat :=
  match es with
  | [] => None
  | entry :: es' => if decide (ubde_Id entry = id) then Some i else ubdEntryIndexFrom es' id (S i)
  end.

(** [unbondingDelegationEntryArrayIndex]: the first entry with the id. *)
Definition unbondingDelegationEntryArrayIndex (ubd : UnbondingDelegation) (id : N) : option nat :=
  ubdEntryIndexFrom (ubd_Entries ubd) id 0.

Fixpoint redEntryIndexFrom (es : list RedelegationEntry) (id : N) (i : nat) : option nat :=
  match es with
  | [] => None
  | entry :: es' => if decide (rede_Id entry = id) then Some i else redEntryIndexFrom es' id (S i)
  end.

Definition redelegationEntryArrayIndex (red : Redelegation) (id : N) : option nat :=
  redEntryIndexFrom (red_Entries red) id 0.

(** ** Keeper methods *)
Section KeeperMethods.
Context (k : Keeper).

Definition mustAccAddress (text : string) : M Address :=
  match AccAddressFromBech32 k text with
  | Some a => mret a
  | None => panic "AccAddressFromBech32"
  end.
Definition mustValAddress (text : string) : M Address :=
  match ValAddressFromBech32 k text with
  | Some a => mret a
  | None => panic "ValAddressFromBech32"
  end.

(** A call to the custody keeper: the error it answers, if any; a call
    it accepts is recorded. *)
Definition bankCall (c : BankCall) : M (option Error) := λ s,
  match bankKeeper k (bank s) c with
  | Some e => Done (Some e) s
  | None => Done None (with_bank (λ l, l ++ [c]) s)
  end.

Definition IncrementUnbondingOpId : M N :=
  bz ← storeGet KUnbondingDelegationEntryId;
  id ← match bz with
       | None => mret 0%N
       | Some (VUint64 n) => mret n
       | Some _ => panic "binary.BigEndian.Uint64"
       end;
  let id := ((id + 1) mod 2 ^ 64)%N in
  storeSet KUnbondingDelegationEntryId (VUint64 id);;
  mret id.

Definition GetDelegation (delAddr valAddr : Address) : M (option Delegation) :=
  value ← storeGet (GetDelegationKey delAddr valAddr);
  match value with
  | None => mret None
  | Some value => delegation ← MustUnmarshalDelegation value; mret (Some delegation)
  end.

Definition SetDelegation (delegation : Delegation) : M unit :=
  delegatorAddress ← mustAccAddress (del_DelegatorAddress delegation);
  valAddr ← mustValAddress (del_ValidatorAddress delegation);
  storeSet (GetDelegationKey delegatorAddress valAddr) (VDelegation delegation).

Definition RemoveDelegation (delegation : Delegation) : M unit :=
  delegatorAddress ← mustAccAddress (del_DelegatorAddress delegation);
  valAddr ← mustValAddress (del_ValidatorAddress delegation);
  callHook (BeforeDelegationRemoved delegatorAddress valAddr);;
  storeDelete (GetDelegationKey delegatorAddress valAddr).

Definition GetUnbondingDelegation (delAddr valAddr : Address) : M (option UnbondingDelegation) :=
  value ← storeGet (GetUBDKey delAddr valAddr);
  match value with
  | None => mret None
  | Some value => ubd ← MustUnmarshalUBD value; mret (Some ubd)
  end.

(** The index stores the owning record's key; reading it back gives a key. *)
Definition asKey (v : Value) : M Key :=
  match v with VKey key => mret key | _ => panic "index value is not a key" end.

Definition GetUnbondingDelegationByUnbondingOpId (id : N) : M (option UnbondingDelegation) :=
  ubdeKey ← storeGet (GetUnbondingOpIndexKey id);
  match ubdeKey with
  | None => mret None
  | Some ubdeKey =>
      ubdeKey ← asKey ubdeKey;
      value ← storeGet ubdeKey;
      match value with
      | None => mret None
      | Some value => ubd ← MustUnmarshalUBD value; mret (Some ubd)
      end
  end.

Definition SetUBDByUnbondingOpIndex (ubd : UnbondingDelegation) (id : N) : M unit :=
  delAddr ← mustAccAddress (ubd_DelegatorAddress ubd);
  valAddr ← mustValAddress (ubd_ValidatorAddress ubd);
  storeSet (GetUnbondingOpIndexKey id) (VKey (GetUBDKey delAddr valAddr)).

Definition DeleteUBDByUnbondingOpIndex (id : N) : M unit :=
  storeDelete (GetUnbondingOpIndexKey id).

Definition MaxEntries : M N := gets (λ s, p_MaxEntries (params s)).
Definition UnbondingTime : M Duration := gets (λ s, p_UnbondingTime (params s)).
Definition BondDenom : M string := gets (λ s, p_BondDenom (params s)).

(** [bondedTokensToNotBonded], [notBondedTokensToBonded] (pool.go): the
    coin is made of the bond denomination and the amount (a negative
    amount panics), the custody keeper is asked to move it from one pool
    to the other, and its refusal panics. *)
Definition bondedTokensToNotBonded (amt : Int) : M unit :=
  bondDenom ← BondDenom;
  _ ← NewCoin bondDenom amt;
  err ← bankCall (PoolToPool BondedPool NotBondedPool amt);
  if err is Some _ then panic "SendCoinsFromModuleToModule" else mret tt.
Definition notBondedTokensToBonded (amt : Int) : M unit :=
  bondDenom ← BondDenom;
  _ ← NewCoin bondDenom amt;
  err ← bankCall (PoolToPool NotBondedPool BondedPool amt);
  if err is Some _ then panic "SendCoinsFromModuleToModule" else mret tt.

Definition HasMaxUnbondingDelegationEntries (delegatorAddr validatorAddr : Address) : M bool :=
  ubd ← GetUnbondingDelegation delegatorAddr validatorAddr;
  match ubd with
  | None => mret false
  | Some ubd =>
      maxEntries ← MaxEntries;
      mret (bool_decide (Z.of_N maxEntries ≤ Z.of_nat (length (ubd_Entries ubd))))
  end.

Definition SetUnbondingDelegation (ubd : UnbondingDelegation) : M unit :=
  delegatorAddress ← mustAccAddress (ubd_DelegatorAddress ubd);
  addr ← mustValAddress (ubd_ValidatorAddress ubd);
  storeSet (GetUBDKey delegatorAddress addr) (VUBD ubd);;
  storeSet (GetUBDByValIndexKey delegatorAddress addr) VEmpty.

Definition RemoveUnbondingDelegation (ubd : UnbondingDelegation) : M unit :=
  delegatorAddress ← mustAccAddress (ubd_DelegatorAddress ubd);
  addr ← mustValAddress (ubd_ValidatorAddress ubd);
  storeDelete (GetUBDKey delegatorAddress addr);;
  storeDelete (GetUBDByValIndexKey delegatorAddress addr).

Definition NewUnbondingDelegation (delegatorAddr validatorAddr : Address) (creationHeight : Z)
    (minTime : GoTime) (balance : Int) (id : N) : UnbondingDelegation :=
  mkUBD (AccAddressString k delegatorAddr) (ValAddressString k validatorAddr)
        [NewUnbondingDelegationEntry creationHeight minTime balance id].

Definition SetUnbondingDelegationEntry (delegatorAddr validatorAddr : Address)
    (creationHeight : Z) (minTime : GoTime) (balance : Int) : M UnbondingDelegation :=
  found ← GetUnbondingDelegation delegatorAddr validatorAddr;
  id ← IncrementUnbondingOpId;
  let ubd := match found with
             | Some ubd => ubd_AddEntry ubd creationHeight minTime balance id
             | None => NewUnbondingDelegation delegatorAddr validatorAddr creationHeight minTime balance id
             end in
  SetUnbondingDelegation ubd;;
  SetUBDByUnbondingOpIndex ubd id;;
  callHook (AfterUnbondingOpInitiated id);;
  mret ubd.

(** *** Unbonding queue time slices *)

Definition GetUBDQueueTimeSlice (timestamp : GoTime) : M (list DVPair) :=
  bz ← storeGet (GetUnbondingDelegationTimeKey timestamp);
  match bz with
  | None => mret []
  | Some bz => MustUnmarshalDVPairs bz
  end.

Definition SetUBDQueueTimeSlice (timestamp : GoTime) (keys : list DVPair) : M unit :=
  storeSet (GetUnbondingDelegationTimeKey timestamp) (VDVPairs keys).

Definition InsertUBDQueue (ubd : UnbondingDelegation) (completionTime : GoTime) : M unit :=
  let dvPair := mkDVPair (ubd_DelegatorAddress ubd) (ubd_ValidatorAddress ubd) in
  timeSlice ← GetUBDQueueTimeSlice completionTime;
  if decide (length timeSlice = 0%nat)
  then SetUBDQueueTimeSlice completionTime [dvPair]
  else SetUBDQueueTimeSlice completionTime (timeSlice ++ [dvPair]).

(** Modelled from the spec: the store's ordered range scan from the queue
    prefix to the inclusive upper bound of the time key of [endTime]
    ([store.Iterator], [sdk.InclusiveEndBytes] and the sortable time
    encoding are outside this file): the queue entries with a timestamp
    at or before [endTime], in ascending timestamp order. *)
Definition queueTimes (timeOf : Key → option GoTime) (endTime : GoTime)
    (st : gmap Key Value) : list GoTime :=
  merge_sort Z.le
    (omap (λ kv : Key * Value,
             match timeOf kv.1 with
             | Some t => if t <=? endTime then Some t else None
             | None => None
             end) (map_to_list st)).

Definition rangeScan (timeOf : Key → option GoTime) (keyOf : GoTime → Key)
    (endTime : GoTime) (st : gmap Key Value) : list (Key * Value) :=
  omap (λ t, (λ v, (keyOf t, v)) <$> st !! keyOf t) (queueTimes timeOf endTime st).

Definition ubdTimeOf (key : Key) : option GoTime :=
  match key with KUnbondingDelegationTime t => Some t | _ => None end.
Definition redTimeOf (key : Key) : option GoTime :=
  match key with KRedelegationTime t => Some t | _ => None end.

Definition UBDQueueIterator (endTime : GoTime) : M (list (Key * Value)) :=
  gets (λ s, rangeScan ubdTimeOf GetUnbondingDelegationTimeKey endTime (store s)).

Fixpoint dequeueUBDLoop (it : list (Key * Value)) (matureUnbonds : list DVPair)
    : M (list DVPair) :=
  match it with
  | [] => mret matureUnbonds
  | (key, value) :: it' =>
      timeslice ← MustUnmarshalDVPairs value;
      let matureUnbonds := matureUnbonds ++ timeslice in
      storeDelete key;;
      dequeueUBDLoop it' matureUnbonds
  end.

(** The iterator runs to the block header's time; [currTime] is not read. *)
Definition DequeueAllMatureUBDQueue (ctx : Context) (currTime : GoTime) : M (list DVPair) :=
  unbondingTimesliceIterator ← UBDQueueIterator (BlockTime ctx);
  dequeueUBDLoop unbondingTimesliceIterator [].

(** *** Redelegations *)

Definition GetRedelegation (delAddr valSrcAddr valDstAddr : Address) : M (option Redelegation) :=
  value ← storeGet (GetREDKey delAddr valSrcAddr valDstAddr);
  match value with
  | None => mret None
  | Some value => red ← MustUnmarshalRED value; mret (Some red)
  end.

Definition GetRedelegationByUnbondingOpId (id : N) : M (option Redelegation) :=
  redKey ← storeGet (GetUnbondingOpIndexKey id);
  match redKey with
  | None => mret None
  | Some redKey =>
      redKey ← asKey redKey;
      value ← storeGet redKey;
      match value with
      | None => mret None
      | Some value => red ← MustUnmarshalRED value; mret (Some red)
      end
  end.

Definition SetREDByUnbondingOpIndex (red : Redelegation) (id : N) : M unit :=
  delAddr ← mustAccAddress (red_DelegatorAddress red);
  valSrcAddr ← mustValAddress (red_ValidatorSrcAddress red);
  valDstAddr ← mustValAddress (red_ValidatorDstAddress red);
  storeSet (GetUnbondingOpIndexKey id) (VKey (GetREDKey delAddr valSrcAddr valDstAddr)).

Definition DeleteREDByUnbondingOpIndex (id : N) : M unit :=
  storeDelete (GetUnbondingOpIndexKey id).

(** The prefix scan of the by-destination index for (delegator,
    destination validator): valid when some key carries the prefix. *)
Definition inREDsByDelToValDstIndex (delAddr valDstAddr : Address) (key : Key) : bool :=
  match key with
  | KREDByValDstIndex dst del _ => bool_decide (dst = valDstAddr ∧ del = delAddr)
  | _ => false
  end.

Definition HasReceivingRedelegation (delAddr valDstAddr : Address) : M bool :=
  gets (λ s, existsb (λ kv : Key * Value, inREDsByDelToValDstIndex delAddr valDstAddr kv.1)
               (map_to_list (store s))).

Definition HasMaxRedelegationEntries (delegatorAddr validatorSrcAddr validatorDstAddr : Address)
    : M bool :=
  red ← GetRedelegation delegatorAddr validatorSrcAddr validatorDstAddr;
  match red with
  | None => mret false
  | Some red =>
      maxEntries ← MaxEntries;
      mret (bool_decide (Z.of_N maxEntries ≤ Z.of_nat (length (red_Entries red))))
  end.

Definition SetRedelegation (red : Redelegation) : M unit :=
  delegatorAddress ← mustAccAddress (red_DelegatorAddress red);
  valSrcAddr ← mustValAddress (red_ValidatorSrcAddress red);
  valDestAddr ← mustValAddress (red_ValidatorDstAddress red);
  storeSet (GetREDKey delegatorAddress valSrcAddr valDestAddr) (VRED red);;
  storeSet (GetREDByValSrcIndexKey delegatorAddress valSrcAddr valDestAddr) VEmpty;;
  storeSet (GetREDByValDstIndexKey delegatorAddress valSrcAddr valDestAddr) VEmpty.

Definition NewRedelegation (delegatorAddr validatorSrcAddr validatorDstAddr : Address)
    (creationHeight : Z) (minTime : GoTime) (balance : Int) (sharesDst : Dec) : Redelegation :=
  mkRED (AccAddressString k delegatorAddr) (ValAddressString k validatorSrcAddr)
        (ValAddressString k validatorDstAddr)
        [NewRedelegationEntry creationHeight minTime balance sharesDst].

Definition SetRedelegationEntry (delegatorAddr validatorSrcAddr validatorDstAddr : Address)
    (creationHeight : Z) (minTime : GoTime) (balance : Int) (sharesSrc sharesDst : Dec)
    : M Redelegation :=
  found ← GetRedelegation delegatorAddr validatorSrcAddr validatorDstAddr;
  id ← IncrementUnbondingOpId;
  let red := match found with
             | Some red => red_AddEntry red creationHeight minTime balance sharesDst
             | None => NewRedelegation delegatorAddr validatorSrcAddr validatorDstAddr
                         creationHeight minTime balance sharesDst
             end in
  SetRedelegation red;;
  SetREDByUnbondingOpIndex red id;;
  callHook (AfterUnbondingOpInitiated id);;
  mret red.

Definition RemoveRedelegation (red : Redelegation) : M unit :=
  delegatorAddress ← mustAccAddress (red_DelegatorAddress red);
  valSrcAddr ← mustValAddress (red_ValidatorSrcAddress red);
  valDestAddr ← mustValAddress (red_ValidatorDstAddress red);
  storeDelete (GetREDKey delegatorAddress valSrcAddr valDestAddr);;
  storeDelete (GetREDByValSrcIndexKey delegatorAddress valSrcAddr valDestAddr);;
  storeDelete (GetREDByValDstIndexKey delegatorAddress valSrcAddr valDestAddr).

Definition GetRedelegationQueueTimeSlice (timestamp : GoTime) : M (list DVVTriplet) :=
  bz ← storeGet (GetRedelegationTimeKey timestamp);
  match bz with
  | None => mret []
  | Some bz => MustUnmarshalDVVTriplets bz
  end.

Definition SetRedelegationQueueTimeSlice (timestamp : GoTime) (keys : list DVVTriplet) : M unit :=
  storeSet (GetRedelegationTimeKey timestamp) (VDVVTriplets keys).

Definition InsertRedelegationQueue (red : Redelegation) (completionTime : GoTime) : M unit :=
  timeSlice ← GetRedelegationQueueTimeSlice completionTime;
  let dvvTriplet := mkDVVTriplet (red_DelegatorAddress red) (red_ValidatorSrcAddress red)
                                 (red_ValidatorDstAddress red) in
  if decide (length timeSlice = 0%nat)
  then SetRedelegationQueueTimeSlice completionTime [dvvTriplet]
  else SetRedelegationQueueTimeSlice completionTime (timeSlice ++ [dvvTriplet]).

Definition RedelegationQueueIterator (endTime : GoTime) : M (list (Key * Value)) :=
  gets (λ s, rangeScan redTimeOf GetRedelegationTimeKey endTime (store s)).

Fixpoint dequeueREDLoop (it : list (Key * Value)) (matureRedelegations : list DVVTriplet)
    : M (list DVVTriplet) :=
  match it with
  | [] => mret matureRedelegations
  | (key, value) :: it' =>
      timeslice ← MustUnmarshalDVVTriplets value;
      let matureRedelegations := matureRedelegations ++ timeslice in
      storeDelete key;;
      dequeueREDLoop it' matureRedelegations
  end.

Definition DequeueAllMatureRedelegationQueue (ctx : Context) (currTime : GoTime)
    : M (list DVVTriplet) :=
  redelegationTimesliceIterator ← RedelegationQueueIterator (BlockTime ctx);
  dequeueREDLoop redelegationTimesliceIterator [].

(** *** The validator registry, as this file uses it *)

Definition GetValidator (valAddr : Address) : M (option Validator) :=
  gets (λ s, validators s !! valAddr).

Definition mustGetValidator (valAddr : Address) : M Validator :=
  validator ← GetValidator valAddr;
  match validator with
  | Some validator => mret validator
  | None => panic "validator record not found"
  end.

Definition GetOperator (v : Validator) : Address := val_Operator v.

(** [Dec.TruncateInt]: the integer part, towards zero. *)
Definition TruncateInt (d : Dec) : Int := d ÷ 10 ^ 18.

(** [sdk.NewCoins] of one coin: a zero coin is dropped. *)
Definition NewCoins (c : Coin) : Coins := if c.2 =? 0 then [] else [c].

Definition NewDelegation (delegatorAddr validatorAddr : Address) (shares : Dec) : Delegation :=
  mkDelegation (AccAddressString k delegatorAddr) (ValAddressString k validatorAddr) shares.

Definition del_setShares (shares : Dec) (d : Delegation) : Delegation :=
  mkDelegation (del_DelegatorAddress d) (del_ValidatorAddress d) shares.

(** *** Delegate *)
Definition Delegate (delAddr : Address) (bondAmt : Int) (tokenSrc : BondStatus)
    (validator : Validator) (subtractAccount : bool) : M (Dec * option Error) :=
  if InvalidExRate k validator then mret (0, Some ErrDelegatorShareExRateInvalid) else
  found ← GetDelegation delAddr (GetOperator validator);
  let delegation := match found with
                    | Some delegation => delegation
                    | None => NewDelegation delAddr (GetOperator validator) 0
                    end in
  (if found is Some _
   then callHook (BeforeDelegationSharesModified delAddr (GetOperator validator))
   else callHook (BeforeDelegationCreated delAddr (GetOperator validator)));;
  delegatorAddress ← mustAccAddress (del_DelegatorAddress delegation);
  err ← (if subtractAccount then
           if decide (tokenSrc = Bonded) then panic "delegation token source cannot be bonded" else
           sendName ← (if IsBonded validator then mret BondedPool
                       else if IsUnbonding validator || IsUnbonded validator then mret NotBondedPool
                       else panic "invalid validator status");
           bondDenom ← BondDenom;
           coin ← NewCoin bondDenom bondAmt;
           bankCall (DelegateCoinsFromAccountToModule delegatorAddress sendName (NewCoins coin))
         else
           let fromBonded := bool_decide (tokenSrc = Bonded) in
           let fromNotBonded := bool_decide (tokenSrc = Unbonded) || bool_decide (tokenSrc = Unbonding) in
           (if fromBonded && IsBonded validator then mret tt
            else if fromNotBonded && negb (IsBonded validator) then mret tt
            else if fromNotBonded && IsBonded validator then notBondedTokensToBonded bondAmt
            else if fromBonded && negb (IsBonded validator) then bondedTokensToNotBonded bondAmt
            else panic "unknown token source bond status");;
           mret None);
  match err with
  | Some err => mret (0, Some err)
  | None =>
      vals ← gets validators;
      let '(vals, _, newShares) := AddValidatorTokensAndShares k vals validator bondAmt in
      modify (with_validators (λ _, vals));;
      let delegation := del_setShares (del_Shares delegation + newShares) delegation in
      SetDelegation delegation;;
      valAddr ← mustValAddress (del_ValidatorAddress delegation);
      callHook (AfterDelegationModified delegatorAddress valAddr);;
      mret (newShares, None)
  end.

(** *** Unbond *)
Definition Unbond (delAddr valAddr : Address) (shares : Dec) : M (Int * option Error) :=
  found ← GetDelegation delAddr valAddr;
  match found with
  | None => mret (0, Some ErrNoDelegatorForAddress)
  | Some delegation =>
  callHook (BeforeDelegationSharesModified delAddr valAddr);;
  if del_Shares delegation <? shares
  then mret (0, Some (ErrNotEnoughDelegationShares (del_Shares delegation))) else
  found ← GetValidator valAddr;
  match found with
  | None => mret (0, Some ErrNoValidatorFound)
  | Some validator =>
  let delegation := del_setShares (del_Shares delegation - shares) delegation in
  match AccAddressFromBech32 k (del_DelegatorAddress delegation) with
  | None => mret (0, Some (ErrBech32 (del_DelegatorAddress delegation)))
  | Some delegatorAddress =>
  let isValidatorOperator := bool_decide (delegatorAddress = GetOperator validator) in
  validator ←
    (if isValidatorOperator && negb (val_Jailed validator) &&
        (TruncateInt (TokensFromShares k validator (del_Shares delegation))
           <? val_MinSelfDelegation validator)
     then
       modify (with_validators (λ vals, jailValidator k vals validator));;
       mustGetValidator (GetOperator validator)
     else mret validator);
  (if del_Shares delegation =? 0
   then RemoveDelegation delegation
   else
     SetDelegation delegation;;
     valAddr' ← mustValAddress (del_ValidatorAddress delegation);
     callHook (AfterDelegationModified delegatorAddress valAddr'));;
  vals ← gets validators;
  let '(vals, validator, amount) := RemoveValidatorTokensAndShares k vals validator shares in
  modify (with_validators (λ _, vals));;
  (if (val_DelegatorShares validator =? 0) && IsUnbonded validator
   then modify (with_validators (λ vals, RemoveValidator k vals (GetOperator validator)))
   else mret tt);;
  mret (amount, None)
  end end end.

(** *** getBeginInfo *)
Definition getBeginInfo (ctx : Context) (valSrcAddr : Address) : M (GoTime * Z * bool) :=
  found ← GetValidator valSrcAddr;
  let longestWait :=
    unbondingTime ← UnbondingTime;
    mret (BlockTime ctx + unbondingTime, BlockHeight ctx, false) in
  match found with
  | None => longestWait
  | Some validator =>
      if IsBonded validator then longestWait
      else if IsUnbonded validator then mret (0, 0, true)
      else if IsUnbonding validator
           then mret (val_UnbondingTime validator, val_UnbondingHeight validator, false)
      else panic "unknown validator status"
  end.

(** *** Undelegate *)
Definition Undelegate (ctx : Context) (delAddr valAddr : Address) (sharesAmount : Dec)
    : M (GoTime * option Error) :=
  found ← GetValidator valAddr;
  match found with
  | None => mret (0, Some ErrNoDelegatorForAddress)
  | Some validator =>
  hasMax ← HasMaxUnbondingDelegationEntries delAddr valAddr;
  if (hasMax : bool) then mret (0, Some ErrMaxUnbondingDelegationEntries) else
  '(returnAmount, err) ← Unbond delAddr valAddr sharesAmount;
  match err with
  | Some err => mret (0, Some err)
  | None =>
  (if IsBonded validator then bondedTokensToNotBonded returnAmount else mret tt);;
  unbondingTime ← UnbondingTime;
  let completionTime := BlockTime ctx + unbondingTime in
  ubd ← SetUnbondingDelegationEntry delAddr valAddr (BlockHeight ctx) completionTime returnAmount;
  InsertUBDQueue ubd completionTime;;
  mret (completionTime, None)
  end end.

(** *** CompleteUnbonding *)

(** [*entry] for the pointer [entry := &ubd.Entries[i]]. *)
Definition load {A} (s : Slice A) (p : nat) : M A :=
  match deref s p with
  | Some x => mret x
  | None => panic "invalid memory address"
  end.

(** The loop [for i := 0; i < len(ubd.Entries); i++].  Every turn either
    advances [i] or shortens the slice, so [len - i] turns are enough;
    [fuel] counts them.  The result is the slice and the balances at the
    loop's exit, or the error of the early [return nil, err]. *)
Fixpoint completeUnbondingLoop (fuel : nat) (ctxTime : GoTime) (bondDenom : string)
    (delegatorAddress : Address) (i : Z) (entries : Slice UnbondingDelegationEntry)
    (balances : Coins) : M (Slice UnbondingDelegationEntry * Coins + Error) :=
  if i <? Z.of_nat (len entries) then
    match fuel with
    | O => panic "loop bound exceeded"
    | S fuel =>
        let p := Z.to_nat i in
        _ ← at_index entries p;
        entry ← load entries p;
        if ubde_IsMature entry ctxTime then
          if negb (ubde_OnHold entry) then
            let entries := RemoveEntry p entries in
            let i := i - 1 in
            entry ← load entries p;
            if negb (ubde_Balance entry =? 0) then
              entry ← load entries p;
              amt ← NewCoin bondDenom (ubde_Balance entry);
              err ← bankCall (UndelegateCoinsFromModuleToAccount NotBondedPool delegatorAddress
                                (NewCoins amt));
              match err with
              | Some err => mret (inr err)
              | None =>
                  balances ← Coins_Add balances amt;
                  completeUnbondingLoop fuel ctxTime bondDenom delegatorAddress (i + 1) entries
                    balances
              end
            else completeUnbondingLoop fuel ctxTime bondDenom delegatorAddress (i + 1) entries balances
          else completeUnbondingLoop fuel ctxTime bondDenom delegatorAddress (i + 1) entries balances
        else completeUnbondingLoop fuel ctxTime bondDenom delegatorAddress (i + 1) entries balances
    end
  else mret (inl (entries, balances)).

Definition CompleteUnbonding (ctx : Context) (delAddr valAddr : Address)
    : M (Coins * option Error) :=
  found ← GetUnbondingDelegation delAddr valAddr;
  match found with
  | None => mret ([], Some ErrNoUnbondingDelegation)
  | Some ubd =>
  bondDenom ← BondDenom;
  let balances : Coins := [] in
  let ctxTime := BlockTime ctx in
  match AccAddressFromBech32 k (ubd_DelegatorAddress ubd) with
  | None => mret ([], Some (ErrBech32 (ubd_DelegatorAddress ubd)))
  | Some delegatorAddress =>
  let entries := of_list (ubd_Entries ubd) in
  r ← completeUnbondingLoop (len entries) ctxTime bondDenom delegatorAddress 0 entries balances;
  match r with
  | inr err => mret ([], Some err)
  | inl (entries, balances) =>
      let ubd := ubd_setEntries (visible entries) ubd in
      (if decide (len entries = 0%nat)
       then RemoveUnbondingDelegation ubd
       else SetUnbondingDelegation ubd);;
      mret (balances, None)
  end end end.

(** *** The hold protocol *)

Definition PutUnbondingDelegationEntryOnHold (id : N) : M bool :=
  found ← GetUnbondingDelegationByUnbondingOpId id;
  match found with
  | None => mret false
  | Some ubd =>
  match unbondingDelegationEntryArrayIndex ubd id with
  | None => mret false
  | Some i =>
      let entries := of_list (ubd_Entries ubd) in
      entry ← at_index entries i;
      let entries := mkSlice (<[i := ubde_setOnHold true entry]> (arr entries)) (len entries) in
      SetUnbondingDelegation (ubd_setEntries (visible entries) ubd);;
      mret true
  end end.

Definition UnbondingDelegationCanComplete (ctx : Context) (id : N) : M (bool * option Error) :=
  found ← GetUnbondingDelegationByUnbondingOpId id;
  match found with
  | None => mret (false, None)
  | Some ubd =>
  match unbondingDelegationEntryArrayIndex ubd id with
  | None => mret (false, None)
  | Some i =>
  let entries := of_list (ubd_Entries ubd) in
  entry ← at_index entries i;
  r ← (if negb (ubde_IsMature entry (BlockTime ctx)) then
         (* If not matured, set onHold to false *)
         entry ← at_index entries i;
         mret (inl (mkSlice (<[i := ubde_setOnHold false entry]> (arr entries)) (len entries)))
       else
         (* If matured, complete it. *)
         match AccAddressFromBech32 k (ubd_DelegatorAddress ubd) with
         | None => mret (inr (true, Some (ErrBech32 (ubd_DelegatorAddress ubd))))
         | Some delegatorAddress =>
             bondDenom ← BondDenom;
             (* Remove entry *)
             let entries := RemoveEntry i entries in
             (* Remove from the index: the id is read at index i of the
                slice as it is after the removal *)
             entry ← at_index entries i;
             DeleteUBDByUnbondingOpIndex (ubde_Id entry);;
             entry ← at_index entries i;
             if negb (ubde_Balance entry =? 0) then
               entry ← at_index entries i;
               amt ← NewCoin bondDenom (ubde_Balance entry);
               err ← bankCall (UndelegateCoinsFromModuleToAccount NotBondedPool delegatorAddress
                                 (NewCoins amt));
               match err with
               | Some err => mret (inr (false, Some err))
               | None => mret (inl entries)
               end
             else mret (inl entries)
         end);
  match r with
  | inr early => mret early
  | inl entries =>
      let ubd := ubd_setEntries (visible entries) ubd in
      (if decide (len entries = 0%nat)
       then RemoveUnbondingDelegation ubd
       else SetUnbondingDelegation ubd);;
      mret (true, None)
  end end end.

Definition PutRedelegationEntryOnHold (id : N) : M bool :=
  found ← GetRedelegationByUnbondingOpId id;
  match found with
  | None => mret false
  | Some red =>
  match redelegationEntryArrayIndex red id with
  | None => mret false
  | Some i =>
      let entries := of_list (red_Entries red) in
      entry ← at_index entries i;
      let entries := mkSlice (<[i := rede_setOnHold true entry]> (arr entries)) (len entries) in
      SetRedelegation (red_setEntries (visible entries) red);;
      mret true
  end end.

Definition RedelegationCanComplete (ctx : Context) (id : N) : M (bool * option Error) :=
  found ← GetRedelegationByUnbondingOpId id;
  match found with
  | None => mret (false, None)
  | Some red =>
  match redelegationEntryArrayIndex red id with
  | None => mret (false, None)
  | Some i =>
  let entries := of_list (red_Entries red) in
  entry ← at_index entries i;
  (if negb (rede_IsMature entry (BlockTime ctx)) then
     (* If not matured, set onHold to false: the record is not written back *)
     mret tt
   else
     let entries := RemoveEntry i entries in
     entry ← at_index entries i;
     DeleteREDByUnbondingOpIndex (rede_Id entry);;
     let red := red_setEntries (visible entries) red in
     if decide (len entries = 0%nat)
     then RemoveRedelegation red
     else SetRedelegation red);;
  mret (true, None)
  end end.

Definition PutUnbondingOpOnHold (id : N) : M bool :=
  found ← GetUnbondingDelegationByUnbondingOpId id;
  if found is Some _ then PutUnbondingDelegationEntryOnHold id else
  found ← GetRedelegationByUnbondingOpId id;
  if found is Some _ then PutRedelegationEntryOnHold id else
  mret false.

Definition UnbondingOpCanComplete (ctx : Context) (id : N) : M (bool * option Error) :=
  found ← GetUnbondingDelegationByUnbondingOpId id;
  if found is Some _ then UnbondingDelegationCanComplete ctx id else
  found ← GetRedelegationByUnbondingOpId id;
  if found is Some _ then RedelegationCanComplete ctx id else
  mret (false, None).

(** *** BeginRedelegation *)
Definition BeginRedelegation (ctx : Context) (delAddr valSrcAddr valDstAddr : Address)
    (sharesAmount : Dec) : M (GoTime * option Error) :=
  if decide (valSrcAddr = valDstAddr) then mret (0, Some ErrSelfRedelegation) else
  found ← GetValidator valDstAddr;
  match found with
  | None => mret (0, Some ErrBadRedelegationDst)
  | Some dstValidator =>
  found ← GetValidator valSrcAddr;
  match found with
  | None => mret (0, Some ErrBadRedelegationDst)
  | Some srcValidator =>
  transitive ← HasReceivingRedelegation delAddr valSrcAddr;
  if (transitive : bool) then mret (0, Some ErrTransitiveRedelegation) else
  hasMax ← HasMaxRedelegationEntries delAddr valSrcAddr valDstAddr;
  if (hasMax : bool) then mret (0, Some ErrMaxRedelegationEntries) else
  '(returnAmount, err) ← Unbond delAddr valSrcAddr sharesAmount;
  match err with
  | Some err => mret (0, Some err)
  | None =>
  if returnAmount =? 0 then mret (0, Some ErrTinyRedelegationAmount) else
  '(sharesCreated, err) ← Delegate delAddr returnAmount (val_Status srcValidator) dstValidator false;
  match err with
  | Some err => mret (0, Some err)
  | None =>
  '(completionTime, height, completeNow) ← getBeginInfo ctx valSrcAddr;
  if (completeNow : bool) then mret (completionTime, None) else
  red ← SetRedelegationEntry delAddr valSrcAddr valDstAddr height completionTime returnAmount
          sharesAmount sharesCreated;
  InsertRedelegationQueue red completionTime;;
  mret (completionTime, None)
  end end end end.
End KeeperMethods.

(** ** CompleteRedelegation and ValidateUnbondAmount *)

(** The loop [for i := 0; i < len(red.Entries); i++] of
    [CompleteRedelegation], with [fuel] as in [completeUnbondingLoop].  No
    call leaves the keeper: the initial balance read through the entry
    pointer is only added to [balances]. *)
Fixpoint completeRedelegationLoop (fuel : nat) (ctxTime : GoTime) (bondDenom : string)
    (i : Z) (entries : Slice RedelegationEntry) (balances : Coins)
    : M (Slice RedelegationEntry * Coins) :=
  if i <? Z.of_nat (len entries) then
    match fuel with
    | O => panic "loop bound exceeded"
    | S fuel =>
        let p := Z.to_nat i in
        _ ← at_index entries p;
        entry ← load entries p;
        if rede_IsMature entry ctxTime then
          if negb (rede_OnHold entry) then
            let entries := RemoveEntry p entries in
            let i := i - 1 in
            entry ← load entries p;
            if negb (rede_InitialBalance entry =? 0) then
              entry ← load entries p;
              coin ← NewCoin bondDenom (rede_InitialBalance entry);
              balances ← Coins_Add balances coin;
              completeRedelegationLoop fuel ctxTime bondDenom (i + 1) entries balances
            else completeRedelegationLoop fuel ctxTime bondDenom (i + 1) entries balances
          else completeRedelegationLoop fuel ctxTime bondDenom (i + 1) entries balances
        else completeRedelegationLoop fuel ctxTime bondDenom (i + 1) entries balances
    end
  else mret (entries, balances).

(** Errors of the query-side validation, beside the staking errors. *)
Inductive RequestError :=
| ErrNoDelegation
| ErrInvalidRequest (msg : string)
| StakingError (e : Error).

Section MoreKeeperMethods.
Context (k : Keeper).

Definition CompleteRedelegation (ctx : Context) (delAddr valSrcAddr valDstAddr : Address)
    : M (Coins * option Error) :=
  found ← GetRedelegation delAddr valSrcAddr valDstAddr;
  match found with
  | None => mret ([], Some ErrNoRedelegation)
  | Some red =>
  bondDenom ← BondDenom;
  let balances : Coins := [] in
  let ctxTime := BlockTime ctx in
  let entries := of_list (red_Entries red) in
  '(entries, balances) ← completeRedelegationLoop (len entries) ctxTime bondDenom 0 entries balances;
  let red := red_setEntries (visible entries) red in
  (if decide (len entries = 0%nat)
   then RemoveRedelegation k red
   else SetRedelegation k red);;
  mret (balances, None)
  end.

(** [validator.SharesFromTokens] and [validator.SharesFromTokensTruncated]
    belong to the validator type, declared outside this file: they are
    taken as they come, with the error they may answer. *)
Context (SharesFromTokens SharesFromTokensTruncated : Validator → Int → Dec * option RequestError).

Definition ValidateUnbondAmount (delAddr valAddr : Address) (amt : Int)
    : M (Dec * option RequestError) :=
  found ← GetValidator valAddr;
  match found with
  | None => mret (0, Some (StakingError ErrNoValidatorFound))
  | Some validator =>
  found ← GetDelegation delAddr valAddr;
  match found with
  | None => mret (0, Some ErrNoDelegation)
  | Some del =>
  let '(shares, err) := SharesFromTokens validator amt in
  match err with
  | Some err => mret (shares, Some err)
  | None =>
  let '(sharesTruncated, err) := SharesFromTokensTruncated validator amt in
  match err with
  | Some err => mret (shares, Some err)
  | None =>
  let delShares := del_Shares del in
  if delShares <? sharesTruncated
  then mret (shares, Some (ErrInvalidRequest "invalid shares amount")) else
  let shares := if delShares <? shares then delShares else shares in
  mret (shares, None)
  end end end end.
End MoreKeeperMethods.

(** ** The loop of CompleteUnbonding as a function of the entries

    What the loop does to the entries it still has to visit: the entries
    it keeps, in order, and the balances it releases, in order.  When an
    entry is removed, the balance is read through the entry pointer after
    the later entries have moved down: it is the balance of the entry that
    followed, or the removed entry's own when none did.  ([sweepEntries] is
    proved to agree with [completeUnbondingLoop] below.) *)
Fixpoint sweepEntries (ctxTime : GoTime) (es : list UnbondingDelegationEntry)
    : list UnbondingDelegationEntry * list Int :=
  match es with
  | [] => ([], [])
  | entry :: rest =>
      let swept := sweepEntries ctxTime rest in
      if ubde_IsMature entry ctxTime && negb (ubde_OnHold entry) then
        let balance := ubde_Balance (hd entry rest) in
        (swept.1, if balance =? 0 then swept.2 else balance :: swept.2)
      else (entry :: swept.1, swept.2)
  end.

(** ** A concrete keeper and concrete states

    An environment to run the methods in: addresses are their own bech32
    text, the custody keeper accepts every transfer, and the validator
    methods follow the specification's registry (set, remove, and the
    proportional token/share arithmetic). *)

Definition val_setJailed (v : Validator) : Validator :=
  mkValidator (val_Operator v) (val_Status v) true (val_Tokens v) (val_DelegatorShares v)
    (val_UnbondingHeight v) (val_UnbondingTime v) (val_MinSelfDelegation v).

Definition val_setTokensShares (tokens : Int) (shares : Dec) (v : Validator) : Validator :=
  mkValidator (val_Operator v) (val_Status v) (val_Jailed v) tokens shares
    (val_UnbondingHeight v) (val_UnbondingTime v) (val_MinSelfDelegation v).

(** Modelled from the spec: [tokensFromShares], the proportional conversion
    shares * totalTokens / totalShares. *)
Definition demoTokensFromShares (v : Validator) (shares : Dec) : Dec :=
  if val_DelegatorShares v =? 0 then 0
  else (shares * (val_Tokens v * 10 ^ 18)) ÷ val_DelegatorShares v.

(** Modelled from the spec: [removeTokensAndShares] mutates the validator
    aggregate and returns the tokens taken out, truncated; removing the
    last shares takes out all the tokens. *)
Definition demoRemoveTokensAndShares (vals : gmap Address Validator) (v : Validator)
    (shares : Dec) : gmap Address Validator * Validator * Int :=
  let remaining := val_DelegatorShares v - shares in
  let issued := if remaining =? 0 then val_Tokens v
                else TruncateInt (demoTokensFromShares v shares) in
  let v' := val_setTokensShares (val_Tokens v - issued) remaining v in
  (<[val_Operator v := v']> vals, v', issued).

(** Modelled from the spec: [addTokensAndShares] mutates the validator
    aggregate and returns the shares issued. *)
Definition demoAddTokensAndShares (vals : gmap Address Validator) (v : Validator)
    (amt : Int) : gmap Address Validator * Validator * Dec :=
  let issued := if val_DelegatorShares v =? 0 then amt * 10 ^ 18
                else (val_DelegatorShares v * amt) ÷ val_Tokens v in
  let v' := val_setTokensShares (val_Tokens v + amt) (val_DelegatorShares v + issued) v in
  (<[val_Operator v := v']> vals, v', issued).

(** Modelled from the spec: the exchange rate of a validator is invalid
    once it has delegator shares and no tokens left. *)
Definition demoInvalidExRate (v : Validator) : bool :=
  (val_Tokens v =? 0) && (0 <? val_DelegatorShares v).

Definition demoKeeper : Keeper :=
  mkKeeper Some Some id id (λ _ _, None) demoTokensFromShares demoInvalidExRate
    (λ vals v, <[val_Operator v := val_setJailed v]> vals)
    demoRemoveTokensAndShares demoAddTokensAndShares
    (λ vals valAddr, delete valAddr vals).

Definition demoParams : Params := mkParams 100 7 "stake".

(** Block time 10, height 3. *)
Definition demoCtx : Context := mkContext 10 3.

(** Unbonding entries of alice with validator "val": entry 1 completes at
    time 5 with balance 10, entry 2 at time 50 with balance 20, entry 3 at
    time 8 with balance 20. *)
Definition entry1 : UnbondingDelegationEntry := mkUBDEntry 1 0 5 10 10 false.
Definition entry2 : UnbondingDelegationEntry := mkUBDEntry 2 0 50 20 20 false.
Definition entry3 : UnbondingDelegationEntry := mkUBDEntry 3 0 8 20 20 false.

(** The store the keeper builds for an unbonding delegation of alice with
    "val": the record, its by-validator index key, and one
    unbonding-operation index key per entry. *)
Definition ubdStore (es : list UnbondingDelegationEntry) : gmap Key Value :=
  foldr (λ e, insert (KUnbondingOpIndex (ubde_Id e)) (VKey (KUBD "alice" "val")))
        (<[KUBD "alice" "val" := VUBD (mkUBD "alice" "val" es)]>
           {[KUBDByValIndex "val" "alice" := VEmpty]}) es.

Definition ubdState (es : list UnbondingDelegationEntry) : State :=
  mkState (ubdStore es) ∅ [] [] demoParams.

(** Redelegation entries of alice from "src" to "dst". *)
Definition rentry1 : RedelegationEntry := mkREDEntry 1 0 5 10 10 false.
Definition rentry2 : RedelegationEntry := mkREDEntry 2 0 50 20 20 false.

Definition redStore (es : list RedelegationEntry) : gmap Key Value :=
  foldr (λ e, insert (KUnbondingOpIndex (rede_Id e)) (VKey (KRED "alice" "src" "dst")))
        (<[KRED "alice" "src" "dst" := VRED (mkRED "alice" "src" "dst" es)]>
           (<[KREDByValSrcIndex "src" "alice" "dst" := VEmpty]>
              {[KREDByValDstIndex "dst" "alice" "src" := VEmpty]})) es.

Definition redState (es : list RedelegationEntry) : State :=
  mkState (redStore es) ∅ [] [] demoParams.

(** An unbonding queue with one bucket, at time 7. *)
Definition queueState : State :=
  mkState {[KUnbondingDelegationTime 7 := VDVPairs [mkDVPair "alice" "val"]]} ∅ [] [] demoParams.

Definition redQueueState : State :=
  mkState {[KRedelegationTime 7 := VDVVTriplets [mkDVVTriplet "alice" "src" "dst"]]}
          ∅ [] [] demoParams.

(** Validators "src" (with the given status) and "dst" (bonded), each with
    100 tokens for 100 shares, and alice's delegation of all 100 shares of
    "src". *)
Definition demoValidator (operator : Address) (status : BondStatus) : Validator :=
  mkValidator operator status false 100 (100 * 10 ^ 18) 4 40 1.

Definition stakeState (srcStatus : BondStatus) : State :=
  mkState {[KDelegation "alice" "src" := VDelegation (mkDelegation "alice" "src" (100 * 10 ^ 18))]}
          (<["src" := demoValidator "src" srcStatus]> {["dst" := demoValidator "dst" Bonded]})
          [] [] demoParams.

(** The same keeper with another custody keeper: [verdict] answers each
    transfer from the log of the transfers made so far. *)
Definition demoKeeperWithBank (verdict : list BankCall → BankCall → option Error) : Keeper :=
  mkKeeper Some Some id id verdict demoTokensFromShares demoInvalidExRate
    (λ vals v, <[val_Operator v := val_setJailed v]> vals)
    demoRemoveTokensAndShares demoAddTokensAndShares
    (λ vals valAddr, delete valAddr vals).

(** A custody keeper that performs one transfer and refuses the next. *)
Definition oneTransferOnly (log : list BankCall) (c : BankCall) : option Error :=
  if log is [] then None else Some (ErrBank 5).

(** ** Reasoning about outcomes *)

Lemma bind_Done {A B} (m : M A) (f : A → M B) s a s' :
  m s = Done a s' → (m ≫= f) s = f a s'.
Proof. intros H. unfold mbind, M_bind. by rewrite H. Qed.

Lemma bind_Panic {A B} (m : M A) (f : A → M B) s msg :
  m s = Panic msg → (m ≫= f) s = Panic msg.
Proof. intros H. unfold mbind, M_bind. by rewrite H. Qed.

Lemma bind_gets {A B} (g : State → A) (f : A → M B) s :
  (gets g ≫= f) s = f (g s) s.
Proof. reflexivity. Qed.

Lemma bind_modify {B} (g : State → State) (f : unit → M B) s :
  (modify g ≫= f) s = f tt (g s).
Proof. reflexivity. Qed.

Lemma bind_ret {A B} (a : A) (f : A → M B) s :
  (mret a ≫= f) s = f a s.
Proof. reflexivity. Qed.

Lemma bind_callHook {B} (h : Hook) (f : unit → M B) s :
  (callHook h ≫= f) s = f tt (with_hooks (λ l, l ++ [h]) s).
Proof. reflexivity. Qed.

Lemma bind_assoc {A B C} (m : M A) (f : A → M B) (g : B → M C) s :
  ((m ≫= f) ≫= g) s = (m ≫= (λ a, f a ≫= g)) s.
Proof. unfold mbind, M_bind. by destruct (m s). Qed.

(** Running a method on a concrete state: the outcome is computed, then
    read off. *)
Lemma Done_intro {A} (r : Res A) (a : A) (P : State → Prop) :
  match r with Done a' s' => a' = a ∧ P s' | Panic _ => False end →
  ∃ s', r = Done a s' ∧ P s'.
Proof. destruct r as [a' s'|]; [|done]. intros [-> HP]. eauto. Qed.

Ltac run := apply Done_intro; vm_compute; repeat split.

(** The state a run ends in, named by the run itself. *)
Lemma Done_stateOf {A} (r : Res A) (a : A) (s0 : State) :
  match r with Done a' _ => a' = a | Panic _ => False end → r = Done a (stateOf r s0).
Proof. destruct r as [a' s'|]; [|done]. by intros ->. Qed.

Ltac msimpl :=
  repeat first [rewrite bind_assoc | rewrite bind_ret | rewrite bind_gets | rewrite bind_modify].

Ltac munfold :=
  unfold storeGet, storeSet, storeDelete, callHook in *;
  unfold mbind, M_bind, mret, M_ret, gets, modify, panic in *.

(** ** Guards that return before any write *)

Section Guards.
Context (k : Keeper) (ctx : Context).

Lemma GetValidator_eq valAddr s :
  GetValidator valAddr s = Done (validators s !! valAddr) s.
Proof. reflexivity. Qed.

Lemma GetUnbondingDelegation_found delAddr valAddr ubd s :
  store s !! KUBD delAddr valAddr = Some (VUBD ubd) →
  GetUnbondingDelegation delAddr valAddr s = Done (Some ubd) s.
Proof. intros H. unfold GetUnbondingDelegation, GetUBDKey. munfold. by rewrite H. Qed.

Lemma HasMaxUnbondingDelegationEntries_full delAddr valAddr ubd s :
  store s !! KUBD delAddr valAddr = Some (VUBD ubd) →
  Z.of_N (p_MaxEntries (params s)) ≤ Z.of_nat (length (ubd_Entries ubd)) →
  HasMaxUnbondingDelegationEntries delAddr valAddr s = Done true s.
Proof.
  intros Hubd Hmax. unfold HasMaxUnbondingDelegationEntries.
  rewrite (bind_Done _ _ _ _ _ (GetUnbondingDelegation_found _ _ _ _ Hubd)).
  unfold MaxEntries. rewrite bind_gets. munfold.
  by rewrite bool_decide_eq_true_2.
Qed.

(** C10: when no validator record exists for the validator address,
    [Undelegate] returns [ErrNoDelegatorForAddress] (not
    [ErrNoValidatorFound]) before any share is unbonded, and the state it
    leaves is the state it was called in. *)
Theorem Undelegate_unknown_validator delAddr valAddr sharesAmount s :
  validators s !! valAddr = None →
  Undelegate k ctx delAddr valAddr sharesAmount s
    = Done (0, Some ErrNoDelegatorForAddress) s.
Proof.
  intros Hval. unfold Undelegate.
  rewrite (bind_Done _ _ _ _ _ (GetValidator_eq _ _)), Hval. reflexivity.
Qed.

(** C5: when the unbonding delegation record between the delegator and
    the validator already holds at least [MaxEntries] entries,
    [Undelegate] fails with [ErrMaxUnbondingDelegationEntries] and leaves
    the whole state (record, delegation, queue, index, counter, custody,
    hooks) as it was. *)
Theorem Undelegate_max_entries delAddr valAddr sharesAmount validator ubd s :
  validators s !! valAddr = Some validator →
  store s !! KUBD delAddr valAddr = Some (VUBD ubd) →
  Z.of_N (p_MaxEntries (params s)) ≤ Z.of_nat (length (ubd_Entries ubd)) →
  Undelegate k ctx delAddr valAddr sharesAmount s
    = Done (0, Some ErrMaxUnbondingDelegationEntries) s.
Proof.
  intros Hval Hubd Hmax. unfold Undelegate.
  rewrite (bind_Done _ _ _ _ _ (GetValidator_eq _ _)), Hval.
  by rewrite (bind_Done _ _ _ _ _ (HasMaxUnbondingDelegationEntries_full _ _ _ _ Hubd Hmax)).
Qed.

(** C7: [BeginRedelegation] with equal source and destination validator
    addresses fails with [ErrSelfRedelegation], whatever the delegator and
    the share amount, and the state is returned untouched: the check comes
    before any read or write. *)
Theorem BeginRedelegation_self delAddr valAddr sharesAmount s :
  BeginRedelegation k ctx delAddr valAddr valAddr sharesAmount s
    = Done (0, Some ErrSelfRedelegation) s.
Proof. unfold BeginRedelegation. by rewrite decide_True. Qed.
End Guards.

(** C10 at work: "val" has no validator record in alice's unbonding state. *)
Lemma Undelegate_unknown_validator_at_work :
  validators (ubdState [entry1]) !! "val" = None
  ∧ Undelegate demoKeeper demoCtx "alice" "val" 5 (ubdState [entry1])
    = Done (0, Some ErrNoDelegatorForAddress) (ubdState [entry1]).
Proof.
  split; [reflexivity|].
  apply (Undelegate_unknown_validator demoKeeper demoCtx "alice" "val" 5 (ubdState [entry1])).
  reflexivity.
Defined.

(** C5 at work: with [MaxEntries] 2, alice's record with "val" is full. *)
Lemma Undelegate_max_entries_at_work :
  (p_MaxEntries (mkParams 100 2 "stake") = 2%N
   ∧ length [entry1; entry2] = 2%nat)
  ∧ Undelegate demoKeeper demoCtx "alice" "val" 5
      (mkState (ubdStore [entry1; entry2]) {["val" := demoValidator "val" Bonded]} [] []
               (mkParams 100 2 "stake"))
    = Done (0, Some ErrMaxUnbondingDelegationEntries)
        (mkState (ubdStore [entry1; entry2]) {["val" := demoValidator "val" Bonded]} [] []
                 (mkParams 100 2 "stake")).
Proof.
  split; [split; reflexivity|].
  apply (Undelegate_max_entries demoKeeper demoCtx "alice" "val" 5 (demoValidator "val" Bonded)
           (mkUBD "alice" "val" [entry1; entry2])).
  - vm_compute; reflexivity.
  - vm_compute; reflexivity.
  - vm_compute; discriminate.
Defined.

(** ** Unbond and the delegation record *)

Section UnbondRecord.
Context (k : Keeper).

Lemma GetDelegation_found delAddr valAddr d s :
  store s !! KDelegation delAddr valAddr = Some (VDelegation d) →
  GetDelegation delAddr valAddr s = Done (Some d) s.
Proof. intros H. unfold GetDelegation, GetDelegationKey. munfold. by rewrite H. Qed.

(** C8: for an existing delegation (stored under its own addresses, to a
    validator of the registry) holding at least [shares], [Unbond] returns
    without error; with [shares] equal to the delegation's shares the
    delegation record is deleted from the store (after the before-removed
    notification); with a strictly smaller amount the record stays, its
    shares reduced by exactly [shares], and the after-modify hook fires.
    Nothing else in the store changes. *)
Theorem Unbond_delegation_record delAddr valAddr shares d validator s :
  store s !! KDelegation delAddr valAddr = Some (VDelegation d) →
  AccAddressFromBech32 k (del_DelegatorAddress d) = Some delAddr →
  ValAddressFromBech32 k (del_ValidatorAddress d) = Some valAddr →
  shares ≤ del_Shares d →
  validators s !! valAddr = Some validator →
  is_Some (jailValidator k (validators s) validator !! val_Operator validator) →
  ∃ amount s',
    Unbond k delAddr valAddr shares s = Done (amount, None) s'
    ∧ (shares = del_Shares d →
       store s' = delete (KDelegation delAddr valAddr) (store s)
       ∧ hooks s' = hooks s ++ [BeforeDelegationSharesModified delAddr valAddr;
                                BeforeDelegationRemoved delAddr valAddr])
    ∧ (shares < del_Shares d →
       store s' = <[KDelegation delAddr valAddr :=
                      VDelegation (del_setShares (del_Shares d - shares) d)]> (store s)
       ∧ hooks s' = hooks s ++ [BeforeDelegationSharesModified delAddr valAddr;
                                AfterDelegationModified delAddr valAddr]).
Proof.
  intros Hrec Hdel Hval Hsh Hv [jailed Hjail]. unfold Unbond.
  rewrite (bind_Done _ _ _ _ _ (GetDelegation_found _ _ _ _ Hrec)). cbv beta iota.
  rewrite bind_callHook.
  rewrite (proj2 (Z.ltb_ge _ _) Hsh).
  rewrite (bind_Done _ _ _ _ _ (GetValidator_eq _ _)). cbn [validators with_hooks]. rewrite Hv.
  cbv beta iota.
  change (del_DelegatorAddress (del_setShares (del_Shares d - shares) d))
    with (del_DelegatorAddress d).
  rewrite Hdel.
  set (d' := del_setShares (del_Shares d - shares) d).
  set (s0 := with_hooks _ s).
  assert (∃ v1 s1, ((if bool_decide (delAddr = GetOperator validator) && negb (val_Jailed validator)
                       && (TruncateInt (TokensFromShares k validator (del_Shares d'))
                             <? val_MinSelfDelegation validator)
                    then modify (with_validators (λ vals, jailValidator k vals validator));;
                         mustGetValidator (GetOperator validator)
                    else mret validator) : M Validator) s0 = Done v1 s1
                 ∧ store s1 = store s ∧ hooks s1 = hooks s0) as (v1 & s1 & Hjailed & Hst1 & Hh1).
  { case_match.
    - eexists _, _. split.
      + rewrite bind_modify. unfold mustGetValidator, GetValidator.
        rewrite bind_gets. cbn [validators with_validators with_hooks s0]. unfold GetOperator.
        rewrite Hjail. reflexivity.
      + done.
    - by eexists _, _. }
  rewrite (bind_Done _ _ _ _ _ Hjailed). clear Hjailed.
  assert (del_Shares d' = del_Shares d - shares) as Hd' by done.
  assert (∃ s2, ((if del_Shares d' =? 0
                  then RemoveDelegation k d'
                  else SetDelegation k d';;
                       valAddr' ← mustValAddress k (del_ValidatorAddress d');
                       callHook (AfterDelegationModified delAddr valAddr')) : M unit) s1 = Done tt s2
                ∧ validators s2 = validators s1 ∧ bank s2 = bank s1 ∧ params s2 = params s1
                ∧ (shares = del_Shares d →
                   store s2 = delete (KDelegation delAddr valAddr) (store s)
                   ∧ hooks s2 = hooks s ++ [BeforeDelegationSharesModified delAddr valAddr;
                                            BeforeDelegationRemoved delAddr valAddr])
                ∧ (shares < del_Shares d →
                   store s2 = <[KDelegation delAddr valAddr := VDelegation d']> (store s)
                   ∧ hooks s2 = hooks s ++ [BeforeDelegationSharesModified delAddr valAddr;
                                            AfterDelegationModified delAddr valAddr]))
    as (s2 & Hwrite & Hvals2 & Hbank2 & Hpar2 & Hfull & Hpart).
  { destruct (del_Shares d' =? 0) eqn:Hz.
    - apply Z.eqb_eq in Hz.
      unfold RemoveDelegation, SetDelegation, mustAccAddress, mustValAddress.
      simpl del_DelegatorAddress. simpl del_ValidatorAddress. rewrite Hdel, Hval.
      eexists. split; [reflexivity|]. simpl. rewrite Hst1, Hh1. simpl.
      split_and!; try done; [|intros; lia].
      intros _. split; [done|]. by rewrite <-(assoc_L (++)).
    - apply Z.eqb_neq in Hz.
      unfold RemoveDelegation, SetDelegation, mustAccAddress, mustValAddress.
      simpl del_DelegatorAddress. simpl del_ValidatorAddress. rewrite Hdel, Hval.
      eexists. split; [reflexivity|]. simpl. rewrite Hst1, Hh1. simpl.
      split_and!; try done; [intros; lia|].
      intros _. split; [done|]. by rewrite <-(assoc_L (++)). }
  rewrite (bind_Done _ _ _ _ _ Hwrite). clear Hwrite.
  rewrite bind_gets.
  destruct (RemoveValidatorTokensAndShares k (validators s2) v1 shares) as [[vals v2] amount].
  rewrite bind_modify.
  case_match; msimpl; eexists _, _; (split; [reflexivity|]); simpl; done.
Qed.
End UnbondRecord.

(** C8 at work: alice unbonds 30 of her 100 shares of the bonded "src". *)
Lemma Unbond_delegation_record_at_work :
  (store (stakeState Bonded) !! KDelegation "alice" "src"
   = Some (VDelegation (mkDelegation "alice" "src" (100 * 10 ^ 18)))
   ∧ 30 * 10 ^ 18 ≤ 100 * 10 ^ 18
   ∧ validators (stakeState Bonded) !! "src" = Some (demoValidator "src" Bonded))
  ∧ ∃ amount s',
      Unbond demoKeeper "alice" "src" (30 * 10 ^ 18) (stakeState Bonded) = Done (amount, None) s'
      ∧ (30 * 10 ^ 18 = 100 * 10 ^ 18 →
         store s' = delete (KDelegation "alice" "src") (store (stakeState Bonded))
         ∧ hooks s' = hooks (stakeState Bonded)
                      ++ [BeforeDelegationSharesModified "alice" "src";
                          BeforeDelegationRemoved "alice" "src"])
      ∧ (30 * 10 ^ 18 < 100 * 10 ^ 18 →
         store s' = <[KDelegation "alice" "src" :=
                        VDelegation (del_setShares (100 * 10 ^ 18 - 30 * 10 ^ 18)
                                       (mkDelegation "alice" "src" (100 * 10 ^ 18)))]>
                      (store (stakeState Bonded))
         ∧ hooks s' = hooks (stakeState Bonded)
                      ++ [BeforeDelegationSharesModified "alice" "src";
                          AfterDelegationModified "alice" "src"]).
Proof.
  split; [split_and!; [reflexivity|lia|reflexivity]|].
  apply (Unbond_delegation_record demoKeeper "alice" "src" (30 * 10 ^ 18)
           (mkDelegation "alice" "src" (100 * 10 ^ 18)) (demoValidator "src" Bonded)
           (stakeState Bonded)).
  - reflexivity.
  - reflexivity.
  - reflexivity.
  - simpl; lia.
  - reflexivity.
  - eexists. vm_compute. reflexivity.
Defined.

(** ** BeginRedelegation: the source validator is read again *)

(** C6, as stated, fails: "src" is Unbonded and alice redelegates all of
    its shares; the unbond removes the emptied validator, the second look
    at "src" finds no record, and the redelegation does not complete at
    once: an entry completing at block time + unbonding time (10 + 100) is
    created and queued. *)
Lemma BeginRedelegation_unbonded_source_emptied :
  val_Status <$> validators (stakeState Unbonded) !! "src" = Some Unbonded
  ∧ ∃ s', BeginRedelegation demoKeeper demoCtx "alice" "src" "dst" (100 * 10 ^ 18)
            (stakeState Unbonded) = Done (110, None) s'
          ∧ validators s' !! "src" = None
          ∧ store s' !! KRED "alice" "src" "dst"
            = Some (VRED (mkRED "alice" "src" "dst"
                            [mkREDEntry 0 3 110 100 (100 * 10 ^ 18) false]))
          ∧ store s' !! KRedelegationTime 110
            = Some (VDVVTriplets [mkDVVTriplet "alice" "src" "dst"]).
Proof.
  split; [vm_compute; reflexivity|run].
Qed.

Section BeginInfo.
Context (k : Keeper) (ctx : Context).

(** The entry [SetRedelegationEntry] adds is the last of the record it
    returns, and carries the height and completion time it was given. *)
Lemma SetRedelegationEntry_last_entry delAddr valSrcAddr valDstAddr height completionTime
    balance sharesSrc sharesDst s red s' :
  SetRedelegationEntry k delAddr valSrcAddr valDstAddr height completionTime balance
    sharesSrc sharesDst s = Done red s' →
  last (red_Entries red) = Some (mkREDEntry 0 height completionTime balance sharesDst false).
Proof.
  unfold SetRedelegationEntry, GetRedelegation, IncrementUnbondingOpId, SetRedelegation,
    SetREDByUnbondingOpIndex, MustUnmarshalRED, mustAccAddress, mustValAddress.
  munfold. intros H.
  repeat (case_match; simplify_eq); simpl; try done; by rewrite last_snoc.
Qed.
End BeginInfo.

(** ** Completing by operation id: the entry read after the removal *)

Section CanComplete.
Context (k : Keeper) (ctx : Context).

Lemma ubdEntryIndexFrom_lookup es id n i :
  ubdEntryIndexFrom es id n = Some i →
  ∃ j e, i = (n + j)%nat ∧ es !! j = Some e ∧ ubde_Id e = id.
Proof.
  revert n. induction es as [|e es IH]; intros n H; simpl in H; [done|].
  case_decide as Hid.
  - injection H as <-. exists 0%nat, e. split_and!; [lia|done|done].
  - destruct (IH _ H) as (j & e' & -> & Hj & Hid'). exists (S j), e'.
    split_and!; [lia|done|done].
Qed.

Lemma unbondingDelegationEntryArrayIndex_lookup ubd id i :
  unbondingDelegationEntryArrayIndex ubd id = Some i →
  ∃ e, ubd_Entries ubd !! i = Some e ∧ ubde_Id e = id.
Proof.
  intros H. apply ubdEntryIndexFrom_lookup in H as (j & e & -> & Hj & Hid). eauto.
Qed.

Lemma index_of_list {A} (l : list A) i : index (of_list l) i = l !! i.
Proof.
  unfold index, of_list; simpl. case_decide as Hlt; [done|].
  symmetry. apply lookup_ge_None. lia.
Qed.

Lemma at_index_of_list {A} (l : list A) i x s :
  l !! i = Some x → at_index (of_list l) i s = Done x s.
Proof. intros H. unfold at_index. by rewrite index_of_list, H. Qed.

Lemma index_RemoveEntry_last {A} (l : list A) i :
  length l = S i → index (RemoveEntry i (of_list l)) i = None.
Proof.
  intros Hlen. unfold index, RemoveEntry, of_list; simpl.
  rewrite decide_False; [done|lia].
Qed.

Lemma GetUnbondingDelegationByUnbondingOpId_found id key ubd s :
  store s !! KUnbondingOpIndex id = Some (VKey key) →
  store s !! key = Some (VUBD ubd) →
  GetUnbondingDelegationByUnbondingOpId id s = Done (Some ubd) s.
Proof.
  intros Hidx Hrec. unfold GetUnbondingDelegationByUnbondingOpId, GetUnbondingOpIndexKey.
  munfold. rewrite Hidx. simpl. by rewrite Hrec.
Qed.

(** C1 (the mature half, as the code has it): when the id resolves
    through the reverse index to the last entry of an existing unbonding
    delegation and that entry is mature, [UnbondingDelegationCanComplete]
    removes the entry and then reads [ubd.Entries[i]] again for the id to
    delete from the index: the index is out of range and the call panics,
    so nothing is released, deleted or persisted. *)
Theorem UnbondingDelegationCanComplete_last_entry_panics id key ubd i e delegatorAddress s :
  store s !! KUnbondingOpIndex id = Some (VKey key) →
  store s !! key = Some (VUBD ubd) →
  unbondingDelegationEntryArrayIndex ubd id = Some i →
  ubd_Entries ubd !! i = Some e →
  length (ubd_Entries ubd) = S i →
  ubde_CompletionTime e ≤ BlockTime ctx →
  AccAddressFromBech32 k (ubd_DelegatorAddress ubd) = Some delegatorAddress →
  UnbondingDelegationCanComplete k ctx id s = Panic "index out of range".
Proof.
  intros Hidx Hrec Hi He Hlast Hmature Haddr. unfold UnbondingDelegationCanComplete.
  rewrite (bind_Done _ _ _ _ _ (GetUnbondingDelegationByUnbondingOpId_found _ _ _ _ Hidx Hrec)).
  rewrite Hi.
  rewrite (bind_Done _ _ _ _ _ (at_index_of_list _ _ _ _ He)).
  unfold ubde_IsMature. rewrite (proj2 (Z.leb_le _ _) Hmature). simpl negb. cbv iota.
  rewrite Haddr. apply bind_Panic.
  unfold BondDenom. rewrite bind_gets. apply bind_Panic.
  unfold at_index. by rewrite (index_RemoveEntry_last _ _ Hlast).
Qed.
End CanComplete.

(** The single mature entry of a record: the call panics. *)
Lemma UnbondingDelegationCanComplete_single_entry :
  store (ubdState [entry1]) !! KUnbondingOpIndex 1 = Some (VKey (KUBD "alice" "val"))
  ∧ UnbondingDelegationCanComplete demoKeeper demoCtx 1 (ubdState [entry1])
    = Panic "index out of range".
Proof.
  split; [vm_compute; reflexivity|].
  apply (UnbondingDelegationCanComplete_last_entry_panics demoKeeper demoCtx
           1 (KUBD "alice" "val") (mkUBD "alice" "val" [entry1]) 0 entry1 "alice");
    vm_compute; (reflexivity || discriminate).
Defined.

(** C4 (as the code has it): completing the mature entry 1 of a record
    that also holds entry 2 deletes the reverse-index key of entry 2, the
    entry that moved into the vacated slot: afterwards the index still has
    the key of the removed entry 1 and has lost the key of entry 2, which
    remains in the record.  [UnbondingDelegationCanComplete] and
    [RedelegationCanComplete] behave alike; when the completed entry is
    the last one of its record, both panic on the out-of-range read. *)
Theorem CanComplete_deletes_the_next_entry_key :
  (∃ s', UnbondingDelegationCanComplete demoKeeper demoCtx 1 (ubdState [entry1; entry2])
           = Done (true, None) s'
         ∧ store s' !! KUBD "alice" "val" = Some (VUBD (mkUBD "alice" "val" [entry2]))
         ∧ store s' !! KUnbondingOpIndex 1 = Some (VKey (KUBD "alice" "val"))
         ∧ store s' !! KUnbondingOpIndex 2 = None)
  ∧ (∃ s', RedelegationCanComplete demoKeeper demoCtx 1 (redState [rentry1; rentry2])
           = Done (true, None) s'
         ∧ store s' !! KRED "alice" "src" "dst" = Some (VRED (mkRED "alice" "src" "dst" [rentry2]))
         ∧ store s' !! KUnbondingOpIndex 1 = Some (VKey (KRED "alice" "src" "dst"))
         ∧ store s' !! KUnbondingOpIndex 2 = None)
  ∧ RedelegationCanComplete demoKeeper demoCtx 1 (redState [rentry1])
    = Panic "index out of range".
Proof.
  split_and!; [run..|vm_compute; reflexivity].
Qed.

(** ** The hold protocol *)


Section HoldProtocol.
Context (k : Keeper) (ctx : Context).

Lemma visible_insert {A} (l : list A) i x :
  visible (mkSlice (<[i:=x]> l) (length l)) = <[i:=x]> l.
Proof. unfold visible; simpl. apply take_ge. by rewrite length_insert. Qed.

Lemma RemoveEntry_of_list_arr {A} (l : list A) i :
  (i < length l)%nat →
  arr (RemoveEntry i (of_list l)) = (take i l ++ drop (S i) l) ++ drop (length l - 1) l.
Proof.
  intros Hi. unfold RemoveEntry, of_list; simpl.
  rewrite (take_ge (drop (S i) l)) by (rewrite length_drop; lia).
  by rewrite (assoc_L (++)).
Qed.

Lemma length_take_drop {A} (l : list A) i :
  (i < length l)%nat → length (take i l ++ drop (S i) l) = (length l - 1)%nat.
Proof. intros Hi. rewrite length_app, length_take, length_drop. lia. Qed.

Lemma visible_RemoveEntry {A} (l : list A) i :
  (i < length l)%nat → visible (RemoveEntry i (of_list l)) = take i l ++ drop (S i) l.
Proof.
  intros Hi. unfold visible. rewrite RemoveEntry_of_list_arr by done. simpl.
  apply take_app_length'. by rewrite length_take_drop.
Qed.

Lemma index_RemoveEntry {A} (l : list A) i j :
  (i < length l)%nat →
  index (RemoveEntry i (of_list l)) j = (take i l ++ drop (S i) l) !! j.
Proof.
  intros Hi. unfold index. rewrite RemoveEntry_of_list_arr by done. simpl.
  case_decide as Hj.
  - apply lookup_app_l. rewrite length_take_drop by done. lia.
  - symmetry. apply lookup_ge_None. rewrite length_take_drop by done. lia.
Qed.

Lemma ubdEntryIndexFrom_setOnHold es id n i e b :
  es !! i = Some e →
  ubdEntryIndexFrom (<[i := ubde_setOnHold b e]> es) id n = ubdEntryIndexFrom es id n.
Proof.
  revert n i. induction es as [|e0 es IH]; intros n [|i] He; simpl in *; try done.
  - by injection He as ->.
  - by rewrite (IH _ _ He).
Qed.

Lemma SetUnbondingDelegation_ok ubd del val s :
  AccAddressFromBech32 k (ubd_DelegatorAddress ubd) = Some del →
  ValAddressFromBech32 k (ubd_ValidatorAddress ubd) = Some val →
  SetUnbondingDelegation k ubd s
  = Done tt (with_store (λ st, <[KUBDByValIndex val del := VEmpty]> (<[KUBD del val := VUBD ubd]> st)) s).
Proof.
  intros Hdel Hval. unfold SetUnbondingDelegation, mustAccAddress, mustValAddress.
  by rewrite Hdel, Hval.
Qed.

(** The state after an entry of the record has been rewritten in place. *)
Lemma PutUnbondingOpOnHold_ok id del val ubd i e s :
  store s !! KUnbondingOpIndex id = Some (VKey (KUBD del val)) →
  store s !! KUBD del val = Some (VUBD ubd) →
  AccAddressFromBech32 k (ubd_DelegatorAddress ubd) = Some del →
  ValAddressFromBech32 k (ubd_ValidatorAddress ubd) = Some val →
  unbondingDelegationEntryArrayIndex ubd id = Some i →
  ubd_Entries ubd !! i = Some e →
  PutUnbondingOpOnHold k id s
  = Done true
      (with_store (λ st, <[KUBDByValIndex val del := VEmpty]>
                           (<[KUBD del val :=
                                VUBD (ubd_setEntries (<[i := ubde_setOnHold true e]> (ubd_Entries ubd)) ubd)]> st)) s).
Proof.
  intros Hidx Hrec Hdel Hval Hi He. unfold PutUnbondingOpOnHold.
  rewrite (bind_Done _ _ _ _ _ (GetUnbondingDelegationByUnbondingOpId_found _ _ _ _ Hidx Hrec)).
  unfold PutUnbondingDelegationEntryOnHold.
  rewrite (bind_Done _ _ _ _ _ (GetUnbondingDelegationByUnbondingOpId_found _ _ _ _ Hidx Hrec)).
  rewrite Hi.
  rewrite (bind_Done _ _ _ _ _ (at_index_of_list _ _ _ _ He)).
  simpl len. rewrite visible_insert.
  by rewrite (bind_Done _ _ _ _ _ (SetUnbondingDelegation_ok (ubd_setEntries _ ubd) del val _ Hdel Hval)).
Qed.

End HoldProtocol.

(** ** The branch for an entry that is not yet mature *)

Section NotMature.
Context (k : Keeper) (ctx : Context).

(** When the id resolves to an entry that is not yet mature,
    [UnbondingDelegationCanComplete] clears the entry's on-hold flag,
    writes the record back under its key and returns found=true; the entry
    stays in the record and nothing else of the state changes, the custody
    keeper included. *)
Lemma UnbondingDelegationCanComplete_not_mature id delAddr valAddr ubd i e s :
  store s !! KUnbondingOpIndex id = Some (VKey (KUBD delAddr valAddr)) →
  store s !! KUBD delAddr valAddr = Some (VUBD ubd) →
  AccAddressFromBech32 k (ubd_DelegatorAddress ubd) = Some delAddr →
  ValAddressFromBech32 k (ubd_ValidatorAddress ubd) = Some valAddr →
  unbondingDelegationEntryArrayIndex ubd id = Some i →
  ubd_Entries ubd !! i = Some e →
  BlockTime ctx < ubde_CompletionTime e →
  UnbondingDelegationCanComplete k ctx id s
  = Done (true, None)
      (with_store (λ st, <[KUBDByValIndex valAddr delAddr := VEmpty]>
                           (<[KUBD delAddr valAddr :=
                                VUBD (ubd_setEntries (<[i := ubde_setOnHold false e]> (ubd_Entries ubd))
                                        ubd)]> st)) s).
Proof.
  intros Hidx Hrec Hdel Hval Hi He Himmature.
  pose proof (lookup_lt_Some _ _ _ He) as Hlt.
  unfold UnbondingDelegationCanComplete.
  rewrite (bind_Done _ _ _ _ _ (GetUnbondingDelegationByUnbondingOpId_found _ _ _ _ Hidx Hrec)).
  rewrite Hi.
  rewrite (bind_Done _ _ _ _ _ (at_index_of_list _ _ _ _ He)).
  unfold ubde_IsMature. rewrite (proj2 (Z.leb_gt _ _) Himmature). simpl negb. cbv iota.
  rewrite bind_assoc.
  rewrite (bind_Done _ _ _ _ _ (at_index_of_list _ _ _ _ He)).
  rewrite bind_ret. simpl len. simpl arr. rewrite visible_insert.
  rewrite decide_False by lia.
  by rewrite (bind_Done _ _ _ _ _ (SetUnbondingDelegation_ok k (ubd_setEntries _ ubd)
                                     delAddr valAddr _ Hdel Hval)).
Qed.
End NotMature.

(** ** The completion branch when another entry follows *)

Section NextEntry.
Context (k : Keeper) (ctx : Context).


Lemma GetRedelegationByUnbondingOpId_found id key red s :
  store s !! KUnbondingOpIndex id = Some (VKey key) →
  store s !! key = Some (VRED red) →
  GetRedelegationByUnbondingOpId id s = Done (Some red) s.
Proof.
  intros Hidx Hrec. unfold GetRedelegationByUnbondingOpId, GetUnbondingOpIndexKey.
  munfold. rewrite Hidx. simpl. by rewrite Hrec.
Qed.

(** [RedelegationCanComplete] has the same two reads after the removal:
    when the mature entry at index [i] is followed by an entry [e'], the
    reverse-index key deleted is that of [e']. *)
Lemma RedelegationCanComplete_next_entry id delAddr valSrcAddr valDstAddr red i e e' s :
  store s !! KUnbondingOpIndex id = Some (VKey (KRED delAddr valSrcAddr valDstAddr)) →
  store s !! KRED delAddr valSrcAddr valDstAddr = Some (VRED red) →
  AccAddressFromBech32 k (red_DelegatorAddress red) = Some delAddr →
  ValAddressFromBech32 k (red_ValidatorSrcAddress red) = Some valSrcAddr →
  ValAddressFromBech32 k (red_ValidatorDstAddress red) = Some valDstAddr →
  redelegationEntryArrayIndex red id = Some i →
  red_Entries red !! i = Some e →
  red_Entries red !! S i = Some e' →
  rede_CompletionTime e ≤ BlockTime ctx →
  RedelegationCanComplete k ctx id s
  = Done (true, None)
      (with_store
         (λ st, <[KREDByValDstIndex valDstAddr delAddr valSrcAddr := VEmpty]>
                  (<[KREDByValSrcIndex valSrcAddr delAddr valDstAddr := VEmpty]>
                     (<[KRED delAddr valSrcAddr valDstAddr :=
                          VRED (red_setEntries (take i (red_Entries red) ++ drop (S i) (red_Entries red))
                                  red)]>
                        (delete (KUnbondingOpIndex (rede_Id e')) st)))) s).
Proof.
  intros Hidx Hrec Hdel Hsrc Hdst Hi He He' Hmature.
  pose proof (lookup_lt_Some _ _ _ He) as Hlt.
  pose proof (lookup_lt_Some _ _ _ He') as Hlt'.
  assert ((take i (red_Entries red) ++ drop (S i) (red_Entries red)) !! i = Some e') as Hnext.
  { rewrite lookup_app_r by (rewrite length_take; lia).
    rewrite length_take, lookup_drop. rewrite <-He'. f_equal. lia. }
  unfold RedelegationCanComplete.
  rewrite (bind_Done _ _ _ _ _ (GetRedelegationByUnbondingOpId_found _ _ _ _ Hidx Hrec)).
  rewrite Hi.
  rewrite (bind_Done _ _ _ _ _ (at_index_of_list _ _ _ _ He)).
  unfold rede_IsMature. rewrite (proj2 (Z.leb_le _ _) Hmature). simpl negb. cbv iota.
  rewrite bind_assoc.
  unfold at_index. rewrite index_RemoveEntry by lia. rewrite Hnext.
  unfold DeleteREDByUnbondingOpIndex, storeDelete. msimpl.
  rewrite visible_RemoveEntry by lia.
  rewrite decide_False by (simpl; lia).
  unfold SetRedelegation, mustAccAddress, mustValAddress.
  simpl red_DelegatorAddress. simpl red_ValidatorSrcAddress. simpl red_ValidatorDstAddress.
  rewrite Hdel, Hsrc, Hdst. reflexivity.
Qed.

(** And when the mature entry is the last of its record, the read is out
    of range. *)
Lemma RedelegationCanComplete_last_entry_panics id key red i e s :
  store s !! KUnbondingOpIndex id = Some (VKey key) →
  store s !! key = Some (VRED red) →
  redelegationEntryArrayIndex red id = Some i →
  red_Entries red !! i = Some e →
  length (red_Entries red) = S i →
  rede_CompletionTime e ≤ BlockTime ctx →
  RedelegationCanComplete k ctx id s = Panic "index out of range".
Proof.
  intros Hidx Hrec Hi He Hlast Hmature. unfold RedelegationCanComplete.
  rewrite (bind_Done _ _ _ _ _ (GetRedelegationByUnbondingOpId_found _ _ _ _ Hidx Hrec)).
  rewrite Hi.
  rewrite (bind_Done _ _ _ _ _ (at_index_of_list _ _ _ _ He)).
  unfold rede_IsMature. rewrite (proj2 (Z.leb_le _ _) Hmature). simpl negb. cbv iota.
  apply bind_Panic. apply bind_Panic.
  unfold at_index. by rewrite (index_RemoveEntry_last _ _ Hlast).
Qed.
End NextEntry.

(** ** A held entry at the next release *)

Section HoldThenRelease.
Context (k : Keeper) (ctx : Context).

End HoldThenRelease.


(** ** CompleteUnbonding: the balance read through the entry pointer *)

(** C2 (as the code has it): [entry] points into the backing array, and
    [RemoveEntry] shifts the later entries into the slot it points to, so
    the balance released for a removed entry is the balance of the entry
    that followed it.  With entry 1 (balance 10, mature) followed by entry
    2 (balance 20, not mature), entry 1 is removed and 20 is released; with
    entry 1 followed by the mature entry 3 (balance 20), both are removed
    and 20 is released twice, 40 instead of 30. *)
Theorem CompleteUnbonding_releases_the_next_entry_balance :
  (∃ s', CompleteUnbonding demoKeeper demoCtx "alice" "val" (ubdState [entry1; entry2])
           = Done ([("stake", 20)], None) s'
         ∧ store s' !! KUBD "alice" "val" = Some (VUBD (mkUBD "alice" "val" [entry2]))
         ∧ bank s' = [UndelegateCoinsFromModuleToAccount NotBondedPool "alice" [("stake", 20)]])
  ∧ (∃ s', CompleteUnbonding demoKeeper demoCtx "alice" "val" (ubdState [entry1; entry3])
           = Done ([("stake", 40)], None) s'
         ∧ store s' !! KUBD "alice" "val" = None
         ∧ bank s' = [UndelegateCoinsFromModuleToAccount NotBondedPool "alice" [("stake", 20)];
                      UndelegateCoinsFromModuleToAccount NotBondedPool "alice" [("stake", 20)]]).
Proof.
  split; run.
Qed.

(** The in-place removal on a three-element slice: the slot of the removed
    entry now holds the next one, and the last slot keeps its old value
    beyond the new length. *)
Example RemoveEntry_in_place :
  RemoveEntry 0 (of_list [entry1; entry2; entry3]) = mkSlice [entry2; entry3; entry3] 2
  ∧ deref (RemoveEntry 0 (of_list [entry1; entry2; entry3])) 0 = Some entry2
  ∧ deref (RemoveEntry 2 (of_list [entry1; entry2; entry3])) 2 = Some entry3
  ∧ index (RemoveEntry 2 (of_list [entry1; entry2; entry3])) 2 = None.
Proof. repeat split. Qed.

Example sweepEntries_at_time_10 :
  sweepEntries 10 [entry1; entry2] = ([entry2], [20])
  ∧ sweepEntries 10 [entry1; entry3] = ([], [20; 20])
  ∧ sweepEntries 10 [entry2; entry1] = ([entry2], [10]).
Proof. repeat split. Qed.

(** [Coins.Add] reads no state and writes none. *)
Lemma Coins_Add_reads cs c s r s' : Coins_Add cs c s = Done r s' → s' = s.
Proof.
  revert r. induction cs as [|[d a] cs IH]; intros r; simpl.
  - by intros [= <- <-].
  - unfold Int_Add. munfold.
    repeat (case_match; simplify_eq; try discriminate); intros [= <- <-]; eauto.
Qed.

Lemma Coins_Add_panic cs c s msg : Coins_Add cs c s = Panic msg → msg = "Int overflow".
Proof.
  induction cs as [|[d a] cs IH]; simpl; [done|].
  unfold Int_Add. munfold.
  repeat (case_match; simplify_eq; try discriminate); intros [= <-]; eauto.
Qed.

(** Adding a positive amount to the coins of one denomination, within the
    256 bits. *)
Lemma Coins_Add_NewCoins denom total b s :
  0 ≤ total → 0 < b → total + b < 2 ^ 256 →
  Coins_Add (NewCoins (denom, total)) (denom, b) s = Done (NewCoins (denom, total + b)) s.
Proof.
  intros Htotal Hb Hfit. unfold NewCoins. simpl.
  destruct (total =? 0) eqn:Hz.
  - apply Z.eqb_eq in Hz as ->. simpl.
    by rewrite (proj2 (Z.eqb_neq _ _)) by lia.
  - apply Z.eqb_neq in Hz. simpl. rewrite decide_True by done.
    unfold Int_Add. rewrite (proj2 (Z.ltb_lt _ _)) by lia.
    rewrite bind_ret. by rewrite (proj2 (Z.eqb_neq _ _)) by lia.
Qed.

Section LoopBound.
Context (k : Keeper).

Lemma completeUnbondingLoop_bound fuel ctxTime bondDenom delegatorAddress i entries balances s :
  Z.of_nat (len entries) - i ≤ Z.of_nat fuel →
  completeUnbondingLoop k fuel ctxTime bondDenom delegatorAddress i entries balances s
  ≠ Panic "loop bound exceeded".
Proof.
  revert i entries balances s.
  induction fuel as [|fuel IH]; intros i entries balances s Hfuel; simpl.
  - destruct (i <? Z.of_nat (len entries)) eqn:Hlt; [apply Z.ltb_lt in Hlt; lia|done].
  - destruct (i <? Z.of_nat (len entries)) eqn:Hlt; [|done].
    apply Z.ltb_lt in Hlt.
    unfold at_index.
    destruct (index entries (Z.to_nat i)) as [e0|] eqn:Hidx; [|done].
    assert (0 < len entries)%nat as Hpos.
    { unfold index in Hidx. case_decide; [lia|done]. }
    unfold load, NewCoin, bankCall. munfold.
    repeat (case_match; simplify_eq); try discriminate;
      try (apply IH; simpl; lia).
    all: intros [= ->];
      match goal with H : Coins_Add _ _ _ = Panic _ |- _ => by apply Coins_Add_panic in H end.
Qed.
End LoopBound.

Section Sweep.
Context (k : Keeper).
Hypothesis bank_accepts : ∀ log c, bankKeeper k log c = None.

Lemma with_bank_app l1 l2 s :
  with_bank (λ l, l ++ l2) (with_bank (λ l, l ++ l1) s) = with_bank (λ l, l ++ l1 ++ l2) s.
Proof. unfold with_bank; simpl. by rewrite (assoc_L (++)). Qed.

Lemma with_bank_nil s : with_bank (λ l, l ++ []) s = s.
Proof. destruct s. unfold with_bank; simpl. by rewrite app_nil_r. Qed.

Lemma bind_load {A B} (sl : Slice A) p x (f : A → M B) s :
  deref sl p = Some x → (load sl p ≫= f) s = f x s.
Proof. intros H. unfold load. by rewrite H. Qed.

Lemma bind_at_index {A B} (sl : Slice A) p x (f : A → M B) s :
  index sl p = Some x → (at_index sl p ≫= f) s = f x s.
Proof. intros H. unfold at_index. by rewrite H. Qed.

Lemma RemoveEntry_at {A} (pre : list A) e rest stale :
  ∃ stale2,
    RemoveEntry (length pre) (mkSlice (pre ++ e :: rest ++ stale) (length pre + S (length rest)))
    = mkSlice (pre ++ rest ++ stale2) (length pre + length rest)
    ∧ (rest ++ stale2) !! 0%nat = Some (hd e rest).
Proof.
  exists (drop (length rest) (e :: rest ++ stale)). split.
  - unfold RemoveEntry; simpl. f_equal; [|lia].
    rewrite take_app_length. f_equal.
    replace (S (length pre)) with (length pre + 1)%nat by lia.
    rewrite drop_app_add. simpl.
    replace (length pre + S (length rest) - (length pre + 1))%nat with (length rest) by lia.
    rewrite drop_0, take_app_length. f_equal.
    replace (length pre + S (length rest) - 1)%nat with (length pre + length rest)%nat by lia.
    by rewrite drop_app_add.
  - destruct rest; simpl; done.
Qed.

Lemma sweepEntries_released_positive ctxTime es :
  Forall (λ e, 0 ≤ ubde_Balance e) es → Forall (λ b, 0 < b) (sweepEntries ctxTime es).2.
Proof.
  induction es as [|e es IH]; intros Hpos; simpl; [constructor|].
  apply Forall_cons in Hpos as [Hpos_e Hpos].
  destruct (ubde_IsMature e ctxTime && negb (ubde_OnHold e)); simpl; [|by apply IH].
  destruct (ubde_Balance (hd e es) =? 0) eqn:Hz; [by apply IH|].
  apply Z.eqb_neq in Hz. constructor; [|by apply IH].
  destruct es as [|e' es']; simpl in *; [lia|].
  apply Forall_cons in Hpos as [? _]. lia.
Qed.

Lemma sum_positive (l : list Z) : Forall (λ b, 0 < b) l → 0 ≤ foldr Z.add 0 l.
Proof. induction 1; simpl; lia. Qed.

Lemma completeUnbondingLoop_sweep ctxTime bondDenom delegatorAddress es :
  ∀ pre stale fuel total s,
    Forall (λ e, 0 ≤ ubde_Balance e) es →
    0 ≤ total →
    total + foldr Z.add 0 (sweepEntries ctxTime es).2 < 2 ^ 256 →
    (length es ≤ fuel)%nat →
    ∃ arr',
      completeUnbondingLoop k fuel ctxTime bondDenom delegatorAddress (Z.of_nat (length pre))
        (mkSlice (pre ++ es ++ stale) (length pre + length es)) (NewCoins (bondDenom, total)) s
      = Done (inl (mkSlice arr' (length pre + length (sweepEntries ctxTime es).1),
                   NewCoins (bondDenom, total + foldr Z.add 0 (sweepEntries ctxTime es).2)))
          (with_bank (λ l, l ++ ((λ b, UndelegateCoinsFromModuleToAccount NotBondedPool
                                         delegatorAddress (NewCoins (bondDenom, b)))
                                 <$> (sweepEntries ctxTime es).2)) s)
      ∧ take (length pre + length (sweepEntries ctxTime es).1) arr'
        = pre ++ (sweepEntries ctxTime es).1.
Proof.
  induction es as [|e rest IH]; intros pre stale fuel total s Hpos Htotal Hfit Hfuel.
  - exists (pre ++ stale). split.
    + destruct fuel; simpl; rewrite (proj2 (Z.ltb_ge _ _)) by lia;
        by rewrite with_bank_nil, Z.add_0_r.
    + simpl. rewrite Nat.add_0_r, app_nil_r. apply take_app_length.
  - destruct fuel as [|fuel]; [simpl in Hfuel; lia|].
    pose proof (sum_positive _ (sweepEntries_released_positive ctxTime _ Hpos)) as Hsum.
    apply Forall_cons in Hpos as [Hpos_e Hpos].
    pose proof (sum_positive _ (sweepEntries_released_positive ctxTime _ Hpos)) as Hsum_rest.
    cbn [completeUnbondingLoop].
    rewrite (proj2 (Z.ltb_lt _ _)) by (simpl; lia).
    rewrite Nat2Z.id.
    assert (index (mkSlice (pre ++ (e :: rest) ++ stale) (length pre + length (e :: rest)))
              (length pre) = Some e) as Hindex.
    { unfold index; simpl. rewrite decide_True by lia. by rewrite list_lookup_middle. }
    assert (deref (mkSlice (pre ++ (e :: rest) ++ stale) (length pre + length (e :: rest)))
              (length pre) = Some e) as Hderef.
    { unfold deref; simpl. by rewrite list_lookup_middle. }
    rewrite (bind_at_index _ _ _ _ _ Hindex), (bind_load _ _ _ _ _ Hderef).
    cbn [sweepEntries] in Hfit, Hsum |- *.
    assert (total + foldr Z.add 0 (sweepEntries ctxTime rest).2 < 2 ^ 256 →
            ∃ arr',
              completeUnbondingLoop k fuel ctxTime bondDenom delegatorAddress
                (Z.of_nat (length pre) + 1)
                (mkSlice (pre ++ (e :: rest) ++ stale) (length pre + length (e :: rest)))
                (NewCoins (bondDenom, total)) s
              = Done (inl (mkSlice arr' (length pre + length (e :: (sweepEntries ctxTime rest).1)),
                           NewCoins (bondDenom,
                                     total + foldr Z.add 0 (sweepEntries ctxTime rest).2)))
                  (with_bank (λ l, l ++ ((λ b, UndelegateCoinsFromModuleToAccount NotBondedPool
                                                 delegatorAddress (NewCoins (bondDenom, b)))
                                         <$> (sweepEntries ctxTime rest).2)) s)
              ∧ take (length pre + length (e :: (sweepEntries ctxTime rest).1)) arr'
                = pre ++ e :: (sweepEntries ctxTime rest).1) as Hkeep.
    { intros Hfit_rest.
      destruct (IH (pre ++ [e]) stale fuel total s Hpos Htotal Hfit_rest)
        as (arr' & Heq & Htake); [simpl in Hfuel; lia|].
      rewrite length_app in Heq, Htake. simpl in Heq, Htake.
      rewrite <-(assoc_L (++)) in Heq, Htake. simpl in Heq, Htake.
      exists arr'. simpl.
      replace (Z.of_nat (length pre) + 1) with (Z.of_nat (length pre + 1)) by lia.
      replace (length pre + S (length rest))%nat with (length pre + 1 + length rest)%nat by lia.
      replace (length pre + S (length (sweepEntries ctxTime rest).1))%nat
        with (length pre + 1 + length (sweepEntries ctxTime rest).1)%nat by lia.
      by split. }
    destruct (ubde_IsMature e ctxTime) eqn:Hmature; cbn [andb] in Hfit, Hsum |- *.
    2:{ destruct (Hkeep Hfit) as (arrK & ? & ?). exists arrK. simpl. by split. }
    destruct (ubde_OnHold e) eqn:Hhold; cbn [negb] in Hfit, Hsum |- *.
    { destruct (Hkeep Hfit) as (arrK & ? & ?). exists arrK. simpl. by split. }
    clear Hkeep.
    destruct (RemoveEntry_at pre e rest stale) as (stale2 & Hremove & Hhd).
    cbn [length app] in *. rewrite Hremove.
    assert (deref (mkSlice (pre ++ rest ++ stale2) (length pre + length rest)) (length pre)
            = Some (hd e rest)) as Hderef2.
    { unfold deref; simpl. rewrite lookup_app_r by lia. by rewrite Nat.sub_diag. }
    rewrite (bind_load _ _ _ _ _ Hderef2).
    replace (Z.of_nat (length pre) - 1 + 1) with (Z.of_nat (length pre)) by lia.
    assert (0 ≤ ubde_Balance (hd e rest)) as Hb.
    { destruct rest as [|e' rest']; simpl; [done|]. by apply Forall_cons in Hpos as [? _]. }
    destruct (ubde_Balance (hd e rest) =? 0) eqn:Hz; cbn [negb]; simpl in Hfit, Hsum.
    + destruct (IH pre stale2 fuel total s Hpos Htotal Hfit) as (arr' & Heq & Htake);
        [simpl in Hfuel; lia|].
      exists arr'. simpl. by split.
    + apply Z.eqb_neq in Hz.
      rewrite (bind_load _ _ _ _ _ Hderef2). unfold NewCoin.
      rewrite (proj2 (Z.ltb_ge _ _) Hb), bind_ret.
      unfold bankCall at 1. unfold mbind at 1, M_bind at 1. rewrite bank_accepts.
      rewrite (bind_Done _ _ _ _ _ (Coins_Add_NewCoins bondDenom total
                                      (ubde_Balance (hd e rest)) _ Htotal ltac:(lia) ltac:(lia))).
      destruct (IH pre stale2 fuel (total + ubde_Balance (hd e rest))
                  (with_bank (λ l, l ++ [UndelegateCoinsFromModuleToAccount NotBondedPool
                                           delegatorAddress
                                           (NewCoins (bondDenom, ubde_Balance (hd e rest)))]) s)
                  Hpos ltac:(lia) ltac:(lia)) as (arr' & Heq & Htake); [simpl in Hfuel; lia|].
      exists arr'. simpl. rewrite with_bank_app in Heq. rewrite Z.add_assoc. by split.
Qed.

(** What [CompleteUnbonding] does, for a custody keeper that accepts the
    transfers, balances that are not negative and a total released that
    fits in the 256 bits of a coin amount: the record is left with the
    entries [sweepEntries] keeps (deleted when none is left), one release
    call is made for each balance [sweepEntries] lists, and the coins
    returned are their sum. *)
Lemma CompleteUnbonding_sweep ctx delAddr valAddr ubd s :
  store s !! KUBD delAddr valAddr = Some (VUBD ubd) →
  AccAddressFromBech32 k (ubd_DelegatorAddress ubd) = Some delAddr →
  ValAddressFromBech32 k (ubd_ValidatorAddress ubd) = Some valAddr →
  Forall (λ e, 0 ≤ ubde_Balance e) (ubd_Entries ubd) →
  foldr Z.add 0 (sweepEntries (BlockTime ctx) (ubd_Entries ubd)).2 < 2 ^ 256 →
  ∃ s',
    CompleteUnbonding k ctx delAddr valAddr s
    = Done (NewCoins (p_BondDenom (params s),
                      foldr Z.add 0 (sweepEntries (BlockTime ctx) (ubd_Entries ubd)).2), None) s'
    ∧ store s' !! KUBD delAddr valAddr
      = (if decide ((sweepEntries (BlockTime ctx) (ubd_Entries ubd)).1 = []) then None
         else Some (VUBD (ubd_setEntries (sweepEntries (BlockTime ctx) (ubd_Entries ubd)).1 ubd)))
    ∧ bank s' = bank s ++ ((λ b, UndelegateCoinsFromModuleToAccount NotBondedPool delAddr
                                   (NewCoins (p_BondDenom (params s), b)))
                           <$> (sweepEntries (BlockTime ctx) (ubd_Entries ubd)).2).
Proof.
  intros Hrec Hdel Hval Hpos Hfit. unfold CompleteUnbonding.
  rewrite (bind_Done _ _ _ _ _ (GetUnbondingDelegation_found _ _ _ _ Hrec)). cbv beta iota.
  unfold BondDenom. rewrite bind_gets. rewrite Hdel.
  destruct (completeUnbondingLoop_sweep (BlockTime ctx) (p_BondDenom (params s)) delAddr
              (ubd_Entries ubd) [] [] (length (ubd_Entries ubd)) 0 s Hpos (Z.le_refl 0)
              ltac:(by rewrite Z.add_0_l) (le_n _))
    as (arr' & Hloop & Htake).
  simpl in Hloop, Htake. rewrite app_nil_r in Hloop.
  unfold of_list. simpl len. rewrite (bind_Done _ _ _ _ _ Hloop). cbv beta iota.
  unfold visible. simpl arr. simpl len. rewrite Htake.
  set (kept := (sweepEntries (BlockTime ctx) (ubd_Entries ubd)).1) in *.
  destruct kept as [|e0 kept'] eqn:Hkept.
  - simpl length. rewrite decide_True by done.
    unfold RemoveUnbondingDelegation, mustAccAddress, mustValAddress.
    simpl ubd_DelegatorAddress. simpl ubd_ValidatorAddress. rewrite Hdel, Hval.
    eexists. split; [reflexivity|]. simpl. split; [|done].
    rewrite lookup_delete_ne by done. by rewrite lookup_delete_eq.
  - simpl length. rewrite decide_False by done.
    rewrite (bind_Done _ _ _ _ _ (SetUnbondingDelegation_ok k (ubd_setEntries _ ubd)
                                    delAddr valAddr _ Hdel Hval)).
    eexists. split; [reflexivity|]. simpl. split; [|done].
    rewrite lookup_insert_ne by done. by rewrite lookup_insert_eq.
Qed.

(** The entries kept are the entries that are not both mature and off
    hold, in their order. *)
Lemma sweepEntries_kept ctxTime es :
  (sweepEntries ctxTime es).1
  = filter (λ e, ubde_IsMature e ctxTime && negb (ubde_OnHold e) = false) es.
Proof.
  induction es as [|e es IH]; [done|]. simpl.
  destruct (ubde_IsMature e ctxTime && negb (ubde_OnHold e)) eqn:Hb.
  - rewrite filter_cons_False by (rewrite Hb; done). by rewrite <-IH.
  - rewrite filter_cons_True by (by rewrite Hb). simpl. by rewrite IH.
Qed.
End Sweep.

(** ** The time queues *)

(** C9 (as the code has it): the range scan ends at the block header's
    time, and [currTime] is never read: whatever [currTime] is, the outcome
    is the same.  At block time 10, with one bucket at time 7,
    [DequeueAllMatureUBDQueue] called with [currTime] 5 returns the bucket's
    pair and deletes the bucket, although 7 is after 5; and called with
    [currTime] 20 at block time 3 it returns nothing and leaves the bucket,
    although 7 is before 20.  [DequeueAllMatureRedelegationQueue] does the
    same. *)
Theorem DequeueAllMature_ignores_currTime :
  (∀ ctx t1 t2 s, DequeueAllMatureUBDQueue ctx t1 s = DequeueAllMatureUBDQueue ctx t2 s)
  ∧ (∀ ctx t1 t2 s,
       DequeueAllMatureRedelegationQueue ctx t1 s = DequeueAllMatureRedelegationQueue ctx t2 s)
  ∧ (∃ s', DequeueAllMatureUBDQueue (mkContext 10 3) 5 queueState
           = Done [mkDVPair "alice" "val"] s'
         ∧ store s' !! KUnbondingDelegationTime 7 = None)
  ∧ DequeueAllMatureUBDQueue (mkContext 3 3) 20 queueState = Done [] queueState
  ∧ (∃ s', DequeueAllMatureRedelegationQueue (mkContext 10 3) 5 redQueueState
           = Done [mkDVVTriplet "alice" "src" "dst"] s'
         ∧ store s' !! KRedelegationTime 7 = None)
  ∧ DequeueAllMatureRedelegationQueue (mkContext 3 3) 20 redQueueState = Done [] redQueueState.
Proof.
  split_and!;
    [reflexivity|reflexivity|run|vm_compute; reflexivity|run|vm_compute; reflexivity].
Qed.

Section Queues.

Lemma NoDup_omap_inj {A B} (f : A → option B) (l : list A) :
  NoDup l →
  (∀ x y z, x ∈ l → y ∈ l → f x = Some z → f y = Some z → x = y) →
  NoDup (omap f l).
Proof.
  induction 1 as [|x l Hx Hl IH]; intros Hinj; simpl; [constructor|].
  destruct (f x) as [z|] eqn:Hfx.
  - constructor.
    + rewrite list_elem_of_omap. intros (y & Hy & Hfy).
      assert (x = y) as -> by (eapply Hinj; [left|by right|done..]). done.
    + apply IH. intros ???????. eapply Hinj; [by right|by right|done..].
  - apply IH. intros ???????. eapply Hinj; [by right|by right|done..].
Qed.

Context (timeOf : Key → option GoTime) (keyOf : GoTime → Key).
Hypothesis timeOf_keyOf : ∀ key t, timeOf key = Some t ↔ key = keyOf t.

Lemma elem_of_queueTimes endTime st t :
  t ∈ queueTimes timeOf endTime st ↔ t ≤ endTime ∧ is_Some (st !! keyOf t).
Proof.
  unfold queueTimes. rewrite merge_sort_Permutation, list_elem_of_omap. split.
  - intros ([key v] & Hin%elem_of_map_to_list & Hf). simpl in Hf.
    destruct (timeOf key) as [t'|] eqn:Ht; [|done].
    destruct (t' <=? endTime) eqn:Hle; [|done]. injection Hf as ->.
    apply timeOf_keyOf in Ht as ->. apply Z.leb_le in Hle. eauto.
  - intros [Hle [v Hv]]. exists (keyOf t, v). split; [by apply elem_of_map_to_list|].
    simpl. rewrite (proj2 (timeOf_keyOf _ _) eq_refl).
    by rewrite (proj2 (Z.leb_le _ _) Hle).
Qed.

Lemma queueTimes_sorted endTime st :
  StronglySorted Z.le (queueTimes timeOf endTime st).
Proof. unfold queueTimes. apply (StronglySorted_merge_sort _). Qed.

Lemma queueTimes_NoDup endTime st : NoDup (queueTimes timeOf endTime st).
Proof.
  unfold queueTimes. rewrite merge_sort_Permutation.
  apply NoDup_omap_inj; [apply NoDup_map_to_list|].
  intros [k1 v1] [k2 v2] z H1%elem_of_map_to_list H2%elem_of_map_to_list; simpl.
  destruct (timeOf k1) as [t1|] eqn:Ht1; [|done].
  destruct (timeOf k2) as [t2|] eqn:Ht2; [|done].
  repeat case_match; try done. intros [= ->] [= ->].
  apply timeOf_keyOf in Ht1, Ht2. subst. by simplify_eq.
Qed.

Lemma lookup_delete_times (st : gmap Key Value) ts key :
  foldl (λ st t, delete (keyOf t) st) st ts !! key
  = match timeOf key with
    | Some t => if bool_decide (t ∈ ts) then None else st !! key
    | None => st !! key
    end.
Proof.
  revert st. induction ts as [|t ts IH]; intros st; simpl.
  - by destruct (timeOf key).
  - rewrite IH. destruct (timeOf key) as [t'|] eqn:Ht.
    + apply timeOf_keyOf in Ht as ->.
      destruct (decide (t' = t)) as [->|Hne].
      * rewrite lookup_delete_eq. rewrite (bool_decide_eq_true_2 (t ∈ t :: ts)) by left.
        by case_bool_decide.
      * rewrite lookup_delete_ne by (intros Heq; apply Hne; apply (f_equal timeOf) in Heq;
          rewrite !(proj2 (timeOf_keyOf _ _) eq_refl) in Heq; congruence).
        case_bool_decide as H1; case_bool_decide as H2; try done.
        -- exfalso. apply H2. by right.
        -- exfalso. apply elem_of_cons in H2 as [?|?]; done.
    + rewrite lookup_delete_ne; [done|]. intros <-.
      by rewrite (proj2 (timeOf_keyOf _ _) eq_refl) in Ht.
Qed.
End Queues.

Section UBDQueue.

Lemma ubdTimeOf_key key t : ubdTimeOf key = Some t ↔ key = KUnbondingDelegationTime t.
Proof. destruct key; simpl; naive_solver. Qed.

Lemma rangeScan_ubd_buckets (st : gmap Key Value) (ts : list GoTime) :
  (∀ t, t ∈ ts → ∃ l, st !! KUnbondingDelegationTime t = Some (VDVPairs l)) →
  ∃ buckets,
    Forall2 (λ t l, st !! KUnbondingDelegationTime t = Some (VDVPairs l)) ts buckets
    ∧ omap (λ t, (λ v, (GetUnbondingDelegationTimeKey t, v)) <$> st !! GetUnbondingDelegationTimeKey t) ts
      = zip_with (λ t l, (KUnbondingDelegationTime t, VDVPairs l)) ts buckets.
Proof.
  induction ts as [|t ts IH]; intros Hts.
  - exists []. by split.
  - destruct (Hts t) as [l Hl]; [left|].
    destruct IH as (buckets & Hall & Heq); [intros; apply Hts; by right|].
    exists (l :: buckets). split; [by constructor|].
    unfold GetUnbondingDelegationTimeKey in *. simpl. rewrite Hl. simpl. f_equal. exact Heq.
Qed.

Lemma dequeueUBDLoop_buckets ts buckets acc s :
  length ts = length buckets →
  dequeueUBDLoop (zip_with (λ t l, (KUnbondingDelegationTime t, VDVPairs l)) ts buckets) acc s
  = Done (acc ++ concat buckets)
      (with_store (λ st, foldl (λ st t, delete (KUnbondingDelegationTime t) st) st ts) s).
Proof.
  revert buckets acc s. induction ts as [|t ts IH]; intros [|l buckets] acc s Hlen; try done.
  - simpl. rewrite app_nil_r. by destruct s.
  - simpl. rewrite bind_ret. unfold storeDelete. rewrite bind_modify.
    rewrite IH by (simpl in Hlen; lia). by rewrite (assoc_L (++)).
Qed.

(** X29: with the block header's time in the place of [currTime],
    [DequeueAllMatureUBDQueue] returns the buckets with a timestamp at or
    before that time, concatenated in ascending order of timestamp, and
    deletes those buckets and nothing else. *)
Lemma DequeueAllMatureUBDQueue_block_time ctx currTime s :
  (∀ t v, t ≤ BlockTime ctx → store s !! KUnbondingDelegationTime t = Some v →
          ∃ l, v = VDVPairs l) →
  ∃ ts buckets s',
    DequeueAllMatureUBDQueue ctx currTime s = Done (concat buckets) s'
    ∧ StronglySorted Z.le ts ∧ NoDup ts
    ∧ (∀ t, t ∈ ts ↔ t ≤ BlockTime ctx ∧ is_Some (store s !! KUnbondingDelegationTime t))
    ∧ Forall2 (λ t l, store s !! KUnbondingDelegationTime t = Some (VDVPairs l)) ts buckets
    ∧ (∀ key, store s' !! key
              = match ubdTimeOf key with
                | Some t => if bool_decide (t ≤ BlockTime ctx) then None else store s !! key
                | None => store s !! key
                end)
    ∧ validators s' = validators s ∧ bank s' = bank s ∧ hooks s' = hooks s
    ∧ params s' = params s.
Proof.
  intros Htyped.
  set (ts := queueTimes ubdTimeOf (BlockTime ctx) (store s)).
  pose proof (elem_of_queueTimes ubdTimeOf KUnbondingDelegationTime ubdTimeOf_key
                (BlockTime ctx) (store s)) as Hin. fold ts in Hin.
  destruct (rangeScan_ubd_buckets (store s) ts) as (buckets & Hall & Hscan).
  { intros t [Hle [v Hv]]%Hin. destruct (Htyped t v Hle Hv) as [l ->]. eauto. }
  exists ts, buckets. eexists. split_and!.
  - unfold DequeueAllMatureUBDQueue, UBDQueueIterator. rewrite bind_gets.
    unfold rangeScan. fold ts. rewrite Hscan.
    rewrite dequeueUBDLoop_buckets by (by eapply Forall2_length). reflexivity.
  - apply queueTimes_sorted.
  - by apply (queueTimes_NoDup ubdTimeOf KUnbondingDelegationTime ubdTimeOf_key).
  - done.
  - done.
  - intros key. simpl.
    rewrite (lookup_delete_times ubdTimeOf KUnbondingDelegationTime ubdTimeOf_key).
    destruct (ubdTimeOf key) as [t|] eqn:Ht; [|done].
    apply ubdTimeOf_key in Ht as ->.
    case_bool_decide as H1; case_bool_decide as H2; try done.
    + apply Hin in H1 as [? _]. done.
    + destruct (store s !! KUnbondingDelegationTime t) as [v|] eqn:Hv; [|done].
      exfalso. apply H1, Hin. eauto.
  - done.
  - done.
  - done.
  - done.
Qed.

(** With no bucket at or before the block header's time, the result is
    empty and the state is as it was. *)
Lemma DequeueAllMatureUBDQueue_nothing_mature ctx currTime s :
  (∀ t, t ≤ BlockTime ctx → store s !! KUnbondingDelegationTime t = None) →
  DequeueAllMatureUBDQueue ctx currTime s = Done [] s.
Proof.
  intros Hnone.
  assert (queueTimes ubdTimeOf (BlockTime ctx) (store s) = []) as Hts.
  { apply elem_of_nil_inv. intros t Ht.
    apply (elem_of_queueTimes ubdTimeOf KUnbondingDelegationTime ubdTimeOf_key) in Ht
      as [Hle [v Hv]].
    by rewrite Hnone in Hv. }
  unfold DequeueAllMatureUBDQueue, UBDQueueIterator. rewrite bind_gets.
  unfold rangeScan. rewrite Hts. simpl. reflexivity.
Qed.
End UBDQueue.

Section REDQueue.

Lemma redTimeOf_key key t : redTimeOf key = Some t ↔ key = KRedelegationTime t.
Proof. destruct key; simpl; naive_solver. Qed.

Lemma rangeScan_red_buckets (st : gmap Key Value) (ts : list GoTime) :
  (∀ t, t ∈ ts → ∃ l, st !! KRedelegationTime t = Some (VDVVTriplets l)) →
  ∃ buckets,
    Forall2 (λ t l, st !! KRedelegationTime t = Some (VDVVTriplets l)) ts buckets
    ∧ omap (λ t, (λ v, (GetRedelegationTimeKey t, v)) <$> st !! GetRedelegationTimeKey t) ts
      = zip_with (λ t l, (KRedelegationTime t, VDVVTriplets l)) ts buckets.
Proof.
  induction ts as [|t ts IH]; intros Hts.
  - exists []. by split.
  - destruct (Hts t) as [l Hl]; [left|].
    destruct IH as (buckets & Hall & Heq); [intros; apply Hts; by right|].
    exists (l :: buckets). split; [by constructor|].
    unfold GetRedelegationTimeKey in *. simpl. rewrite Hl. simpl. f_equal. exact Heq.
Qed.

Lemma dequeueREDLoop_buckets ts buckets acc s :
  length ts = length buckets →
  dequeueREDLoop (zip_with (λ t l, (KRedelegationTime t, VDVVTriplets l)) ts buckets) acc s
  = Done (acc ++ concat buckets)
      (with_store (λ st, foldl (λ st t, delete (KRedelegationTime t) st) st ts) s).
Proof.
  revert buckets acc s. induction ts as [|t ts IH]; intros [|l buckets] acc s Hlen; try done.
  - simpl. rewrite app_nil_r. by destruct s.
  - simpl. rewrite bind_ret. unfold storeDelete. rewrite bind_modify.
    rewrite IH by (simpl in Hlen; lia). by rewrite (assoc_L (++)).
Qed.

(** X30: the same for the redelegation queue.
    [DequeueAllMatureRedelegationQueue] returns the buckets with a
    timestamp at or before the block header's time, concatenated in
    ascending order of timestamp, and deletes those buckets and nothing
    else. *)
Lemma DequeueAllMatureRedelegationQueue_block_time ctx currTime s :
  (∀ t v, t ≤ BlockTime ctx → store s !! KRedelegationTime t = Some v →
          ∃ l, v = VDVVTriplets l) →
  ∃ ts buckets s',
    DequeueAllMatureRedelegationQueue ctx currTime s = Done (concat buckets) s'
    ∧ StronglySorted Z.le ts ∧ NoDup ts
    ∧ (∀ t, t ∈ ts ↔ t ≤ BlockTime ctx ∧ is_Some (store s !! KRedelegationTime t))
    ∧ Forall2 (λ t l, store s !! KRedelegationTime t = Some (VDVVTriplets l)) ts buckets
    ∧ (∀ key, store s' !! key
              = match redTimeOf key with
                | Some t => if bool_decide (t ≤ BlockTime ctx) then None else store s !! key
                | None => store s !! key
                end)
    ∧ validators s' = validators s ∧ bank s' = bank s ∧ hooks s' = hooks s
    ∧ params s' = params s.
Proof.
  intros Htyped.
  set (ts := queueTimes redTimeOf (BlockTime ctx) (store s)).
  pose proof (elem_of_queueTimes redTimeOf KRedelegationTime redTimeOf_key
                (BlockTime ctx) (store s)) as Hin. fold ts in Hin.
  destruct (rangeScan_red_buckets (store s) ts) as (buckets & Hall & Hscan).
  { intros t [Hle [v Hv]]%Hin. destruct (Htyped t v Hle Hv) as [l ->]. eauto. }
  exists ts, buckets. eexists. split_and!.
  - unfold DequeueAllMatureRedelegationQueue, RedelegationQueueIterator. rewrite bind_gets.
    unfold rangeScan. fold ts. rewrite Hscan.
    rewrite dequeueREDLoop_buckets by (by eapply Forall2_length). reflexivity.
  - apply queueTimes_sorted.
  - by apply (queueTimes_NoDup redTimeOf KRedelegationTime redTimeOf_key).
  - done.
  - done.
  - intros key. simpl.
    rewrite (lookup_delete_times redTimeOf KRedelegationTime redTimeOf_key).
    destruct (redTimeOf key) as [t|] eqn:Ht; [|done].
    apply redTimeOf_key in Ht as ->.
    case_bool_decide as H1; case_bool_decide as H2; try done.
    + apply Hin in H1 as [? _]. done.
    + destruct (store s !! KRedelegationTime t) as [v|] eqn:Hv; [|done].
      exfalso. apply H1, Hin. eauto.
  - done.
  - done.
  - done.
  - done.
Qed.

(** With no redelegation bucket at or before the block header's time, the
    result is empty and the state is as it was. *)
Lemma DequeueAllMatureRedelegationQueue_nothing_mature ctx currTime s :
  (∀ t, t ≤ BlockTime ctx → store s !! KRedelegationTime t = None) →
  DequeueAllMatureRedelegationQueue ctx currTime s = Done [] s.
Proof.
  intros Hnone.
  assert (queueTimes redTimeOf (BlockTime ctx) (store s) = []) as Hts.
  { apply elem_of_nil_inv. intros t Ht.
    apply (elem_of_queueTimes redTimeOf KRedelegationTime redTimeOf_key) in Ht
      as [Hle [v Hv]].
    by rewrite Hnone in Hv. }
  unfold DequeueAllMatureRedelegationQueue, RedelegationQueueIterator. rewrite bind_gets.
  unfold rangeScan. rewrite Hts. simpl. reflexivity.
Qed.
End REDQueue.

(** ** Unbond: what an error return leaves behind *)

Section UnbondErrors.
Context (k : Keeper).

Lemma GetDelegation_missing delAddr valAddr s :
  store s !! KDelegation delAddr valAddr = None →
  GetDelegation delAddr valAddr s = Done None s.
Proof. intros H. unfold GetDelegation, GetDelegationKey. munfold. by rewrite H. Qed.

Lemma Unbond_error_inv delAddr valAddr shares amount err s s' :
  Unbond k delAddr valAddr shares s = Done (amount, Some err) s' →
  amount = 0 ∧ store s' = store s ∧ validators s' = validators s ∧ bank s' = bank s
  ∧ params s' = params s
  ∧ (hooks s' = hooks s
     ∨ hooks s' = hooks s ++ [BeforeDelegationSharesModified delAddr valAddr]).
Proof.
  unfold Unbond, GetDelegation, GetValidator, MustUnmarshalDelegation, RemoveDelegation,
    SetDelegation, mustGetValidator, GetValidator, mustAccAddress, mustValAddress.
  munfold. intros H.
  repeat (case_match; simplify_eq; try discriminate); simpl; auto 10.
Qed.

(** What a successful [Unbond] leaves under the delegation key: the
    record with the shares taken off, or nothing when none is left. *)
Lemma Unbond_success_record delAddr valAddr shares d amount s s1 :
  Unbond k delAddr valAddr shares s = Done (amount, None) s1 →
  store s !! KDelegation delAddr valAddr = Some (VDelegation d) →
  AccAddressFromBech32 k (del_DelegatorAddress d) = Some delAddr →
  ValAddressFromBech32 k (del_ValidatorAddress d) = Some valAddr →
  shares ≤ del_Shares d
  ∧ store s1 !! KDelegation delAddr valAddr
    = (if del_Shares d - shares =? 0 then None
       else Some (VDelegation (del_setShares (del_Shares d - shares) d))).
Proof.
  intros HU Hd Hacc Hval. revert HU. unfold Unbond.
  rewrite (bind_Done _ _ _ _ _ (GetDelegation_found _ _ _ _ Hd)). cbv beta iota.
  rewrite bind_callHook.
  destruct (del_Shares d <? shares) eqn:Hlt; [done|]. apply Z.ltb_ge in Hlt.
  rewrite (bind_Done _ _ _ _ _ (GetValidator_eq _ _)).
  destruct (validators _ !! valAddr) as [validator|]; [|done].
  cbv beta iota zeta.
  unfold RemoveDelegation, SetDelegation, mustGetValidator, GetValidator, mustAccAddress,
    mustValAddress, GetDelegationKey.
  cbn [del_DelegatorAddress del_ValidatorAddress del_Shares del_setShares].
  rewrite Hacc, Hval. munfold. intros H. split; [done|].
  repeat (case_match; simplify_eq; try discriminate); simpl;
    by rewrite ?lookup_insert_eq, ?lookup_delete_eq.
Qed.

(** X1: [Unbond] for a delegator who holds fewer shares than asked for
    fails with [ErrNotEnoughDelegationShares] carrying the shares held.
    The check comes after the [BeforeDelegationSharesModified] hook: the
    hook call is the one thing the failed call leaves behind. *)
Theorem Unbond_not_enough_shares delAddr valAddr shares d s :
  store s !! KDelegation delAddr valAddr = Some (VDelegation d) →
  del_Shares d < shares →
  Unbond k delAddr valAddr shares s
  = Done (0, Some (ErrNotEnoughDelegationShares (del_Shares d)))
      (with_hooks (λ l, l ++ [BeforeDelegationSharesModified delAddr valAddr]) s).
Proof.
  intros Hdel Hlt. unfold Unbond.
  rewrite (bind_Done _ _ _ _ _ (GetDelegation_found _ _ _ _ Hdel)). cbv beta iota.
  rewrite bind_callHook.
  by rewrite (proj2 (Z.ltb_lt _ _) Hlt).
Qed.

(** X2: whenever [Unbond] returns an error, it returns the zero amount
    and has written nothing: the store, the validator registry, the
    custody log and the parameters are as they were, and at most the
    [BeforeDelegationSharesModified] hook has been called. *)
Theorem Unbond_error_writes_nothing delAddr valAddr shares amount err s s' :
  Unbond k delAddr valAddr shares s = Done (amount, Some err) s' →
  amount = 0 ∧ store s' = store s ∧ validators s' = validators s ∧ bank s' = bank s
  ∧ params s' = params s
  ∧ (hooks s' = hooks s
     ∨ hooks s' = hooks s ++ [BeforeDelegationSharesModified delAddr valAddr]).
Proof. apply Unbond_error_inv. Qed.
End UnbondErrors.


(** ** Undelegate and BeginRedelegation: the error returns *)

Section RequestErrors.
Context (k : Keeper) (ctx : Context).

Lemma HasMaxUnbondingDelegationEntries_reads delAddr valAddr b s s' :
  HasMaxUnbondingDelegationEntries delAddr valAddr s = Done b s' → s' = s.
Proof.
  unfold HasMaxUnbondingDelegationEntries, GetUnbondingDelegation, MustUnmarshalUBD, MaxEntries.
  munfold. intros H. by repeat (case_match; simplify_eq; try discriminate).
Qed.

Lemma HasMaxRedelegationEntries_reads delAddr src dst b s s' :
  HasMaxRedelegationEntries delAddr src dst s = Done b s' → s' = s.
Proof.
  unfold HasMaxRedelegationEntries, GetRedelegation, MustUnmarshalRED, MaxEntries.
  munfold. intros H. by repeat (case_match; simplify_eq; try discriminate).
Qed.

(** X3: whenever [Undelegate] returns an error (unknown validator, full
    record, or an error of [Unbond]), the completion time it returns is
    zero and nothing has been written: no share has moved, no entry, queue
    slot or id has been made, and no transfer has been asked of the custody
    keeper. *)
Theorem Undelegate_error_writes_nothing delAddr valAddr sharesAmount t err s s' :
  Undelegate k ctx delAddr valAddr sharesAmount s = Done (t, Some err) s' →
  t = 0 ∧ store s' = store s ∧ validators s' = validators s ∧ bank s' = bank s
  ∧ (hooks s' = hooks s
     ∨ hooks s' = hooks s ++ [BeforeDelegationSharesModified delAddr valAddr]).
Proof.
  unfold Undelegate. rewrite (bind_Done _ _ _ _ _ (GetValidator_eq _ _)).
  destruct (validators s !! valAddr) as [validator|]; [|intros [= <- <- <-]; auto 10].
  destruct (HasMaxUnbondingDelegationEntries delAddr valAddr s) as [hasMax s1|msg] eqn:Hmax;
    [|by rewrite (bind_Panic _ _ _ _ Hmax)].
  rewrite (bind_Done _ _ _ _ _ Hmax).
  apply HasMaxUnbondingDelegationEntries_reads in Hmax as ->.
  destruct hasMax; [intros [= <- <- <-]; auto 10|].
  destruct (Unbond k delAddr valAddr sharesAmount s) as [[amount [e|]] s1|msg] eqn:HU;
    [| |by rewrite (bind_Panic _ _ _ _ HU)]; rewrite (bind_Done _ _ _ _ _ HU); cbv beta iota.
  - intros [= <- <- <-]. apply Unbond_error_inv in HU. tauto.
  - unfold SetUnbondingDelegationEntry, GetUnbondingDelegation, IncrementUnbondingOpId,
      SetUnbondingDelegation, SetUBDByUnbondingOpIndex, InsertUBDQueue, GetUBDQueueTimeSlice,
      SetUBDQueueTimeSlice, MustUnmarshalUBD, MustUnmarshalDVPairs, UnbondingTime,
      bondedTokensToNotBonded, mustAccAddress, mustValAddress.
    munfold. intros H.
    repeat (case_match; simplify_eq; try discriminate).
Qed.

(** X4: [BeginRedelegation] between two different validators of which
    either has no record fails with [ErrBadRedelegationDst] (for a missing
    source too), in the state it was called in. *)
Theorem BeginRedelegation_unknown_validator delAddr valSrcAddr valDstAddr sharesAmount s :
  valSrcAddr ≠ valDstAddr →
  validators s !! valDstAddr = None ∨ validators s !! valSrcAddr = None →
  BeginRedelegation k ctx delAddr valSrcAddr valDstAddr sharesAmount s
  = Done (0, Some ErrBadRedelegationDst) s.
Proof.
  intros Hne Hmissing. unfold BeginRedelegation. rewrite decide_False by done.
  rewrite (bind_Done _ _ _ _ _ (GetValidator_eq _ _)).
  destruct (validators s !! valDstAddr) as [dstValidator|] eqn:Hdst; [|done].
  rewrite (bind_Done _ _ _ _ _ (GetValidator_eq _ _)).
  destruct Hmissing as [?| ->]; done.
Qed.

(** The prefix scan of the by-destination index finds a key exactly when
    the store holds one for the pair. *)
Lemma HasReceivingRedelegation_spec delAddr valDstAddr s :
  ∃ b, HasReceivingRedelegation delAddr valDstAddr s = Done b s
       ∧ (b = true ↔ ∃ src, is_Some (store s !! KREDByValDstIndex valDstAddr delAddr src)).
Proof.
  unfold HasReceivingRedelegation. munfold. eexists. split; [reflexivity|].
  rewrite <-Is_true_true, existb_True, Exists_exists. split.
  - intros [[key v] [Hin Hkey]]. apply elem_of_map_to_list in Hin.
    destruct key; simpl in Hkey; try done.
    apply bool_decide_unpack in Hkey as [-> ->]. eauto.
  - intros [src [v Hv]]. exists (KREDByValDstIndex valDstAddr delAddr src, v). split.
    + by apply elem_of_map_to_list.
    + simpl. by apply bool_decide_pack.
Qed.

Lemma HasReceivingRedelegation_true delAddr valDstAddr src v s :
  store s !! KREDByValDstIndex valDstAddr delAddr src = Some v →
  HasReceivingRedelegation delAddr valDstAddr s = Done true s.
Proof.
  intros Hv. destruct (HasReceivingRedelegation_spec delAddr valDstAddr s) as (b & Hb & Hiff).
  rewrite Hb. f_equal. apply Hiff. eauto.
Qed.

Lemma HasReceivingRedelegation_false delAddr valDstAddr s :
  (∀ src, store s !! KREDByValDstIndex valDstAddr delAddr src = None) →
  HasReceivingRedelegation delAddr valDstAddr s = Done false s.
Proof.
  intros Hnone. destruct (HasReceivingRedelegation_spec delAddr valDstAddr s) as (b & Hb & Hiff).
  rewrite Hb. f_equal. destruct b; [|done].
  destruct (proj1 Hiff eq_refl) as [src [v Hv]]. by rewrite Hnone in Hv.
Qed.

(** X5: a delegator who is still receiving a redelegation into a
    validator (the by-destination index holds a key for the pair, whatever
    the source it came from) cannot redelegate out of that validator:
    [BeginRedelegation] fails with [ErrTransitiveRedelegation], in the
    state it was called in. *)
Theorem BeginRedelegation_transitive delAddr valSrcAddr valDstAddr sharesAmount
    srcValidator dstValidator from v s :
  valSrcAddr ≠ valDstAddr →
  validators s !! valDstAddr = Some dstValidator →
  validators s !! valSrcAddr = Some srcValidator →
  store s !! KREDByValDstIndex valSrcAddr delAddr from = Some v →
  BeginRedelegation k ctx delAddr valSrcAddr valDstAddr sharesAmount s
  = Done (0, Some ErrTransitiveRedelegation) s.
Proof.
  intros Hne Hdst Hsrc Hkey. unfold BeginRedelegation. rewrite decide_False by done.
  rewrite (bind_Done _ _ _ _ _ (GetValidator_eq _ _)), Hdst.
  rewrite (bind_Done _ _ _ _ _ (GetValidator_eq _ _)), Hsrc.
  by rewrite (bind_Done _ _ _ _ _ (HasReceivingRedelegation_true _ _ _ _ _ Hkey)).
Qed.

Lemma GetRedelegation_found delAddr src dst red s :
  store s !! KRED delAddr src dst = Some (VRED red) →
  GetRedelegation delAddr src dst s = Done (Some red) s.
Proof. intros H. unfold GetRedelegation, GetREDKey. munfold. by rewrite H. Qed.

Lemma GetRedelegation_missing delAddr src dst s :
  store s !! KRED delAddr src dst = None →
  GetRedelegation delAddr src dst s = Done None s.
Proof. intros H. unfold GetRedelegation, GetREDKey. munfold. by rewrite H. Qed.

(** X6: when the redelegation record of the triple already holds
    [MaxEntries] entries or more, [BeginRedelegation] fails with
    [ErrMaxRedelegationEntries] before any share is unbonded, in the state
    it was called in. *)
Theorem BeginRedelegation_max_entries delAddr valSrcAddr valDstAddr sharesAmount
    srcValidator dstValidator red s :
  valSrcAddr ≠ valDstAddr →
  validators s !! valDstAddr = Some dstValidator →
  validators s !! valSrcAddr = Some srcValidator →
  (∀ from, store s !! KREDByValDstIndex valSrcAddr delAddr from = None) →
  store s !! KRED delAddr valSrcAddr valDstAddr = Some (VRED red) →
  Z.of_N (p_MaxEntries (params s)) ≤ Z.of_nat (length (red_Entries red)) →
  BeginRedelegation k ctx delAddr valSrcAddr valDstAddr sharesAmount s
  = Done (0, Some ErrMaxRedelegationEntries) s.
Proof.
  intros Hne Hdst Hsrc Hnone Hred Hmax. unfold BeginRedelegation. rewrite decide_False by done.
  rewrite (bind_Done _ _ _ _ _ (GetValidator_eq _ _)), Hdst.
  rewrite (bind_Done _ _ _ _ _ (GetValidator_eq _ _)), Hsrc.
  rewrite (bind_Done _ _ _ _ _ (HasReceivingRedelegation_false _ _ _ Hnone)). cbv beta iota.
  unfold HasMaxRedelegationEntries. rewrite bind_assoc.
  rewrite (bind_Done _ _ _ _ _ (GetRedelegation_found _ _ _ _ _ Hred)). cbv beta iota.
  unfold MaxEntries. rewrite bind_assoc, bind_gets, bind_ret.
  by rewrite bool_decide_eq_true_2.
Qed.

Lemma HasMaxRedelegationEntries_room delAddr valSrcAddr valDstAddr s :
  (∀ v, store s !! KRED delAddr valSrcAddr valDstAddr = Some v →
        ∃ red, v = VRED red
               ∧ Z.of_nat (length (red_Entries red)) < Z.of_N (p_MaxEntries (params s))) →
  HasMaxRedelegationEntries delAddr valSrcAddr valDstAddr s = Done false s.
Proof.
  intros Hroom. unfold HasMaxRedelegationEntries.
  destruct (store s !! KRED delAddr valSrcAddr valDstAddr) as [v|] eqn:Hred.
  - destruct (Hroom v eq_refl) as (red & -> & Hlen).
    rewrite (bind_Done _ _ _ _ _ (GetRedelegation_found _ _ _ _ _ Hred)). cbv beta iota.
    unfold MaxEntries. rewrite bind_gets. munfold.
    rewrite bool_decide_eq_false_2; [done|lia].
  - by rewrite (bind_Done _ _ _ _ _ (GetRedelegation_missing _ _ _ _ Hred)).
Qed.

(** X7: the amount check of [BeginRedelegation] comes after [Unbond].
    When every guard is passed (two different validators with a record,
    no redelegation being received into the source, room in the record of
    the triple) and the shares unbonded are worth no whole token, the call
    fails with [ErrTinyRedelegationAmount] in the state [Unbond] has left:
    the shares are already taken from the delegation, whose record holds
    that many shares less, or is gone when none is left. *)
Theorem BeginRedelegation_tiny_amount delAddr valSrcAddr valDstAddr sharesAmount
    srcValidator dstValidator d s s1 :
  valSrcAddr ≠ valDstAddr →
  validators s !! valDstAddr = Some dstValidator →
  validators s !! valSrcAddr = Some srcValidator →
  (∀ from, store s !! KREDByValDstIndex valSrcAddr delAddr from = None) →
  (∀ v, store s !! KRED delAddr valSrcAddr valDstAddr = Some v →
        ∃ red, v = VRED red
               ∧ Z.of_nat (length (red_Entries red)) < Z.of_N (p_MaxEntries (params s))) →
  store s !! KDelegation delAddr valSrcAddr = Some (VDelegation d) →
  AccAddressFromBech32 k (del_DelegatorAddress d) = Some delAddr →
  ValAddressFromBech32 k (del_ValidatorAddress d) = Some valSrcAddr →
  Unbond k delAddr valSrcAddr sharesAmount s = Done (0, None) s1 →
  BeginRedelegation k ctx delAddr valSrcAddr valDstAddr sharesAmount s
  = Done (0, Some ErrTinyRedelegationAmount) s1
  ∧ sharesAmount ≤ del_Shares d
  ∧ store s1 !! KDelegation delAddr valSrcAddr
    = (if del_Shares d - sharesAmount =? 0 then None
       else Some (VDelegation (del_setShares (del_Shares d - sharesAmount) d))).
Proof.
  intros Hne Hdst Hsrc Hnone Hroom Hd Hacc Hval HU. split.
  - unfold BeginRedelegation. rewrite decide_False by done.
    rewrite (bind_Done _ _ _ _ _ (GetValidator_eq _ _)), Hdst.
    rewrite (bind_Done _ _ _ _ _ (GetValidator_eq _ _)), Hsrc.
    rewrite (bind_Done _ _ _ _ _ (HasReceivingRedelegation_false _ _ _ Hnone)). cbv beta iota.
    rewrite (bind_Done _ _ _ _ _ (HasMaxRedelegationEntries_room _ _ _ _ Hroom)). cbv beta iota.
    by rewrite (bind_Done _ _ _ _ _ HU).
  - by apply (Unbond_success_record k delAddr valSrcAddr sharesAmount d 0 s s1).
Qed.
End RequestErrors.

(** ** Records and their indexes: what is written can be read back *)

Section RoundTrips.
Context (k : Keeper).

Lemma SetRedelegation_ok red del src dst s :
  AccAddressFromBech32 k (red_DelegatorAddress red) = Some del →
  ValAddressFromBech32 k (red_ValidatorSrcAddress red) = Some src →
  ValAddressFromBech32 k (red_ValidatorDstAddress red) = Some dst →
  SetRedelegation k red s
  = Done tt (with_store (λ st, <[KREDByValDstIndex dst del src := VEmpty]>
                                 (<[KREDByValSrcIndex src del dst := VEmpty]>
                                    (<[KRED del src dst := VRED red]> st))) s).
Proof.
  intros Hdel Hsrc Hdst. unfold SetRedelegation, mustAccAddress, mustValAddress.
  by rewrite Hdel, Hsrc, Hdst.
Qed.

Lemma RemoveRedelegation_ok red del src dst s :
  AccAddressFromBech32 k (red_DelegatorAddress red) = Some del →
  ValAddressFromBech32 k (red_ValidatorSrcAddress red) = Some src →
  ValAddressFromBech32 k (red_ValidatorDstAddress red) = Some dst →
  RemoveRedelegation k red s
  = Done tt (with_store (λ st, delete (KREDByValDstIndex dst del src)
                                 (delete (KREDByValSrcIndex src del dst)
                                    (delete (KRED del src dst) st))) s).
Proof.
  intros Hdel Hsrc Hdst. unfold RemoveRedelegation, mustAccAddress, mustValAddress.
  by rewrite Hdel, Hsrc, Hdst.
Qed.

(** X8: after [SetRedelegation], [GetRedelegation] of the triple returns
    the record written, and the delegator counts as receiving a
    redelegation into the destination validator. *)
Theorem SetRedelegation_lookup red del src dst s :
  AccAddressFromBech32 k (red_DelegatorAddress red) = Some del →
  ValAddressFromBech32 k (red_ValidatorSrcAddress red) = Some src →
  ValAddressFromBech32 k (red_ValidatorDstAddress red) = Some dst →
  ∃ s1, SetRedelegation k red s = Done tt s1
        ∧ GetRedelegation del src dst s1 = Done (Some red) s1
        ∧ HasReceivingRedelegation del dst s1 = Done true s1.
Proof.
  intros Hdel Hsrc Hdst. eexists. split; [by apply SetRedelegation_ok|]. split.
  - apply GetRedelegation_found. simpl.
    rewrite lookup_insert_ne by done. rewrite lookup_insert_ne by done.
    by rewrite lookup_insert_eq.
  - eapply HasReceivingRedelegation_true. simpl. by rewrite lookup_insert_eq.
Qed.

(** X9: after [RemoveRedelegation], [GetRedelegation] of the triple finds
    nothing, and when no other source is redelegating to the destination
    for this delegator, the delegator no longer counts as receiving a
    redelegation there. *)
Theorem RemoveRedelegation_lookup red del src dst s :
  AccAddressFromBech32 k (red_DelegatorAddress red) = Some del →
  ValAddressFromBech32 k (red_ValidatorSrcAddress red) = Some src →
  ValAddressFromBech32 k (red_ValidatorDstAddress red) = Some dst →
  (∀ from, from ≠ src → store s !! KREDByValDstIndex dst del from = None) →
  ∃ s1, RemoveRedelegation k red s = Done tt s1
        ∧ GetRedelegation del src dst s1 = Done None s1
        ∧ HasReceivingRedelegation del dst s1 = Done false s1.
Proof.
  intros Hdel Hsrc Hdst Hothers. eexists. split; [by apply RemoveRedelegation_ok|]. split.
  - apply GetRedelegation_missing. simpl.
    rewrite lookup_delete_ne by done. rewrite lookup_delete_ne by done.
    by rewrite lookup_delete_eq.
  - apply HasReceivingRedelegation_false. intros from. simpl.
    destruct (decide (from = src)) as [->|Hne].
    + by rewrite lookup_delete_eq.
    + rewrite lookup_delete_ne by congruence. rewrite lookup_delete_ne by done.
      rewrite lookup_delete_ne by done. by apply Hothers.
Qed.

Lemma IncrementUnbondingOpId_ok s n :
  store s !! KUnbondingDelegationEntryId = n →
  (∀ v, n = Some v → ∃ m, v = VUint64 m) →
  IncrementUnbondingOpId s
  = Done ((default 0%N (n ≫= λ v, if v is VUint64 m then Some m else None) + 1) mod 2 ^ 64)%N
      (with_store (<[KUnbondingDelegationEntryId :=
                       VUint64 ((default 0%N (n ≫= λ v, if v is VUint64 m then Some m else None) + 1)
                                mod 2 ^ 64)%N]>) s).
Proof.
  intros Hn Htyped. unfold IncrementUnbondingOpId. munfold. rewrite Hn.
  destruct n as [v|]; [|done]. destruct (Htyped v eq_refl) as [m ->]. done.
Qed.

(** X10: the ids [IncrementUnbondingOpId] hands out.  On a store without
    a counter the first id is 1.  Every id is below 2^64 and is left in the
    counter, and the next call returns its successor, wrapping from
    2^64 - 1 to 0. *)
Theorem IncrementUnbondingOpId_consecutive id1 s s1 :
  IncrementUnbondingOpId s = Done id1 s1 →
  (store s !! KUnbondingDelegationEntryId = None → id1 = 1%N)
  ∧ (id1 < 2 ^ 64)%N
  ∧ store s1 !! KUnbondingDelegationEntryId = Some (VUint64 id1)
  ∧ ∃ s2, IncrementUnbondingOpId s1
          = Done (if decide (id1 = 2 ^ 64 - 1)%N then 0%N else (id1 + 1)%N) s2
          ∧ store s2 = <[KUnbondingDelegationEntryId :=
                           VUint64 (if decide (id1 = 2 ^ 64 - 1)%N then 0%N else (id1 + 1)%N)]>
                         (store s1).
Proof.
  intros H.
  assert (store s1 !! KUnbondingDelegationEntryId = Some (VUint64 id1)
          ∧ (id1 < 2 ^ 64)%N
          ∧ (store s !! KUnbondingDelegationEntryId = None → id1 = 1%N)) as (Hs1 & Hlt & Hfirst).
  { revert H. unfold IncrementUnbondingOpId. munfold.
    destruct (store s !! KUnbondingDelegationEntryId) as [[]|]; try done;
      intros [= <- <-]; simpl; rewrite lookup_insert_eq;
      (split; [done|split; [by apply N.mod_lt|done]]). }
  split_and!; try done.
  eexists. split.
  - rewrite (IncrementUnbondingOpId_ok s1 _ Hs1) by (intros v [= <-]; eauto). simpl.
    f_equal. case_decide as Hmax.
    + subst id1. reflexivity.
    + apply N.mod_small. lia.
  - simpl. f_equal. f_equal. case_decide as Hmax.
    + subst id1. reflexivity.
    + apply N.mod_small. lia.
Qed.

Lemma GetUnbondingDelegation_missing delAddr valAddr s :
  store s !! KUBD delAddr valAddr = None →
  GetUnbondingDelegation delAddr valAddr s = Done None s.
Proof. intros H. unfold GetUnbondingDelegation, GetUBDKey. munfold. by rewrite H. Qed.

Lemma SetUBDByUnbondingOpIndex_ok ubd id del val s :
  AccAddressFromBech32 k (ubd_DelegatorAddress ubd) = Some del →
  ValAddressFromBech32 k (ubd_ValidatorAddress ubd) = Some val →
  SetUBDByUnbondingOpIndex k ubd id s
  = Done tt (with_store (<[KUnbondingOpIndex id := VKey (KUBD del val)]>) s).
Proof.
  intros Hdel Hval. unfold SetUBDByUnbondingOpIndex, mustAccAddress, mustValAddress.
  by rewrite Hdel, Hval.
Qed.

Lemma IncrementUnbondingOpId_counter counter s :
  match store s !! KUnbondingDelegationEntryId with
  | None => counter = 0%N
  | Some v => v = VUint64 counter
  end →
  IncrementUnbondingOpId s
  = Done ((counter + 1) mod 2 ^ 64)%N
      (with_store (<[KUnbondingDelegationEntryId := VUint64 ((counter + 1) mod 2 ^ 64)%N]>) s).
Proof.
  intros Hctr. unfold IncrementUnbondingOpId. munfold.
  destruct (store s !! KUnbondingDelegationEntryId) as [v|]; by subst.
Qed.

(** An id that no entry of the record carries is found at the entry
    appended with it. *)
Lemma ubdEntryIndexFrom_new old e id n :
  Forall (λ e0, ubde_Id e0 ≠ id) old → ubde_Id e = id →
  ubdEntryIndexFrom (old ++ [e]) id n = Some (n + length old)%nat.
Proof.
  intros Hold He. revert n. induction Hold as [|e0 old Hne Hold IH]; intros n; simpl.
  - rewrite decide_True by done. f_equal. lia.
  - rewrite decide_False by done. rewrite IH. f_equal. lia.
Qed.

(** [SetUnbondingDelegationEntry] on a store whose counter holds [counter]
    (or has no counter, for 0) and whose record of the pair holds the
    entries [old] (or has no record, for none). *)
Lemma SetUnbondingDelegationEntry_ok delAddr valAddr height t balance counter old s :
  AccAddressFromBech32 k (AccAddressString k delAddr) = Some delAddr →
  ValAddressFromBech32 k (ValAddressString k valAddr) = Some valAddr →
  match store s !! KUBD delAddr valAddr with
  | None => old = []
  | Some v => ∃ ubd, v = VUBD ubd
                     ∧ AccAddressFromBech32 k (ubd_DelegatorAddress ubd) = Some delAddr
                     ∧ ValAddressFromBech32 k (ubd_ValidatorAddress ubd) = Some valAddr
                     ∧ old = ubd_Entries ubd
  end →
  match store s !! KUnbondingDelegationEntryId with
  | None => counter = 0%N
  | Some v => v = VUint64 counter
  end →
  ∃ ubd,
    SetUnbondingDelegationEntry k delAddr valAddr height t balance s
    = Done ubd
        (with_hooks (λ l, l ++ [AfterUnbondingOpInitiated ((counter + 1) mod 2 ^ 64)%N])
           (with_store (λ st, <[KUnbondingOpIndex ((counter + 1) mod 2 ^ 64)%N
                                := VKey (KUBD delAddr valAddr)]>
                                (<[KUBDByValIndex valAddr delAddr := VEmpty]>
                                   (<[KUBD delAddr valAddr := VUBD ubd]>
                                      (<[KUnbondingDelegationEntryId
                                         := VUint64 ((counter + 1) mod 2 ^ 64)%N]> st)))) s))
    ∧ AccAddressFromBech32 k (ubd_DelegatorAddress ubd) = Some delAddr
    ∧ ValAddressFromBech32 k (ubd_ValidatorAddress ubd) = Some valAddr
    ∧ ubd_Entries ubd
      = old ++ [mkUBDEntry ((counter + 1) mod 2 ^ 64)%N height t balance balance false].
Proof.
  intros Hacc Hvalc Hrec Hctr. unfold SetUnbondingDelegationEntry.
  destruct (store s !! KUBD delAddr valAddr) as [v|] eqn:Hv.
  - destruct Hrec as (ubd0 & -> & Hdel & Hval & ->).
    rewrite (bind_Done _ _ _ _ _ (GetUnbondingDelegation_found _ _ _ _ Hv)).
    rewrite (bind_Done _ _ _ _ _ (IncrementUnbondingOpId_counter counter s Hctr)).
    cbv beta iota zeta.
    rewrite (bind_Done _ _ _ _ _ (SetUnbondingDelegation_ok k (ubd_AddEntry ubd0 _ _ _ _)
                                    delAddr valAddr _ Hdel Hval)).
    rewrite (bind_Done _ _ _ _ _ (SetUBDByUnbondingOpIndex_ok (ubd_AddEntry ubd0 _ _ _ _) _
                                    delAddr valAddr _ Hdel Hval)).
    rewrite bind_callHook.
    eexists. split; [reflexivity|]. done.
  - subst old.
    rewrite (bind_Done _ _ _ _ _ (GetUnbondingDelegation_missing _ _ _ Hv)).
    rewrite (bind_Done _ _ _ _ _ (IncrementUnbondingOpId_counter counter s Hctr)).
    cbv beta iota zeta.
    rewrite (bind_Done _ _ _ _ _ (SetUnbondingDelegation_ok k (NewUnbondingDelegation k _ _ _ _ _ _)
                                    delAddr valAddr _ Hacc Hvalc)).
    rewrite (bind_Done _ _ _ _ _ (SetUBDByUnbondingOpIndex_ok (NewUnbondingDelegation k _ _ _ _ _ _) _
                                    delAddr valAddr _ Hacc Hvalc)).
    rewrite bind_callHook.
    eexists. split; [reflexivity|]. done.
Qed.

(** The id given to the new entry is carried by no entry of the record,
    when the ids of the record do not exceed the counter and the counter
    does not wrap. *)
Lemma next_id_not_in_use (old : list UnbondingDelegationEntry) (counter : N) :
  Forall (λ e, (ubde_Id e ≤ counter)%N) old → (counter < 2 ^ 64 - 1)%N →
  Forall (λ e, ubde_Id e ≠ ((counter + 1) mod 2 ^ 64)%N) old.
Proof.
  intros Hold Hwrap. rewrite N.mod_small by lia.
  eapply Forall_impl; [exact Hold|]. simpl. intros e He. lia.
Qed.

(** X11: [SetUnbondingDelegationEntry] takes the next id of the counter
    (the counter plus one, modulo 2^64, which it leaves in the counter)
    and appends one entry with that id, the given height, completion time
    and balance (as balance and initial balance) and not on hold, to the
    record of the pair (a new record when there was none).  Afterwards the
    record is found both under the pair and under the new id, and the
    [AfterUnbondingOpInitiated] hook has been called with that id.  When
    no id of the record exceeds the counter and the counter does not wrap,
    no earlier entry carries the id: [unbondingDelegationEntryArrayIndex]
    finds the new entry. *)
Theorem SetUnbondingDelegationEntry_lookup delAddr valAddr height t balance counter old s :
  AccAddressFromBech32 k (AccAddressString k delAddr) = Some delAddr →
  ValAddressFromBech32 k (ValAddressString k valAddr) = Some valAddr →
  match store s !! KUBD delAddr valAddr with
  | None => old = []
  | Some v => ∃ ubd, v = VUBD ubd
                     ∧ AccAddressFromBech32 k (ubd_DelegatorAddress ubd) = Some delAddr
                     ∧ ValAddressFromBech32 k (ubd_ValidatorAddress ubd) = Some valAddr
                     ∧ old = ubd_Entries ubd
  end →
  match store s !! KUnbondingDelegationEntryId with
  | None => counter = 0%N
  | Some v => v = VUint64 counter
  end →
  ∃ ubd s1,
    SetUnbondingDelegationEntry k delAddr valAddr height t balance s = Done ubd s1
    ∧ ubd_Entries ubd
      = old ++ [mkUBDEntry ((counter + 1) mod 2 ^ 64)%N height t balance balance false]
    ∧ store s1 !! KUnbondingDelegationEntryId = Some (VUint64 ((counter + 1) mod 2 ^ 64)%N)
    ∧ GetUnbondingDelegation delAddr valAddr s1 = Done (Some ubd) s1
    ∧ GetUnbondingDelegationByUnbondingOpId ((counter + 1) mod 2 ^ 64)%N s1 = Done (Some ubd) s1
    ∧ hooks s1 = hooks s ++ [AfterUnbondingOpInitiated ((counter + 1) mod 2 ^ 64)%N]
    ∧ (Forall (λ e, (ubde_Id e ≤ counter)%N) old → (counter < 2 ^ 64 - 1)%N →
       unbondingDelegationEntryArrayIndex ubd ((counter + 1) mod 2 ^ 64)%N
       = Some (length old)).
Proof.
  intros Hacc Hvalc Hrec Hctr.
  destruct (SetUnbondingDelegationEntry_ok delAddr valAddr height t balance counter old s
              Hacc Hvalc Hrec Hctr) as (ubd & Hrun & _ & _ & Hentries).
  exists ubd. eexists. split; [exact Hrun|]. split; [exact Hentries|].
  assert (∀ st : gmap Key Value,
            (<[KUnbondingOpIndex ((counter + 1) mod 2 ^ 64)%N := VKey (KUBD delAddr valAddr)]>
               (<[KUBDByValIndex valAddr delAddr := VEmpty]>
                  (<[KUBD delAddr valAddr := VUBD ubd]> st))) !! KUBD delAddr valAddr
            = Some (VUBD ubd)) as Hlook.
  { intros st. rewrite lookup_insert_ne by done. rewrite lookup_insert_ne by done.
    by rewrite lookup_insert_eq. }
  split_and!.
  - simpl. rewrite !lookup_insert_ne by done. by rewrite lookup_insert_eq.
  - apply GetUnbondingDelegation_found. simpl. apply Hlook.
  - eapply GetUnbondingDelegationByUnbondingOpId_found; simpl.
    + by rewrite lookup_insert_eq.
    + apply Hlook.
  - done.
  - intros Hold Hwrap. unfold unbondingDelegationEntryArrayIndex. rewrite Hentries.
    rewrite ubdEntryIndexFrom_new; [done| |done].
    by apply next_id_not_in_use.
Qed.

(** X12: [InsertUBDQueue] appends the record's (delegator, validator) pair
    to the slot of the completion time, after the pairs already there and
    without looking for a pair that is already present; the other keys of
    the store are not touched. *)
Theorem InsertUBDQueue_appends ubd t old s :
  GetUBDQueueTimeSlice t s = Done old s →
  ∃ s1, InsertUBDQueue ubd t s = Done tt s1
        ∧ GetUBDQueueTimeSlice t s1
          = Done (old ++ [mkDVPair (ubd_DelegatorAddress ubd) (ubd_ValidatorAddress ubd)]) s1
        ∧ ∀ key, key ≠ KUnbondingDelegationTime t → store s1 !! key = store s !! key.
Proof.
  intros Hold. unfold InsertUBDQueue. rewrite (bind_Done _ _ _ _ _ Hold).
  assert (∀ l, GetUBDQueueTimeSlice t
                 (with_store (<[KUnbondingDelegationTime t := VDVPairs l]>) s)
               = Done l (with_store (<[KUnbondingDelegationTime t := VDVPairs l]>) s)) as Hget.
  { intros l. unfold GetUBDQueueTimeSlice, GetUnbondingDelegationTimeKey. munfold. simpl.
    by rewrite lookup_insert_eq. }
  case_decide as Hlen.
  - apply nil_length_inv in Hlen as ->. eexists. split; [reflexivity|].
    split; [apply Hget|]. intros key Hkey. simpl. by rewrite lookup_insert_ne.
  - eexists. split; [reflexivity|].
    split; [apply Hget|]. intros key Hkey. simpl. by rewrite lookup_insert_ne.
Qed.

(** X13: the same for [InsertRedelegationQueue] and the (delegator,
    source, destination) triple. *)
Theorem InsertRedelegationQueue_appends red t old s :
  GetRedelegationQueueTimeSlice t s = Done old s →
  ∃ s1, InsertRedelegationQueue red t s = Done tt s1
        ∧ GetRedelegationQueueTimeSlice t s1
          = Done (old ++ [mkDVVTriplet (red_DelegatorAddress red) (red_ValidatorSrcAddress red)
                            (red_ValidatorDstAddress red)]) s1
        ∧ ∀ key, key ≠ KRedelegationTime t → store s1 !! key = store s !! key.
Proof.
  intros Hold. unfold InsertRedelegationQueue. rewrite (bind_Done _ _ _ _ _ Hold).
  assert (∀ l, GetRedelegationQueueTimeSlice t
                 (with_store (<[KRedelegationTime t := VDVVTriplets l]>) s)
               = Done l (with_store (<[KRedelegationTime t := VDVVTriplets l]>) s)) as Hget.
  { intros l. unfold GetRedelegationQueueTimeSlice, GetRedelegationTimeKey. munfold. simpl.
    by rewrite lookup_insert_eq. }
  cbv zeta. case_decide as Hlen.
  - apply nil_length_inv in Hlen as ->. eexists. split; [reflexivity|].
    split; [apply Hget|]. intros key Hkey. simpl. by rewrite lookup_insert_ne.
  - eexists. split; [reflexivity|].
    split; [apply Hget|]. intros key Hkey. simpl. by rewrite lookup_insert_ne.
Qed.
End RoundTrips.

(** ** Undelegate: the entry, its index key and its queue slot *)

Section UndelegateSuccess.
Context (k : Keeper) (ctx : Context).

(** [Unbond] writes delegation keys only, and asks nothing of the custody
    keeper. *)
Lemma Unbond_frame delAddr valAddr shares r s s1 :
  Unbond k delAddr valAddr shares s = Done r s1 →
  params s1 = params s ∧ bank s1 = bank s
  ∧ ∀ key, (∀ d v, key ≠ KDelegation d v) → store s1 !! key = store s !! key.
Proof.
  unfold Unbond, GetDelegation, GetValidator, MustUnmarshalDelegation, RemoveDelegation,
    SetDelegation, mustGetValidator, GetValidator, mustAccAddress, mustValAddress, GetDelegationKey.
  munfold. intros H.
  repeat (case_match; simplify_eq; try discriminate); simpl;
    (split; [done|split; [done|]]); intros key Hkey; try done;
    by rewrite ?lookup_insert_ne, ?lookup_delete_ne by (intros <-; by eapply Hkey).
Qed.

(** X14: [Unbond] writes delegation keys only: every other key of the
    store (unbonding and redelegation records, their indexes, the queues,
    the id counter) is as it was, the parameters are as they were, and no
    transfer is asked of the custody keeper, whether the call succeeds or
    returns an error.  The validator's side goes through the validator
    registry; moving the tokens is left to the caller. *)
Theorem Unbond_touches_delegations_only delAddr valAddr shares r s s1 :
  Unbond k delAddr valAddr shares s = Done r s1 →
  params s1 = params s ∧ bank s1 = bank s
  ∧ ∀ key, (∀ d v, key ≠ KDelegation d v) → store s1 !! key = store s !! key.
Proof. apply Unbond_frame. Qed.

(** X15: a successful [Undelegate].  When the validator exists, the record
    of the pair has room for an entry, [Unbond] returns an amount and, for
    a bonded validator, the amount is not negative and the custody keeper
    accepts its move to the not-bonded pool, [Undelegate] returns block
    time plus unbonding time; the record of the pair gains one entry with
    the next id of the counter, the block height, that completion time and
    the amount; the id is indexed to the record; the pair is appended to
    the queue slot of the completion time; and the amount is moved from
    the bonded to the not-bonded pool exactly when the validator was
    bonded. *)
Theorem Undelegate_schedules_entry delAddr valAddr shares validator amount counter old s s1 :
  validators s !! valAddr = Some validator →
  (∀ ubd, store s !! KUBD delAddr valAddr = Some (VUBD ubd) →
          Z.of_nat (length (ubd_Entries ubd)) < Z.of_N (p_MaxEntries (params s))) →
  Unbond k delAddr valAddr shares s = Done (amount, None) s1 →
  (IsBonded validator = true →
   0 ≤ amount ∧ bankKeeper k (bank s) (PoolToPool BondedPool NotBondedPool amount) = None) →
  AccAddressFromBech32 k (AccAddressString k delAddr) = Some delAddr →
  ValAddressFromBech32 k (ValAddressString k valAddr) = Some valAddr →
  match store s !! KUBD delAddr valAddr with
  | None => old = []
  | Some v => ∃ ubd, v = VUBD ubd
                     ∧ AccAddressFromBech32 k (ubd_DelegatorAddress ubd) = Some delAddr
                     ∧ ValAddressFromBech32 k (ubd_ValidatorAddress ubd) = Some valAddr
                     ∧ old = ubd_Entries ubd
  end →
  match store s !! KUnbondingDelegationEntryId with
  | None => counter = 0%N
  | Some v => v = VUint64 counter
  end →
  (∀ v, store s !! KUnbondingDelegationTime (BlockTime ctx + p_UnbondingTime (params s)) = Some v →
        ∃ l, v = VDVPairs l) →
  ∃ ubd s2,
    Undelegate k ctx delAddr valAddr shares s
    = Done (BlockTime ctx + p_UnbondingTime (params s), None) s2
    ∧ store s2 !! KUBD delAddr valAddr = Some (VUBD ubd)
    ∧ ubd_Entries ubd
      = old ++ [mkUBDEntry ((counter + 1) mod 2 ^ 64)%N (BlockHeight ctx)
                  (BlockTime ctx + p_UnbondingTime (params s)) amount amount false]
    ∧ store s2 !! KUnbondingDelegationEntryId = Some (VUint64 ((counter + 1) mod 2 ^ 64)%N)
    ∧ store s2 !! KUnbondingOpIndex ((counter + 1) mod 2 ^ 64)%N
      = Some (VKey (KUBD delAddr valAddr))
    ∧ store s2 !! KUnbondingDelegationTime (BlockTime ctx + p_UnbondingTime (params s))
      = Some (VDVPairs (match store s !! KUnbondingDelegationTime
                                (BlockTime ctx + p_UnbondingTime (params s)) with
                        | Some (VDVPairs l) => l
                        | _ => []
                        end ++ [mkDVPair (ubd_DelegatorAddress ubd) (ubd_ValidatorAddress ubd)]))
    ∧ bank s2 = bank s ++ (if IsBonded validator
                           then [PoolToPool BondedPool NotBondedPool amount] else []).
Proof.
  intros Hv Hroom HU Hpool_ok Hacc Hvalc Hrec Hctr Hslot.
  assert (HasMaxUnbondingDelegationEntries delAddr valAddr s = Done false s) as Hmax.
  { unfold HasMaxUnbondingDelegationEntries.
    destruct (store s !! KUBD delAddr valAddr) as [v|] eqn:Hubd.
    - destruct Hrec as (ubd & -> & _).
      rewrite (bind_Done _ _ _ _ _ (GetUnbondingDelegation_found _ _ _ _ Hubd)). cbv beta iota.
      unfold MaxEntries. rewrite bind_gets. munfold.
      rewrite bool_decide_eq_false_2; [done|]. specialize (Hroom ubd eq_refl). lia.
    - by rewrite (bind_Done _ _ _ _ _ (GetUnbondingDelegation_missing _ _ _ Hubd)). }
  destruct (Unbond_frame _ _ _ _ _ _ HU) as (Hparams & Hbank & Hstore).
  unfold Undelegate.
  rewrite (bind_Done _ _ _ _ _ (GetValidator_eq _ _)), Hv.
  rewrite (bind_Done _ _ _ _ _ Hmax). cbv beta iota.
  rewrite (bind_Done _ _ _ _ _ HU). cbv beta iota.
  set (s1b := if IsBonded validator
              then with_bank (λ l, l ++ [PoolToPool BondedPool NotBondedPool amount]) s1 else s1).
  assert (store s1b = store s1 ∧ params s1b = params s1 ∧ hooks s1b = hooks s1
          ∧ bank s1b = bank s ++ (if IsBonded validator
                                  then [PoolToPool BondedPool NotBondedPool amount] else []))
    as (Hst_b & Hpar_b & _ & Hbank_b).
  { unfold s1b. destruct (IsBonded validator); simpl; rewrite ?Hbank, ?app_nil_r; done. }
  assert (∀ (B : Type) (f : unit → M B),
            ((if IsBonded validator then bondedTokensToNotBonded k amount else mret tt) ≫= f) s1
            = f tt s1b) as Hpool.
  { intros B f. unfold s1b. destruct (IsBonded validator); [|done].
    destruct (Hpool_ok eq_refl) as [Hamount Haccepts].
    unfold bondedTokensToNotBonded, BondDenom, NewCoin, bankCall. munfold.
    rewrite (proj2 (Z.ltb_ge _ _) Hamount). by rewrite Hbank, Haccepts. }
  rewrite Hpool. unfold UnbondingTime. rewrite bind_gets. rewrite Hpar_b, Hparams.
  set (t := BlockTime ctx + p_UnbondingTime (params s)) in *.
  destruct (SetUnbondingDelegationEntry_ok k delAddr valAddr (BlockHeight ctx) t amount
              counter old s1b Hacc Hvalc) as (ubd & Hset & _ & _ & Hentries).
  { rewrite Hst_b, Hstore by done. exact Hrec. }
  { rewrite Hst_b, Hstore by done. exact Hctr. }
  rewrite (bind_Done _ _ _ _ _ Hset).
  unfold InsertUBDQueue, GetUBDQueueTimeSlice, SetUBDQueueTimeSlice, GetUnbondingDelegationTimeKey.
  rewrite !bind_assoc. unfold storeGet. rewrite bind_gets. cbn [store with_hooks with_store].
  rewrite !lookup_insert_ne by done. rewrite Hst_b, Hstore by done.
  exists ubd.
  destruct (store s !! KUnbondingDelegationTime t) as [v|] eqn:Hq.
  - destruct (Hslot v eq_refl) as [l ->]. unfold MustUnmarshalDVPairs. rewrite bind_ret.
    case_decide as Hlen.
    + apply nil_length_inv in Hlen as ->. eexists. split; [reflexivity|].
      simpl. split_and!; try done;
        repeat (rewrite lookup_insert_ne by done); by rewrite ?lookup_insert_eq.
    + eexists. split; [reflexivity|].
      simpl. split_and!; try done;
        repeat (rewrite lookup_insert_ne by done); by rewrite ?lookup_insert_eq.
  - rewrite bind_ret. rewrite decide_True by done. eexists. split; [reflexivity|].
    simpl. split_and!; try done;
      repeat (rewrite lookup_insert_ne by done); by rewrite ?lookup_insert_eq.
Qed.
End UndelegateSuccess.

(** ** The hold protocol: unknown ids, early release, repeated holds *)

Section HoldEdges.
Context (k : Keeper) (ctx : Context).

Lemma ubdEntryIndexFrom_first es id n :
  match ubdEntryIndexFrom es id n with
  | Some i => ∃ j e, i = (n + j)%nat ∧ es !! j = Some e ∧ ubde_Id e = id
                     ∧ ∀ j' e', (j' < j)%nat → es !! j' = Some e' → ubde_Id e' ≠ id
  | None => ∀ e, e ∈ es → ubde_Id e ≠ id
  end.
Proof.
  revert n. induction es as [|e es IH]; intros n; simpl.
  - intros e He. by apply elem_of_nil in He.
  - case_decide as Hid.
    + exists 0%nat, e. split_and!; [lia|done|done|]. intros j' e' Hj'. lia.
    + specialize (IH (S n)). destruct (ubdEntryIndexFrom es id (S n)) as [i|].
      * destruct IH as (j & e0 & -> & Hj & Hid0 & Hfirst). exists (S j), e0.
        split_and!; [lia|done|done|]. intros [|j'] e' Hj' He'; simpl in He'.
        -- by injection He' as <-.
        -- eapply Hfirst; [|done]. lia.
      * intros e0 [->|He0]%elem_of_cons; [done|by apply IH].
Qed.

Lemma redEntryIndexFrom_first es id n :
  match redEntryIndexFrom es id n with
  | Some i => ∃ j e, i = (n + j)%nat ∧ es !! j = Some e ∧ rede_Id e = id
                     ∧ ∀ j' e', (j' < j)%nat → es !! j' = Some e' → rede_Id e' ≠ id
  | None => ∀ e, e ∈ es → rede_Id e ≠ id
  end.
Proof.
  revert n. induction es as [|e es IH]; intros n; simpl.
  - intros e He. by apply elem_of_nil in He.
  - case_decide as Hid.
    + exists 0%nat, e. split_and!; [lia|done|done|]. intros j' e' Hj'. lia.
    + specialize (IH (S n)). destruct (redEntryIndexFrom es id (S n)) as [i|].
      * destruct IH as (j & e0 & -> & Hj & Hid0 & Hfirst). exists (S j), e0.
        split_and!; [lia|done|done|]. intros [|j'] e' Hj' He'; simpl in He'.
        -- by injection He' as <-.
        -- eapply Hfirst; [|done]. lia.
      * intros e0 [->|He0]%elem_of_cons; [done|by apply IH].
Qed.

(** X16: [unbondingDelegationEntryArrayIndex] and
    [redelegationEntryArrayIndex] return the position of the first entry
    that carries the id, and report not-found exactly when no entry of the
    record carries it. *)
Theorem entryArrayIndex_first_match ubd red id :
  match unbondingDelegationEntryArrayIndex ubd id with
  | Some i => (∃ e, ubd_Entries ubd !! i = Some e ∧ ubde_Id e = id)
              ∧ ∀ j e, (j < i)%nat → ubd_Entries ubd !! j = Some e → ubde_Id e ≠ id
  | None => ∀ e, e ∈ ubd_Entries ubd → ubde_Id e ≠ id
  end
  ∧ match redelegationEntryArrayIndex red id with
    | Some i => (∃ e, red_Entries red !! i = Some e ∧ rede_Id e = id)
                ∧ ∀ j e, (j < i)%nat → red_Entries red !! j = Some e → rede_Id e ≠ id
    | None => ∀ e, e ∈ red_Entries red → rede_Id e ≠ id
    end.
Proof.
  split.
  - unfold unbondingDelegationEntryArrayIndex.
    pose proof (ubdEntryIndexFrom_first (ubd_Entries ubd) id 0) as H.
    destruct (ubdEntryIndexFrom (ubd_Entries ubd) id 0) as [i|]; [|done].
    destruct H as (j & e & -> & Hj & Hid & Hfirst). eauto.
  - unfold redelegationEntryArrayIndex.
    pose proof (redEntryIndexFrom_first (red_Entries red) id 0) as H.
    destruct (redEntryIndexFrom (red_Entries red) id 0) as [i|]; [|done].
    destruct H as (j & e & -> & Hj & Hid & Hfirst). eauto.
Qed.

(** X17: an id the reverse index does not know, or whose index key points
    at a record that is gone: [PutUnbondingOpOnHold] returns false and
    [UnbondingOpCanComplete] returns found=false with no error, both in the
    state they were called in. *)
Theorem UnbondingOp_unknown_id id s :
  store s !! KUnbondingOpIndex id = None
  ∨ (∃ key, store s !! KUnbondingOpIndex id = Some (VKey key) ∧ store s !! key = None) →
  PutUnbondingOpOnHold k id s = Done false s
  ∧ UnbondingOpCanComplete k ctx id s = Done (false, None) s.
Proof.
  intros Hunknown.
  assert (GetUnbondingDelegationByUnbondingOpId id s = Done None s
          ∧ GetRedelegationByUnbondingOpId id s = Done None s) as [Hubd Hred].
  { unfold GetUnbondingDelegationByUnbondingOpId, GetRedelegationByUnbondingOpId,
      GetUnbondingOpIndexKey. munfold.
    destruct Hunknown as [-> | (key & -> & Hkey)]; [done|]. simpl. by rewrite Hkey. }
  unfold PutUnbondingOpOnHold, UnbondingOpCanComplete.
  rewrite !(bind_Done _ _ _ _ _ Hubd). cbv beta iota.
  by rewrite !(bind_Done _ _ _ _ _ Hred).
Qed.

Lemma redEntryIndexFrom_setOnHold es id n i e b :
  es !! i = Some e →
  redEntryIndexFrom (<[i := rede_setOnHold b e]> es) id n = redEntryIndexFrom es id n.
Proof.
  revert n i. induction es as [|e0 es IH]; intros n [|i] He; simpl in *; try done.
  - by injection He as ->.
  - by rewrite (IH _ _ He).
Qed.

Lemma PutRedelegationEntryOnHold_ok id del src dst red i e s :
  store s !! KUnbondingOpIndex id = Some (VKey (KRED del src dst)) →
  store s !! KRED del src dst = Some (VRED red) →
  AccAddressFromBech32 k (red_DelegatorAddress red) = Some del →
  ValAddressFromBech32 k (red_ValidatorSrcAddress red) = Some src →
  ValAddressFromBech32 k (red_ValidatorDstAddress red) = Some dst →
  redelegationEntryArrayIndex red id = Some i →
  red_Entries red !! i = Some e →
  PutRedelegationEntryOnHold k id s
  = Done true
      (with_store (λ st, <[KREDByValDstIndex dst del src := VEmpty]>
                           (<[KREDByValSrcIndex src del dst := VEmpty]>
                              (<[KRED del src dst :=
                                   VRED (red_setEntries (<[i := rede_setOnHold true e]> (red_Entries red))
                                           red)]> st))) s).
Proof.
  intros Hidx Hrec Hdel Hsrc Hdst Hi He. unfold PutRedelegationEntryOnHold.
  rewrite (bind_Done _ _ _ _ _ (GetRedelegationByUnbondingOpId_found _ _ _ _ Hidx Hrec)).
  rewrite Hi.
  rewrite (bind_Done _ _ _ _ _ (at_index_of_list _ _ _ _ He)).
  simpl len. rewrite visible_insert.
  by rewrite (bind_Done _ _ _ _ _ (SetRedelegation_ok k (red_setEntries _ red) del src dst _
                                     Hdel Hsrc Hdst)).
Qed.

Lemma RedelegationCanComplete_early id key red i e s :
  store s !! KUnbondingOpIndex id = Some (VKey key) →
  store s !! key = Some (VRED red) →
  redelegationEntryArrayIndex red id = Some i →
  red_Entries red !! i = Some e →
  BlockTime ctx < rede_CompletionTime e →
  RedelegationCanComplete k ctx id s = Done (true, None) s.
Proof.
  intros Hidx Hrec Hi He Hearly. unfold RedelegationCanComplete.
  rewrite (bind_Done _ _ _ _ _ (GetRedelegationByUnbondingOpId_found _ _ _ _ Hidx Hrec)).
  rewrite Hi.
  rewrite (bind_Done _ _ _ _ _ (at_index_of_list _ _ _ _ He)).
  unfold rede_IsMature. by rewrite (proj2 (Z.leb_gt _ _) Hearly).
Qed.

(** X18: a redelegation entry put on hold stays on hold through an early
    release.  [PutRedelegationEntryOnHold] sets the flag of the entry in
    the stored record; [RedelegationCanComplete], called before the entry
    is mature, returns found=true and leaves that record, flag set, in the
    store. *)
Theorem Redelegation_hold_survives_early_release id del src dst red i e s :
  store s !! KUnbondingOpIndex id = Some (VKey (KRED del src dst)) →
  store s !! KRED del src dst = Some (VRED red) →
  AccAddressFromBech32 k (red_DelegatorAddress red) = Some del →
  ValAddressFromBech32 k (red_ValidatorSrcAddress red) = Some src →
  ValAddressFromBech32 k (red_ValidatorDstAddress red) = Some dst →
  redelegationEntryArrayIndex red id = Some i →
  red_Entries red !! i = Some e →
  BlockTime ctx < rede_CompletionTime e →
  ∃ s1 s2 held,
    PutRedelegationEntryOnHold k id s = Done true s1
    ∧ RedelegationCanComplete k ctx id s1 = Done (true, None) s2
    ∧ store s2 !! KRED del src dst = Some (VRED held)
    ∧ red_Entries held = <[i := rede_setOnHold true e]> (red_Entries red)
    ∧ rede_OnHold <$> red_Entries held !! i = Some true.
Proof.
  intros Hidx Hrec Hdel Hsrc Hdst Hi He Hearly.
  pose proof (lookup_lt_Some _ _ _ He) as Hlt.
  eexists _, _, (red_setEntries (<[i := rede_setOnHold true e]> (red_Entries red)) red).
  split; [by eapply PutRedelegationEntryOnHold_ok|].
  assert (∀ st : gmap Key Value,
            (<[KREDByValDstIndex dst del src := VEmpty]>
               (<[KREDByValSrcIndex src del dst := VEmpty]>
                  (<[KRED del src dst :=
                       VRED (red_setEntries (<[i := rede_setOnHold true e]> (red_Entries red)) red)]>
                     st))) !! KRED del src dst
            = Some (VRED (red_setEntries (<[i := rede_setOnHold true e]> (red_Entries red)) red)))
    as Hlook.
  { intros st. rewrite lookup_insert_ne by done. rewrite lookup_insert_ne by done.
    by rewrite lookup_insert_eq. }
  split_and!.
  - eapply (RedelegationCanComplete_early id (KRED del src dst) _ i (rede_setOnHold true e)).
    + simpl. rewrite !lookup_insert_ne by done. exact Hidx.
    + simpl. apply Hlook.
    + unfold redelegationEntryArrayIndex. simpl. by rewrite redEntryIndexFrom_setOnHold.
    + simpl. by rewrite list_lookup_insert_eq.
    + done.
  - simpl. apply Hlook.
  - done.
  - simpl. by rewrite list_lookup_insert_eq.
Qed.

(** X19: putting an unbonding entry on hold twice is the same as putting
    it on hold once: the second [PutUnbondingOpOnHold] returns true again
    and leaves the store as the first one left it. *)
Theorem PutUnbondingOpOnHold_twice id del val ubd i e s :
  store s !! KUnbondingOpIndex id = Some (VKey (KUBD del val)) →
  store s !! KUBD del val = Some (VUBD ubd) →
  AccAddressFromBech32 k (ubd_DelegatorAddress ubd) = Some del →
  ValAddressFromBech32 k (ubd_ValidatorAddress ubd) = Some val →
  unbondingDelegationEntryArrayIndex ubd id = Some i →
  ubd_Entries ubd !! i = Some e →
  ∃ s1 s2,
    PutUnbondingOpOnHold k id s = Done true s1
    ∧ PutUnbondingOpOnHold k id s1 = Done true s2
    ∧ store s2 = store s1
    ∧ store s1 !! KUBD del val
      = Some (VUBD (ubd_setEntries (<[i := ubde_setOnHold true e]> (ubd_Entries ubd)) ubd)).
Proof.
  intros Hidx Hrec Hdel Hval Hi He.
  pose proof (lookup_lt_Some _ _ _ He) as Hlt.
  eexists _, _. split; [by eapply PutUnbondingOpOnHold_ok|].
  assert (∀ st : gmap Key Value,
            (<[KUBDByValIndex val del := VEmpty]>
               (<[KUBD del val :=
                    VUBD (ubd_setEntries (<[i := ubde_setOnHold true e]> (ubd_Entries ubd)) ubd)]>
                  st)) !! KUBD del val
            = Some (VUBD (ubd_setEntries (<[i := ubde_setOnHold true e]> (ubd_Entries ubd)) ubd)))
    as Hlook.
  { intros st. rewrite lookup_insert_ne by done. by rewrite lookup_insert_eq. }
  split_and!.
  - eapply (PutUnbondingOpOnHold_ok k id del val _ i (ubde_setOnHold true e)).
    + simpl. rewrite !lookup_insert_ne by done. exact Hidx.
    + simpl. apply Hlook.
    + done.
    + done.
    + unfold unbondingDelegationEntryArrayIndex. simpl. by rewrite ubdEntryIndexFrom_setOnHold.
    + simpl. by rewrite list_lookup_insert_eq.
  - simpl. rewrite list_insert_insert_eq.
    apply map_eq. intros key.
    destruct (decide (key = KUBDByValIndex val del)) as [->|Hk1];
      [by rewrite !lookup_insert_eq|rewrite !(lookup_insert_ne _ (KUBDByValIndex val del)) by done].
    destruct (decide (key = KUBD del val)) as [->|Hk2];
      [by rewrite !lookup_insert_eq|by rewrite !lookup_insert_ne by done].
  - simpl. apply Hlook.
Qed.
End HoldEdges.

(** ** CompleteUnbonding and CompleteRedelegation: what stays, what is written *)

Section Completion.
Context (k : Keeper) (ctx : Context).

(** X20: with no record for the addresses, [CompleteUnbonding] fails with
    [ErrNoUnbondingDelegation] and [CompleteRedelegation] with
    [ErrNoRedelegation], each with no coins and in the state it was called
    in. *)
Theorem Complete_without_record delAddr valAddr valDstAddr s :
  store s !! KUBD delAddr valAddr = None →
  store s !! KRED delAddr valAddr valDstAddr = None →
  CompleteUnbonding k ctx delAddr valAddr s = Done ([], Some ErrNoUnbondingDelegation) s
  ∧ CompleteRedelegation k ctx delAddr valAddr valDstAddr s = Done ([], Some ErrNoRedelegation) s.
Proof.
  intros Hubd Hred. split.
  - unfold CompleteUnbonding.
    by rewrite (bind_Done _ _ _ _ _ (GetUnbondingDelegation_missing _ _ _ Hubd)).
  - unfold CompleteRedelegation.
    by rewrite (bind_Done _ _ _ _ _ (GetRedelegation_missing _ _ _ _ Hred)).
Qed.

Lemma completeUnbondingLoop_frame fuel ctxTime bondDenom delegatorAddress :
  ∀ i entries balances s r s',
    completeUnbondingLoop k fuel ctxTime bondDenom delegatorAddress i entries balances s
    = Done r s' →
    store s' = store s ∧ validators s' = validators s ∧ hooks s' = hooks s
    ∧ params s' = params s ∧ ∃ calls, bank s' = bank s ++ calls.
Proof.
  induction fuel as [|fuel IH]; intros i entries balances s r s'; simpl.
  - destruct (i <? Z.of_nat (len entries)); [done|].
    intros [= <- <-]. split_and!; try done. exists []. by rewrite app_nil_r.
  - destruct (i <? Z.of_nat (len entries)).
    2:{ intros [= <- <-]. split_and!; try done. exists []. by rewrite app_nil_r. }
    unfold at_index, load, NewCoin, bankCall. munfold. intros H.
    repeat (case_match; simplify_eq; try discriminate);
      repeat match goal with
             | Hadd : Coins_Add _ _ _ = Done _ _ |- _ => apply Coins_Add_reads in Hadd as ->
             end;
      try (apply IH in H as (? & ? & ? & ? & calls & Hcalls); simpl in *;
           split_and!; try done; rewrite Hcalls, <-?(assoc_L (++)); eauto).
    split_and!; try done. exists []. by rewrite app_nil_r.
Qed.

(** X21: whenever [CompleteUnbonding] returns an error, it returns no
    coins and has written nothing to the store: the record still holds
    every entry, also the entries whose balance was released before the
    error.  The validator registry, the hooks and the parameters are as
    they were; the custody log can only have grown. *)
Theorem CompleteUnbonding_error_keeps_record delAddr valAddr coins err s s' :
  CompleteUnbonding k ctx delAddr valAddr s = Done (coins, Some err) s' →
  coins = [] ∧ store s' = store s ∧ validators s' = validators s ∧ hooks s' = hooks s
  ∧ params s' = params s ∧ ∃ calls, bank s' = bank s ++ calls.
Proof.
  unfold CompleteUnbonding.
  destruct (GetUnbondingDelegation delAddr valAddr s) as [[ubd|] s0|msg] eqn:Hget;
    [| |by rewrite (bind_Panic _ _ _ _ Hget)]; rewrite (bind_Done _ _ _ _ _ Hget);
    assert (s0 = s) as ->
      by (revert Hget; unfold GetUnbondingDelegation, MustUnmarshalUBD; munfold; intros Hget;
          by repeat (case_match; simplify_eq; try discriminate)).
  2:{ intros [= <- <- <-]. split_and!; try done. exists []. by rewrite app_nil_r. }
  unfold BondDenom. rewrite bind_gets.
  destruct (AccAddressFromBech32 k (ubd_DelegatorAddress ubd)) as [delegatorAddress|].
  2:{ intros [= <- <- <-]. split_and!; try done. exists []. by rewrite app_nil_r. }
  destruct (completeUnbondingLoop k (len (of_list (ubd_Entries ubd))) (BlockTime ctx)
              (p_BondDenom (params s)) delegatorAddress 0 (of_list (ubd_Entries ubd)) [] s)
    as [[[entries balances]|e] s1|msg] eqn:Hloop;
    [| |by rewrite (bind_Panic _ _ _ _ Hloop)]; rewrite (bind_Done _ _ _ _ _ Hloop).
  - unfold RemoveUnbondingDelegation, SetUnbondingDelegation, mustAccAddress, mustValAddress.
    munfold. intros H. repeat (case_match; simplify_eq; try discriminate).
  - intros [= <- <- <-]. apply completeUnbondingLoop_frame in Hloop. by split.
Qed.

Lemma sweepEntries_lengths ctxTime es :
  (length (sweepEntries ctxTime es).1 + length (sweepEntries ctxTime es).2 ≤ length es)%nat.
Proof.
  induction es as [|e es IH]; simpl; [done|].
  destruct (ubde_IsMature e ctxTime && negb (ubde_OnHold e)); simpl; [|lia].
  destruct (ubde_Balance (hd e es) =? 0); simpl; lia.
Qed.

Lemma sweepEntries_sum_bound ctxTime bound es :
  Forall (λ e, 0 ≤ ubde_Balance e ≤ bound) es →
  foldr Z.add 0 (sweepEntries ctxTime es).2 ≤ Z.of_nat (length es) * bound.
Proof.
  induction es as [|e es IH]; intros Hb; simpl length; [simpl; lia|].
  apply Forall_cons in Hb as [Hb_e Hb].
  specialize (IH Hb). rewrite Nat2Z.inj_succ, Z.mul_succ_l. simpl.
  destruct (ubde_IsMature e ctxTime && negb (ubde_OnHold e)); simpl; [|lia].
  destruct (ubde_Balance (hd e es) =? 0); simpl; [lia|].
  assert (ubde_Balance (hd e es) ≤ bound); [|lia].
  destruct es as [|e' es']; simpl; [lia|].
  apply Forall_cons in Hb as [? _]. lia.
Qed.

(** X22: what [CompleteUnbonding] leaves in the record, for a custody
    keeper that accepts the transfers and balances between zero and a
    bound that, taken once per entry, fits in the 256 bits of a coin
    amount.  The entries that are not yet mature and the entries on hold
    stay, in their order, and every other entry is removed; the record is
    deleted when nothing stays.  At most one transfer is asked of the
    custody keeper for each entry removed. *)
Theorem CompleteUnbonding_keeps_unfinished delAddr valAddr ubd bound s :
  (∀ log c, bankKeeper k log c = None) →
  store s !! KUBD delAddr valAddr = Some (VUBD ubd) →
  AccAddressFromBech32 k (ubd_DelegatorAddress ubd) = Some delAddr →
  ValAddressFromBech32 k (ubd_ValidatorAddress ubd) = Some valAddr →
  Forall (λ e, 0 ≤ ubde_Balance e ≤ bound) (ubd_Entries ubd) →
  Z.of_nat (length (ubd_Entries ubd)) * bound < 2 ^ 256 →
  ∃ coins kept s',
    CompleteUnbonding k ctx delAddr valAddr s = Done (coins, None) s'
    ∧ kept = filter (λ e, ubde_IsMature e (BlockTime ctx) && negb (ubde_OnHold e) = false)
               (ubd_Entries ubd)
    ∧ store s' !! KUBD delAddr valAddr
      = (if decide (kept = []) then None else Some (VUBD (ubd_setEntries kept ubd)))
    ∧ (length (bank s') + length kept ≤ length (bank s) + length (ubd_Entries ubd))%nat.
Proof.
  intros Hbank Hrec Hdel Hval Hbound Hfit.
  assert (Forall (λ e, 0 ≤ ubde_Balance e) (ubd_Entries ubd)) as Hpos.
  { eapply Forall_impl; [exact Hbound|]. simpl. intros e He. lia. }
  pose proof (sweepEntries_sum_bound (BlockTime ctx) bound _ Hbound) as Hsum.
  destruct (CompleteUnbonding_sweep k Hbank ctx delAddr valAddr ubd s Hrec Hdel Hval Hpos
              ltac:(lia)) as (s' & Hrun & Hstore & Hcalls).
  eexists _, _, s'. split; [exact Hrun|]. split; [reflexivity|].
  rewrite <-sweepEntries_kept. split; [exact Hstore|].
  rewrite Hcalls, length_app, length_fmap.
  pose proof (sweepEntries_lengths (BlockTime ctx) (ubd_Entries ubd)). lia.
Qed.

Lemma completeRedelegationLoop_reads fuel ctxTime bondDenom :
  ∀ i entries balances s r s',
    completeRedelegationLoop fuel ctxTime bondDenom i entries balances s = Done r s' → s' = s.
Proof.
  induction fuel as [|fuel IH]; intros i entries balances s r s'; simpl.
  - destruct (i <? Z.of_nat (len entries)); [done|]. by intros [= <- <-].
  - destruct (i <? Z.of_nat (len entries)); [|by intros [= <- <-]].
    unfold at_index, load, NewCoin. munfold. intros H.
    repeat (case_match; simplify_eq; try discriminate);
      repeat match goal with
             | Hadd : Coins_Add _ _ _ = Done _ _ |- _ => apply Coins_Add_reads in Hadd as ->
             end;
      by apply IH in H.
Qed.

(** X23: [CompleteRedelegation] moves no tokens.  Whatever it returns, the
    custody log, the validator registry, the hooks and the parameters are
    as they were; the one error it can return is [ErrNoRedelegation], and
    then the store is as it was too. *)
Theorem CompleteRedelegation_moves_no_tokens delAddr valSrcAddr valDstAddr coins err s s' :
  CompleteRedelegation k ctx delAddr valSrcAddr valDstAddr s = Done (coins, err) s' →
  bank s' = bank s ∧ validators s' = validators s ∧ hooks s' = hooks s ∧ params s' = params s
  ∧ (err = None ∨ (err = Some ErrNoRedelegation ∧ coins = [] ∧ s' = s)).
Proof.
  unfold CompleteRedelegation.
  destruct (GetRedelegation delAddr valSrcAddr valDstAddr s) as [[red|] s0|msg] eqn:Hget;
    [| |by rewrite (bind_Panic _ _ _ _ Hget)]; rewrite (bind_Done _ _ _ _ _ Hget);
    assert (s0 = s) as ->
      by (revert Hget; unfold GetRedelegation, MustUnmarshalRED; munfold; intros Hget;
          by repeat (case_match; simplify_eq; try discriminate)).
  2:{ intros [= <- <- <-]. auto 10. }
  unfold BondDenom. rewrite bind_gets.
  destruct (completeRedelegationLoop (len (of_list (red_Entries red))) (BlockTime ctx)
              (p_BondDenom (params s)) 0 (of_list (red_Entries red)) [] s)
    as [[entries balances] s1|msg] eqn:Hloop;
    [|by rewrite (bind_Panic _ _ _ _ Hloop)]; rewrite (bind_Done _ _ _ _ _ Hloop).
  apply completeRedelegationLoop_reads in Hloop as ->.
  unfold RemoveRedelegation, SetRedelegation, mustAccAddress, mustValAddress.
  munfold. intros H. repeat (case_match; simplify_eq; try discriminate); simpl; auto 10.
Qed.

Lemma completeRedelegationLoop_sweep ctxTime bondDenom bound es :
  ∀ pre stale fuel total s,
    Forall (λ e, 0 ≤ rede_InitialBalance e ≤ bound) es →
    0 ≤ total →
    total + Z.of_nat (length es) * bound < 2 ^ 256 →
    (length es ≤ fuel)%nat →
    ∃ arr' balances',
      completeRedelegationLoop fuel ctxTime bondDenom (Z.of_nat (length pre))
        (mkSlice (pre ++ es ++ stale) (length pre + length es)) (NewCoins (bondDenom, total)) s
      = Done (mkSlice arr'
                (length pre
                 + length (filter (λ e, rede_IsMature e ctxTime && negb (rede_OnHold e) = false) es)),
              balances') s
      ∧ take (length pre
              + length (filter (λ e, rede_IsMature e ctxTime && negb (rede_OnHold e) = false) es))
          arr'
        = pre ++ filter (λ e, rede_IsMature e ctxTime && negb (rede_OnHold e) = false) es.
Proof.
  induction es as [|e rest IH]; intros pre stale fuel total s Hbound Htotal Hfit Hfuel.
  - exists (pre ++ stale), (NewCoins (bondDenom, total)). split.
    + destruct fuel; simpl; by rewrite (proj2 (Z.ltb_ge _ _)) by lia.
    + simpl. rewrite Nat.add_0_r, app_nil_r. apply take_app_length.
  - destruct fuel as [|fuel]; [simpl in Hfuel; lia|].
    apply Forall_cons in Hbound as [Hbound_e Hbound].
    simpl length in Hfit. rewrite Nat2Z.inj_succ, Z.mul_succ_l in Hfit.
    assert (0 ≤ Z.of_nat (length rest) * bound) as Hrest by (apply Z.mul_nonneg_nonneg; lia).
    cbn [completeRedelegationLoop].
    rewrite (proj2 (Z.ltb_lt _ _)) by (simpl; lia).
    rewrite Nat2Z.id.
    assert (index (mkSlice (pre ++ (e :: rest) ++ stale) (length pre + length (e :: rest)))
              (length pre) = Some e) as Hindex.
    { unfold index; simpl. rewrite decide_True by lia. by rewrite list_lookup_middle. }
    assert (deref (mkSlice (pre ++ (e :: rest) ++ stale) (length pre + length (e :: rest)))
              (length pre) = Some e) as Hderef.
    { unfold deref; simpl. by rewrite list_lookup_middle. }
    rewrite (bind_at_index _ _ _ _ _ Hindex), (bind_load _ _ _ _ _ Hderef).
    set (keep := λ e : RedelegationEntry, rede_IsMature e ctxTime && negb (rede_OnHold e) = false)
      in *.
    assert (¬ (rede_IsMature e ctxTime = true ∧ rede_OnHold e = false) →
            ∃ arr' balances',
              completeRedelegationLoop fuel ctxTime bondDenom (Z.of_nat (length pre) + 1)
                (mkSlice (pre ++ (e :: rest) ++ stale) (length pre + length (e :: rest)))
                (NewCoins (bondDenom, total)) s
              = Done (mkSlice arr' (length pre + length (filter keep (e :: rest))), balances') s
              ∧ take (length pre + length (filter keep (e :: rest))) arr'
                = pre ++ filter keep (e :: rest)) as Hkeep.
    { intros Hk.
      rewrite filter_cons_True
        by (unfold keep; destruct (rede_IsMature e ctxTime), (rede_OnHold e); try done;
            by destruct Hk).
      destruct (IH (pre ++ [e]) stale fuel total s Hbound Htotal ltac:(lia))
        as (arr' & balances' & Heq & Htake); [simpl in Hfuel; lia|].
      rewrite length_app in Heq, Htake. simpl in Heq, Htake.
      rewrite <-(assoc_L (++)) in Heq, Htake. simpl in Heq, Htake.
      exists arr', balances'. simpl.
      replace (Z.of_nat (length pre) + 1) with (Z.of_nat (length pre + 1)) by lia.
      replace (length pre + S (length rest))%nat with (length pre + 1 + length rest)%nat by lia.
      replace (length pre + S (length (filter keep rest)))%nat
        with (length pre + 1 + length (filter keep rest))%nat by lia.
      by split. }
    destruct (rede_IsMature e ctxTime) eqn:Hmature.
    2:{ apply Hkeep. by intros [? ?]. }
    destruct (rede_OnHold e) eqn:Hhold; cbn [negb].
    { apply Hkeep. by intros [? ?]. }
    clear Hkeep.
    rewrite filter_cons_False by (unfold keep; rewrite Hmature, Hhold; done).
    destruct (RemoveEntry_at pre e rest stale) as (stale2 & Hremove & Hhd).
    cbn [length app] in *. rewrite Hremove.
    assert (deref (mkSlice (pre ++ rest ++ stale2) (length pre + length rest)) (length pre)
            = Some (hd e rest)) as Hderef2.
    { unfold deref; simpl. rewrite lookup_app_r by lia. by rewrite Nat.sub_diag. }
    rewrite (bind_load _ _ _ _ _ Hderef2).
    replace (Z.of_nat (length pre) - 1 + 1) with (Z.of_nat (length pre)) by lia.
    assert (0 ≤ rede_InitialBalance (hd e rest) ≤ bound) as Hb.
    { destruct rest as [|e' rest']; simpl; [done|]. by apply Forall_cons in Hbound as [? _]. }
    destruct (rede_InitialBalance (hd e rest) =? 0) eqn:Hz; cbn [negb].
    + destruct (IH pre stale2 fuel total s Hbound Htotal ltac:(lia))
        as (arr' & balances' & Heq & Htake); [simpl in Hfuel; lia|].
      exists arr', balances'. by split.
    + apply Z.eqb_neq in Hz.
      rewrite (bind_load _ _ _ _ _ Hderef2). unfold NewCoin.
      rewrite (proj2 (Z.ltb_ge _ _) (proj1 Hb)), bind_ret.
      rewrite (bind_Done _ _ _ _ _ (Coins_Add_NewCoins bondDenom total
                                      (rede_InitialBalance (hd e rest)) _ Htotal
                                      ltac:(lia) ltac:(lia))).
      destruct (IH pre stale2 fuel (total + rede_InitialBalance (hd e rest)) s Hbound
                  ltac:(lia) ltac:(lia))
        as (arr' & balances' & Heq & Htake); [simpl in Hfuel; lia|].
      exists arr', balances'. by split.
Qed.

(** X24: what [CompleteRedelegation] leaves in the record, for initial
    balances between zero and a bound that, taken once per entry, fits in
    the 256 bits of a coin amount: the entries that are not yet mature and
    the entries on hold stay, in their order, and every other entry is
    removed; when nothing stays the record is deleted with both of its
    index keys. *)
Theorem CompleteRedelegation_keeps_unfinished delAddr valSrcAddr valDstAddr red bound s :
  store s !! KRED delAddr valSrcAddr valDstAddr = Some (VRED red) →
  AccAddressFromBech32 k (red_DelegatorAddress red) = Some delAddr →
  ValAddressFromBech32 k (red_ValidatorSrcAddress red) = Some valSrcAddr →
  ValAddressFromBech32 k (red_ValidatorDstAddress red) = Some valDstAddr →
  Forall (λ e, 0 ≤ rede_InitialBalance e ≤ bound) (red_Entries red) →
  Z.of_nat (length (red_Entries red)) * bound < 2 ^ 256 →
  ∃ coins kept s',
    CompleteRedelegation k ctx delAddr valSrcAddr valDstAddr s = Done (coins, None) s'
    ∧ kept = filter (λ e, rede_IsMature e (BlockTime ctx) && negb (rede_OnHold e) = false)
               (red_Entries red)
    ∧ store s' !! KRED delAddr valSrcAddr valDstAddr
      = (if decide (kept = []) then None else Some (VRED (red_setEntries kept red)))
    ∧ (kept = [] →
       store s' !! KREDByValSrcIndex valSrcAddr delAddr valDstAddr = None
       ∧ store s' !! KREDByValDstIndex valDstAddr delAddr valSrcAddr = None).
Proof.
  intros Hrec Hdel Hsrc Hdst Hbound Hfit. unfold CompleteRedelegation.
  rewrite (bind_Done _ _ _ _ _ (GetRedelegation_found _ _ _ _ _ Hrec)). cbv beta iota.
  unfold BondDenom. rewrite bind_gets.
  destruct (completeRedelegationLoop_sweep (BlockTime ctx) (p_BondDenom (params s)) bound
              (red_Entries red) [] [] (length (red_Entries red)) 0 s Hbound (Z.le_refl 0)
              ltac:(by rewrite Z.add_0_l) (le_n _))
    as (arr' & balances' & Hloop & Htake).
  simpl in Hloop, Htake. rewrite app_nil_r in Hloop.
  unfold of_list. simpl len. rewrite (bind_Done _ _ _ _ _ Hloop). cbv beta iota.
  unfold visible. simpl arr. simpl len. rewrite Htake.
  set (kept := filter (λ e, rede_IsMature e (BlockTime ctx) && negb (rede_OnHold e) = false)
                 (red_Entries red)) in *.
  exists balances', kept.
  destruct kept as [|e0 kept'] eqn:Hkept.
  - simpl length. rewrite decide_True by done.
    rewrite (bind_Done _ _ _ _ _ (RemoveRedelegation_ok k (red_setEntries _ red)
                                    delAddr valSrcAddr valDstAddr _ Hdel Hsrc Hdst)).
    eexists. split; [reflexivity|]. split; [done|]. simpl. split.
    + rewrite !lookup_delete_ne by done. by rewrite lookup_delete_eq.
    + intros _. split.
      * rewrite lookup_delete_ne by done. by rewrite lookup_delete_eq.
      * by rewrite lookup_delete_eq.
  - simpl length. rewrite decide_False by done.
    rewrite (bind_Done _ _ _ _ _ (SetRedelegation_ok k (red_setEntries _ red)
                                    delAddr valSrcAddr valDstAddr _ Hdel Hsrc Hdst)).
    eexists. split; [reflexivity|]. split; [done|]. simpl. split; [|done].
    rewrite !lookup_insert_ne by done. by rewrite lookup_insert_eq.
Qed.
End Completion.

(** ** Delegate *)

Section DelegateFacts.
Context (k : Keeper).

(** X25: whenever [Delegate] returns an error (an invalid exchange rate,
    or the custody keeper refusing the transfer from the account), it
    returns zero shares and has written nothing: the store, the validator
    registry and the custody log are as they were, and at most the one
    hook before the change has been called. *)
Theorem Delegate_error_writes_nothing delAddr bondAmt tokenSrc validator subtractAccount
    shares err s s' :
  Delegate k delAddr bondAmt tokenSrc validator subtractAccount s = Done (shares, Some err) s' →
  shares = 0 ∧ store s' = store s ∧ validators s' = validators s ∧ bank s' = bank s
  ∧ params s' = params s
  ∧ (hooks s' = hooks s
     ∨ hooks s' = hooks s ++ [BeforeDelegationSharesModified delAddr (GetOperator validator)]
     ∨ hooks s' = hooks s ++ [BeforeDelegationCreated delAddr (GetOperator validator)]).
Proof.
  unfold Delegate, GetDelegation, MustUnmarshalDelegation, SetDelegation, mustAccAddress,
    mustValAddress, BondDenom, NewCoin, bankCall, notBondedTokensToBonded,
    bondedTokensToNotBonded.
  munfold. intros H.
  repeat (case_match; simplify_eq; try discriminate); simpl; auto 10.
Qed.

(** X26: [Delegate] asked to take the tokens from the delegator's account
    with [Bonded] as the token source never returns: with a valid exchange
    rate the call panics. *)
Theorem Delegate_from_account_bonded_source_panics delAddr bondAmt validator s :
  InvalidExRate k validator = false →
  ∃ msg, Delegate k delAddr bondAmt Bonded validator true s = Panic msg.
Proof.
  intros Hrate.
  unfold Delegate, GetDelegation, MustUnmarshalDelegation, mustAccAddress.
  rewrite Hrate. munfold.
  repeat (case_match; simplify_eq; try discriminate); eauto.
Qed.

(** X27: a successful [Delegate] that moves tokens already held by the
    module ([subtractAccount] false).  The shares returned are the shares
    the validator issued for the amount; the delegation of the pair holds
    the shares it held before (none for a new delegation) plus those; and
    tokens move between the pools exactly when the source status and the
    validator's status differ: from not-bonded to bonded for an unbonded or
    unbonding source and a bonded validator, from bonded to not-bonded for
    a bonded source and a validator that is not bonded. *)
Theorem Delegate_from_pool delAddr bondAmt tokenSrc validator newShares s s' :
  Delegate k delAddr bondAmt tokenSrc validator false s = Done (newShares, None) s' →
  AccAddressFromBech32 k (AccAddressString k delAddr) = Some delAddr →
  ValAddressFromBech32 k (ValAddressString k (GetOperator validator))
  = Some (GetOperator validator) →
  (∀ d, store s !! KDelegation delAddr (GetOperator validator) = Some (VDelegation d) →
        AccAddressFromBech32 k (del_DelegatorAddress d) = Some delAddr
        ∧ ValAddressFromBech32 k (del_ValidatorAddress d) = Some (GetOperator validator)) →
  newShares = (AddValidatorTokensAndShares k (validators s) validator bondAmt).2
  ∧ validators s' = (AddValidatorTokensAndShares k (validators s) validator bondAmt).1.1
  ∧ (∃ d', store s' !! KDelegation delAddr (GetOperator validator) = Some (VDelegation d')
           ∧ del_Shares d'
             = match store s !! KDelegation delAddr (GetOperator validator) with
               | Some (VDelegation d) => del_Shares d
               | _ => 0
               end + newShares)
  ∧ tokenSrc ≠ Unspecified
  ∧ bank s' = bank s ++ (if bool_decide (tokenSrc = Bonded)
                         then if IsBonded validator then []
                              else [PoolToPool BondedPool NotBondedPool bondAmt]
                         else if IsBonded validator
                              then [PoolToPool NotBondedPool BondedPool bondAmt]
                              else []).
Proof.
  intros H Hacc Hval Hrec. revert H.
  unfold Delegate. destruct (InvalidExRate k validator); [done|].
  unfold GetDelegation, GetDelegationKey. rewrite bind_assoc.
  unfold storeGet. rewrite bind_gets.
  destruct (store s !! KDelegation delAddr (GetOperator validator)) as [v|] eqn:Hd.
  - destruct v as [d| | | | | | |]; try done.
    destruct (Hrec d eq_refl) as [Hdacc Hdval].
    unfold MustUnmarshalDelegation, SetDelegation, mustAccAddress, mustValAddress,
      notBondedTokensToBonded, bondedTokensToNotBonded, BondDenom, NewCoin, bankCall.
    munfold. simpl. rewrite Hdacc. simpl.
    destruct (AddValidatorTokensAndShares k (validators s) validator bondAmt)
      as [[vals v'] issued] eqn:Hadd.
    destruct tokenSrc, (IsBonded validator); simpl; try done;
      try (destruct (bondAmt <? 0); [done|]; simpl);
      try (destruct (bankKeeper k _ _); [done|]; simpl);
      rewrite ?Hadd; simpl; rewrite ?Hdval, ?Hval; simpl; try done;
      intros [= <- <-]; simpl; rewrite ?app_nil_r;
      (split_and!; try done; eexists; split; [by rewrite lookup_insert_eq|done]).
  - unfold MustUnmarshalDelegation, SetDelegation, mustAccAddress, mustValAddress,
      notBondedTokensToBonded, bondedTokensToNotBonded, NewDelegation, BondDenom, NewCoin,
      bankCall.
    munfold. simpl. rewrite Hacc. simpl.
    destruct (AddValidatorTokensAndShares k (validators s) validator bondAmt)
      as [[vals v'] issued] eqn:Hadd.
    destruct tokenSrc, (IsBonded validator); simpl; try done;
      try (destruct (bondAmt <? 0); [done|]; simpl);
      try (destruct (bankKeeper k _ _); [done|]; simpl);
      rewrite ?Hadd; simpl; rewrite ?Hdval, ?Hval; simpl; try done;
      intros [= <- <-]; simpl; rewrite ?app_nil_r;
      (split_and!; try done; eexists; split; [by rewrite lookup_insert_eq|done]).
Qed.
End DelegateFacts.

(** ** BeginRedelegation: the entry and its queue slot *)

Section RedelegationEntry.
Context (k : Keeper) (ctx : Context).

(** [Delegate] writes delegation keys only. *)
Lemma Delegate_frame delAddr bondAmt tokenSrc validator subtractAccount r s s' :
  Delegate k delAddr bondAmt tokenSrc validator subtractAccount s = Done r s' →
  params s' = params s
  ∧ ∀ key, (∀ d v, key ≠ KDelegation d v) → store s' !! key = store s !! key.
Proof.
  unfold Delegate, GetDelegation, MustUnmarshalDelegation, SetDelegation, mustAccAddress,
    mustValAddress, notBondedTokensToBonded, bondedTokensToNotBonded, BondDenom, NewCoin,
    bankCall, GetDelegationKey.
  munfold. intros H.
  repeat (case_match; simplify_eq; try discriminate); simpl;
    (split; [done|]); intros key Hkey; try done;
    by rewrite ?lookup_insert_ne by (intros <-; by eapply Hkey).
Qed.

Lemma SetREDByUnbondingOpIndex_ok red id del src dst s :
  AccAddressFromBech32 k (red_DelegatorAddress red) = Some del →
  ValAddressFromBech32 k (red_ValidatorSrcAddress red) = Some src →
  ValAddressFromBech32 k (red_ValidatorDstAddress red) = Some dst →
  SetREDByUnbondingOpIndex k red id s
  = Done tt (with_store (<[KUnbondingOpIndex id := VKey (KRED del src dst)]>) s).
Proof.
  intros Hdel Hsrc Hdst. unfold SetREDByUnbondingOpIndex, mustAccAddress, mustValAddress.
  by rewrite Hdel, Hsrc, Hdst.
Qed.

(** [SetRedelegationEntry] followed by [InsertRedelegationQueue], on a
    store whose counter holds [counter] (or has no counter, for 0) and
    whose record of the triple holds the entries [old] (or has no record,
    for none). *)
Lemma enter_redelegation delAddr valSrcAddr valDstAddr height t balance sharesSrc sharesDst
    counter old s :
  AccAddressFromBech32 k (AccAddressString k delAddr) = Some delAddr →
  ValAddressFromBech32 k (ValAddressString k valSrcAddr) = Some valSrcAddr →
  ValAddressFromBech32 k (ValAddressString k valDstAddr) = Some valDstAddr →
  match store s !! KRED delAddr valSrcAddr valDstAddr with
  | None => old = []
  | Some v => ∃ red, v = VRED red
                     ∧ AccAddressFromBech32 k (red_DelegatorAddress red) = Some delAddr
                     ∧ ValAddressFromBech32 k (red_ValidatorSrcAddress red) = Some valSrcAddr
                     ∧ ValAddressFromBech32 k (red_ValidatorDstAddress red) = Some valDstAddr
                     ∧ old = red_Entries red
  end →
  match store s !! KUnbondingDelegationEntryId with
  | None => counter = 0%N
  | Some v => v = VUint64 counter
  end →
  (∀ v, store s !! KRedelegationTime t = Some v → ∃ l, v = VDVVTriplets l) →
  ∃ red s3,
    (red ← SetRedelegationEntry k delAddr valSrcAddr valDstAddr height t balance sharesSrc
             sharesDst;
     InsertRedelegationQueue red t;;
     mret (t, @None Error)) s = Done (t, None) s3
    ∧ store s3 !! KRED delAddr valSrcAddr valDstAddr = Some (VRED red)
    ∧ red_Entries red = old ++ [mkREDEntry 0 height t balance sharesDst false]
    ∧ store s3 !! KRedelegationTime t
      = Some (VDVVTriplets
                (match store s !! KRedelegationTime t with
                 | Some (VDVVTriplets l) => l
                 | _ => []
                 end ++ [mkDVVTriplet (red_DelegatorAddress red) (red_ValidatorSrcAddress red)
                           (red_ValidatorDstAddress red)]))
    ∧ store s3 !! KUnbondingOpIndex ((counter + 1) mod 2 ^ 64)%N
      = Some (VKey (KRED delAddr valSrcAddr valDstAddr))
    ∧ store s3 !! KREDByValDstIndex valDstAddr delAddr valSrcAddr = Some VEmpty.
Proof.
  intros Hacc Hsrcc Hdstc Hrec Hctr Hslot.
  assert (∃ red,
            AccAddressFromBech32 k (red_DelegatorAddress red) = Some delAddr
            ∧ ValAddressFromBech32 k (red_ValidatorSrcAddress red) = Some valSrcAddr
            ∧ ValAddressFromBech32 k (red_ValidatorDstAddress red) = Some valDstAddr
            ∧ red_Entries red = old ++ [mkREDEntry 0 height t balance sharesDst false]
            ∧ ∀ (B : Type) (f : Redelegation → M B),
                (SetRedelegationEntry k delAddr valSrcAddr valDstAddr height t balance sharesSrc
                   sharesDst ≫= f) s
                = f red
                    (with_hooks (λ l, l ++ [AfterUnbondingOpInitiated ((counter + 1) mod 2 ^ 64)%N])
                       (with_store
                          (λ st, <[KUnbondingOpIndex ((counter + 1) mod 2 ^ 64)%N
                                   := VKey (KRED delAddr valSrcAddr valDstAddr)]>
                                   (<[KREDByValDstIndex valDstAddr delAddr valSrcAddr := VEmpty]>
                                      (<[KREDByValSrcIndex valSrcAddr delAddr valDstAddr := VEmpty]>
                                         (<[KRED delAddr valSrcAddr valDstAddr := VRED red]>
                                            (<[KUnbondingDelegationEntryId
                                               := VUint64 ((counter + 1) mod 2 ^ 64)%N]> st)))))
                          s)))
    as (red & Hdel & Hsrc & Hdst & Hentries & Hset).
  { unfold SetRedelegationEntry.
    destruct (store s !! KRED delAddr valSrcAddr valDstAddr) as [v|] eqn:Hv.
    - destruct Hrec as (red0 & -> & Hdel & Hsrc & Hdst & ->).
      exists (red_AddEntry red0 height t balance sharesDst). split_and!; try done.
      intros B f. rewrite !bind_assoc.
      rewrite (bind_Done _ _ _ _ _ (GetRedelegation_found _ _ _ _ _ Hv)).
      rewrite !bind_assoc.
      rewrite (bind_Done _ _ _ _ _ (IncrementUnbondingOpId_counter counter s Hctr)).
      cbv beta iota zeta. rewrite !bind_assoc.
      rewrite (bind_Done _ _ _ _ _ (SetRedelegation_ok k (red_AddEntry red0 _ _ _ _)
                                      delAddr valSrcAddr valDstAddr _ Hdel Hsrc Hdst)).
      rewrite !bind_assoc.
      rewrite (bind_Done _ _ _ _ _ (SetREDByUnbondingOpIndex_ok (red_AddEntry red0 _ _ _ _) _
                                      delAddr valSrcAddr valDstAddr _ Hdel Hsrc Hdst)).
      rewrite !bind_assoc, bind_callHook. by rewrite bind_ret.
    - subst old.
      exists (NewRedelegation k delAddr valSrcAddr valDstAddr height t balance sharesDst).
      split_and!; try done.
      intros B f. rewrite !bind_assoc.
      rewrite (bind_Done _ _ _ _ _ (GetRedelegation_missing _ _ _ _ Hv)).
      rewrite !bind_assoc.
      rewrite (bind_Done _ _ _ _ _ (IncrementUnbondingOpId_counter counter s Hctr)).
      cbv beta iota zeta. rewrite !bind_assoc.
      rewrite (bind_Done _ _ _ _ _ (SetRedelegation_ok k (NewRedelegation k _ _ _ _ _ _ _)
                                      delAddr valSrcAddr valDstAddr _ Hacc Hsrcc Hdstc)).
      rewrite !bind_assoc.
      rewrite (bind_Done _ _ _ _ _ (SetREDByUnbondingOpIndex_ok (NewRedelegation k _ _ _ _ _ _ _) _
                                      delAddr valSrcAddr valDstAddr _ Hacc Hsrcc Hdstc)).
      rewrite !bind_assoc, bind_callHook. by rewrite bind_ret. }
  exists red. rewrite Hset.
  unfold InsertRedelegationQueue, GetRedelegationQueueTimeSlice, SetRedelegationQueueTimeSlice,
    GetRedelegationTimeKey.
  rewrite !bind_assoc. unfold storeGet. rewrite bind_gets. cbn [store with_hooks with_store].
  rewrite !lookup_insert_ne by done.
  destruct (store s !! KRedelegationTime t) as [v|] eqn:Hq.
  - destruct (Hslot v eq_refl) as [l ->]. unfold MustUnmarshalDVVTriplets. rewrite bind_ret.
    cbv zeta. case_decide as Hlen.
    + apply nil_length_inv in Hlen as ->. eexists. split; [reflexivity|].
      simpl. split_and!; try done;
        repeat (rewrite lookup_insert_ne by done); by rewrite ?lookup_insert_eq.
    + eexists. split; [reflexivity|].
      simpl. split_and!; try done;
        repeat (rewrite lookup_insert_ne by done); by rewrite ?lookup_insert_eq.
  - rewrite bind_ret. cbv zeta. rewrite decide_True by done. eexists. split; [reflexivity|].
    simpl. split_and!; try done;
      repeat (rewrite lookup_insert_ne by done); by rewrite ?lookup_insert_eq.
Qed.

(** C6 (amended): once every guard is passed and the source-side unbond
    and the destination-side delegate have succeeded, reaching state [s2],
    [BeginRedelegation] decides on the source validator as the registry
    has it in [s2].  A record with status Unbonded completes at once: the
    call returns in [s2], where the redelegation record of the triple and
    every slot of the redelegation queue are as they were before the call.
    Otherwise one entry is appended to the redelegation record of the
    triple, with the amount unbonded and the shares created, the triple is
    appended to the queue slot of the entry's completion time, and the
    next id of the counter is indexed to the record: for a record with
    status Unbonding the entry has the validator's own unbonding time and
    height; for a Bonded record, and also for a source that has no record
    any more, it has the block time plus the unbonding-time parameter and
    the block height. *)
Theorem BeginRedelegation_completion delAddr valSrcAddr valDstAddr sharesAmount
    srcValidator dstValidator returnAmount sharesCreated counter old s s1 s2 :
  valSrcAddr ≠ valDstAddr →
  validators s !! valDstAddr = Some dstValidator →
  validators s !! valSrcAddr = Some srcValidator →
  (∀ from, store s !! KREDByValDstIndex valSrcAddr delAddr from = None) →
  Z.of_nat (length old) < Z.of_N (p_MaxEntries (params s)) →
  Unbond k delAddr valSrcAddr sharesAmount s = Done (returnAmount, None) s1 →
  returnAmount ≠ 0 →
  Delegate k delAddr returnAmount (val_Status srcValidator) dstValidator false s1
    = Done (sharesCreated, None) s2 →
  AccAddressFromBech32 k (AccAddressString k delAddr) = Some delAddr →
  ValAddressFromBech32 k (ValAddressString k valSrcAddr) = Some valSrcAddr →
  ValAddressFromBech32 k (ValAddressString k valDstAddr) = Some valDstAddr →
  match store s !! KRED delAddr valSrcAddr valDstAddr with
  | None => old = []
  | Some v => ∃ red, v = VRED red
                     ∧ AccAddressFromBech32 k (red_DelegatorAddress red) = Some delAddr
                     ∧ ValAddressFromBech32 k (red_ValidatorSrcAddress red) = Some valSrcAddr
                     ∧ ValAddressFromBech32 k (red_ValidatorDstAddress red) = Some valDstAddr
                     ∧ old = red_Entries red
  end →
  match store s !! KUnbondingDelegationEntryId with
  | None => counter = 0%N
  | Some v => v = VUint64 counter
  end →
  (∀ t v, store s !! KRedelegationTime t = Some v → ∃ l, v = VDVVTriplets l) →
  let entered (height : Z) (completionTime : GoTime) : Prop :=
    ∃ red s3,
      BeginRedelegation k ctx delAddr valSrcAddr valDstAddr sharesAmount s
      = Done (completionTime, None) s3
      ∧ store s3 !! KRED delAddr valSrcAddr valDstAddr = Some (VRED red)
      ∧ red_Entries red
        = old ++ [mkREDEntry 0 height completionTime returnAmount sharesCreated false]
      ∧ store s3 !! KRedelegationTime completionTime
        = Some (VDVVTriplets
                  (match store s !! KRedelegationTime completionTime with
                   | Some (VDVVTriplets l) => l
                   | _ => []
                   end ++ [mkDVVTriplet (red_DelegatorAddress red) (red_ValidatorSrcAddress red)
                             (red_ValidatorDstAddress red)]))
      ∧ store s3 !! KUnbondingOpIndex ((counter + 1) mod 2 ^ 64)%N
        = Some (VKey (KRED delAddr valSrcAddr valDstAddr)) in
  match validators s2 !! valSrcAddr with
  | Some validator =>
      match val_Status validator with
      | Unbonded =>
          BeginRedelegation k ctx delAddr valSrcAddr valDstAddr sharesAmount s
          = Done (0, None) s2
          ∧ store s2 !! KRED delAddr valSrcAddr valDstAddr
            = store s !! KRED delAddr valSrcAddr valDstAddr
          ∧ ∀ t, store s2 !! KRedelegationTime t = store s !! KRedelegationTime t
      | Unbonding => entered (val_UnbondingHeight validator) (val_UnbondingTime validator)
      | Bonded => entered (BlockHeight ctx) (BlockTime ctx + p_UnbondingTime (params s))
      | Unspecified =>
          BeginRedelegation k ctx delAddr valSrcAddr valDstAddr sharesAmount s
          = Panic "unknown validator status"
      end
  | None => entered (BlockHeight ctx) (BlockTime ctx + p_UnbondingTime (params s))
  end.
Proof.
  intros Hne Hdst Hsrc Hnone Hroom Hunbond Hamt Hdelegate Hacc Hsrcc Hdstc Hrec Hctr Hslot entered.
  destruct (Unbond_frame _ _ _ _ _ _ _ Hunbond) as (Hparams1 & _ & Hstore1).
  destruct (Delegate_frame _ _ _ _ _ _ _ _ Hdelegate) as (Hparams2 & Hstore2).
  assert (∀ key, (∀ d v, key ≠ KDelegation d v) → store s2 !! key = store s !! key) as Hstore.
  { intros key Hkey. rewrite Hstore2 by done. by apply Hstore1. }
  assert (params s2 = params s) as Hparams by congruence.
  assert (HasMaxRedelegationEntries delAddr valSrcAddr valDstAddr s = Done false s) as Hmax.
  { apply HasMaxRedelegationEntries_room. intros v Hv. rewrite Hv in Hrec.
    destruct Hrec as (red & -> & _ & _ & _ & ->). eauto. }
  assert (BeginRedelegation k ctx delAddr valSrcAddr valDstAddr sharesAmount s
          = (info ← getBeginInfo ctx valSrcAddr;
             let '(completionTime, height, completeNow) := info in
             if (completeNow : bool) then mret (completionTime, None) else
             red ← SetRedelegationEntry k delAddr valSrcAddr valDstAddr height completionTime
                     returnAmount sharesAmount sharesCreated;
             InsertRedelegationQueue red completionTime;;
             mret (completionTime, None)) s2) as Hrun.
  { unfold BeginRedelegation. rewrite decide_False by done.
    rewrite (bind_Done _ _ _ _ _ (GetValidator_eq _ _)), Hdst. cbv beta iota.
    rewrite (bind_Done _ _ _ _ _ (GetValidator_eq _ _)), Hsrc. cbv beta iota.
    rewrite (bind_Done _ _ _ _ _ (HasReceivingRedelegation_false _ _ _ Hnone)). cbv beta iota.
    rewrite (bind_Done _ _ _ _ _ Hmax). cbv beta iota.
    rewrite (bind_Done _ _ _ _ _ Hunbond). cbv beta iota.
    rewrite (proj2 (Z.eqb_neq _ _) Hamt).
    by rewrite (bind_Done _ _ _ _ _ Hdelegate). }
  assert (∀ height t,
            (info ← getBeginInfo ctx valSrcAddr;
             let '(completionTime, height, completeNow) := info in
             if (completeNow : bool) then mret (completionTime, None) else
             red ← SetRedelegationEntry k delAddr valSrcAddr valDstAddr height completionTime
                     returnAmount sharesAmount sharesCreated;
             InsertRedelegationQueue red completionTime;;
             mret (completionTime, None)) s2
            = (red ← SetRedelegationEntry k delAddr valSrcAddr valDstAddr height t returnAmount
                       sharesAmount sharesCreated;
               InsertRedelegationQueue red t;;
               mret (t, @None Error)) s2 →
            entered height t) as Hvia.
  { intros height t Heq.
    destruct (enter_redelegation delAddr valSrcAddr valDstAddr height t returnAmount sharesAmount
                sharesCreated counter old s2 Hacc Hsrcc Hdstc)
      as (red & s3 & Hgo & Hred & Hentries & Hqueue & Hindex & _).
    { by rewrite Hstore. }
    { by rewrite Hstore. }
    { intros v. rewrite Hstore by done. apply Hslot. }
    rewrite Hstore in Hqueue by done.
    exists red, s3. split_and!; try done.
    by rewrite Hrun, Heq. }
  unfold getBeginInfo in Hrun, Hvia. rewrite bind_assoc in Hrun.
  rewrite (bind_Done _ _ _ _ _ (GetValidator_eq _ _)) in Hrun.
  assert (∀ height t,
            (match validators s2 !! valSrcAddr with
             | Some validator =>
                 if IsBonded validator
                 then unbondingTime ← UnbondingTime;
                      mret (BlockTime ctx + unbondingTime, BlockHeight ctx, false)
                 else if IsUnbonded validator then mret (0, 0, true)
                 else if IsUnbonding validator
                      then mret (val_UnbondingTime validator, val_UnbondingHeight validator, false)
                      else panic "unknown validator status"
             | None => unbondingTime ← UnbondingTime;
                       mret (BlockTime ctx + unbondingTime, BlockHeight ctx, false)
             end s2 = Done (t, height, false) s2) →
            entered height t) as Hcase.
  { intros height t Hinfo. apply Hvia. rewrite bind_assoc.
    rewrite (bind_Done _ _ _ _ _ (GetValidator_eq _ _)).
    by rewrite (bind_Done _ _ _ _ _ Hinfo). }
  destruct (validators s2 !! valSrcAddr) as [validator|].
  - unfold IsBonded, IsUnbonded, IsUnbonding in *.
    destruct (val_Status validator); simpl bool_decide in *; cbv beta iota in *.
    + exact Hrun.
    + split; [exact Hrun|]. split; [by apply Hstore|]. intros t. by apply Hstore.
    + by apply Hcase.
    + apply Hcase. rewrite bool_decide_eq_true_2 by done.
      unfold UnbondingTime. rewrite bind_gets. by rewrite Hparams.
  - apply Hcase. unfold UnbondingTime. rewrite bind_gets. by rewrite Hparams.
Qed.
End RedelegationEntry.

(** The amended C6 at work: alice redelegates half of her shares of the
    Bonded "src" to "dst".  The unbond returns 50 tokens, the delegate
    creates 50 * 10^18 shares, and the call enters one entry of height 3
    completing at block time + unbonding time (10 + 100) in a new record,
    queues the triple at time 110 and indexes id 1 to the record. *)
Lemma BeginRedelegation_completion_at_work :
  ∃ red s3,
    BeginRedelegation demoKeeper demoCtx "alice" "src" "dst" (50 * 10 ^ 18) (stakeState Bonded)
    = Done (110, None) s3
    ∧ store s3 !! KRED "alice" "src" "dst" = Some (VRED red)
    ∧ red_Entries red = [mkREDEntry 0 3 110 50 (50 * 10 ^ 18) false]
    ∧ store s3 !! KRedelegationTime 110
      = Some (VDVVTriplets [mkDVVTriplet (red_DelegatorAddress red) (red_ValidatorSrcAddress red)
                              (red_ValidatorDstAddress red)])
    ∧ store s3 !! KUnbondingOpIndex 1 = Some (VKey (KRED "alice" "src" "dst")).
Proof.
  remember (stateOf (Unbond demoKeeper "alice" "src" (50 * 10 ^ 18) (stakeState Bonded))
              (stakeState Bonded)) as s1 eqn:Hs1.
  remember (stateOf (Delegate demoKeeper "alice" 50 Bonded (demoValidator "dst" Bonded) false s1)
              s1) as s2 eqn:Hs2.
  assert (Unbond demoKeeper "alice" "src" (50 * 10 ^ 18) (stakeState Bonded) = Done (50, None) s1)
    as Hunbond by (rewrite Hs1; apply Done_stateOf; vm_compute; reflexivity).
  assert (Delegate demoKeeper "alice" 50 Bonded (demoValidator "dst" Bonded) false s1
          = Done (50 * 10 ^ 18, None) s2)
    as Hdelegate by (rewrite Hs2, Hs1; apply Done_stateOf; vm_compute; reflexivity).
  assert (val_Status <$> validators s2 !! ("src" : Address) = Some Bonded) as Hstatus
    by (rewrite Hs2, Hs1; vm_compute; reflexivity).
  clear Hs1 Hs2.
  pose proof (BeginRedelegation_completion demoKeeper demoCtx "alice" "src" "dst" (50 * 10 ^ 18)
                (demoValidator "src" Bonded) (demoValidator "dst" Bonded) 50 (50 * 10 ^ 18)
                0%N [] (stakeState Bonded) s1 s2) as H.
  cbv zeta in H. revert H Hstatus.
  destruct (validators s2 !! ("src" : Address)) as [validator|]; intros H Hstatus;
    [|discriminate].
  injection Hstatus as Hstatus. rewrite Hstatus in H.
  apply H.
  - discriminate.
  - vm_compute; reflexivity.
  - vm_compute; reflexivity.
  - intros from. apply lookup_singleton_ne. discriminate.
  - vm_compute; reflexivity.
  - exact Hunbond.
  - discriminate.
  - exact Hdelegate.
  - reflexivity.
  - reflexivity.
  - reflexivity.
  - vm_compute; reflexivity.
  - vm_compute; reflexivity.
  - intros t v Hv. unfold stakeState in Hv. cbn [store] in Hv.
    rewrite lookup_singleton_ne in Hv by discriminate. discriminate.
Defined.

(** ** ValidateUnbondAmount *)

Section ValidateAmount.
Context (SharesFromTokens SharesFromTokensTruncated : Validator → Int → Dec * option RequestError).

(** X28: when [ValidateUnbondAmount] accepts an amount, the shares it
    returns are the shares the amount converts to, capped at the shares of
    the delegation: never more than the delegation holds.  The truncated
    conversion of the amount is within the delegation's shares, and the
    state is not changed. *)
Theorem ValidateUnbondAmount_capped delAddr valAddr amt shares s s' :
  ValidateUnbondAmount SharesFromTokens SharesFromTokensTruncated delAddr valAddr amt s
  = Done (shares, None) s' →
  s' = s
  ∧ ∃ validator d,
      validators s !! valAddr = Some validator
      ∧ store s !! KDelegation delAddr valAddr = Some (VDelegation d)
      ∧ shares = Z.min (SharesFromTokens validator amt).1 (del_Shares d)
      ∧ shares ≤ del_Shares d
      ∧ (SharesFromTokensTruncated validator amt).1 ≤ del_Shares d.
Proof.
  unfold ValidateUnbondAmount, GetValidator, GetDelegation, MustUnmarshalDelegation,
    GetDelegationKey.
  munfold. intros H.
  destruct (validators s !! valAddr) as [validator|] eqn:Hv; [|done].
  destruct (store s !! KDelegation delAddr valAddr) as [[d| | | | | | |]|] eqn:Hd; try done.
  destruct (SharesFromTokens validator amt) as [sh [e|]] eqn:Hsh; [done|].
  destruct (SharesFromTokensTruncated validator amt) as [tr [e|]] eqn:Htr; [done|].
  destruct (del_Shares d <? tr) eqn:Hgt; [done|]. apply Z.ltb_ge in Hgt.
  injection H as <- <-. split; [done|]. exists validator, d. rewrite Hsh, Htr. simpl.
  destruct (del_Shares d <? sh) eqn:Hcap; [apply Z.ltb_lt in Hcap|apply Z.ltb_ge in Hcap];
    split_and!; try done; lia.
Qed.

End ValidateAmount.

(** ** The statements above, at work on the concrete states *)

(** X1 at work: alice holds 100 shares of "src" and asks for 101. *)
Lemma Unbond_not_enough_shares_at_work :
  Unbond demoKeeper "alice" "src" (101 * 10 ^ 18) (stakeState Bonded)
  = Done (0, Some (ErrNotEnoughDelegationShares (100 * 10 ^ 18)))
      (with_hooks (λ l, l ++ [BeforeDelegationSharesModified "alice" "src"]) (stakeState Bonded)).
Proof.
  apply (Unbond_not_enough_shares demoKeeper "alice" "src" (101 * 10 ^ 18)
           (mkDelegation "alice" "src" (100 * 10 ^ 18)) (stakeState Bonded)).
  - vm_compute; reflexivity.
  - vm_compute; reflexivity.
Defined.

(** X2 at work: the same request leaves the store and the registry alone. *)
Lemma Unbond_error_writes_nothing_at_work :
  ∃ s', Unbond demoKeeper "alice" "src" (101 * 10 ^ 18) (stakeState Bonded)
        = Done (0, Some (ErrNotEnoughDelegationShares (100 * 10 ^ 18))) s'
        ∧ store s' = store (stakeState Bonded) ∧ validators s' = validators (stakeState Bonded).
Proof.
  assert (∃ s', Unbond demoKeeper "alice" "src" (101 * 10 ^ 18) (stakeState Bonded)
                = Done (0, Some (ErrNotEnoughDelegationShares (100 * 10 ^ 18))) s' ∧ True)
    as (s' & HU & _) by run.
  exists s'. split; [exact HU|].
  destruct (Unbond_error_writes_nothing demoKeeper "alice" "src" (101 * 10 ^ 18) 0
              (ErrNotEnoughDelegationShares (100 * 10 ^ 18)) (stakeState Bonded) s' HU)
    as (_ & Hstore & Hvals & _).
  by split.
Defined.

(** X3 at work: [Undelegate] of 101 shares out of 100. *)
Lemma Undelegate_error_writes_nothing_at_work :
  ∃ s', Undelegate demoKeeper demoCtx "alice" "src" (101 * 10 ^ 18) (stakeState Bonded)
        = Done (0, Some (ErrNotEnoughDelegationShares (100 * 10 ^ 18))) s'
        ∧ store s' = store (stakeState Bonded) ∧ bank s' = bank (stakeState Bonded).
Proof.
  assert (∃ s', Undelegate demoKeeper demoCtx "alice" "src" (101 * 10 ^ 18) (stakeState Bonded)
                = Done (0, Some (ErrNotEnoughDelegationShares (100 * 10 ^ 18))) s' ∧ True)
    as (s' & HU & _) by run.
  exists s'. split; [exact HU|].
  destruct (Undelegate_error_writes_nothing demoKeeper demoCtx "alice" "src" (101 * 10 ^ 18) 0
              (ErrNotEnoughDelegationShares (100 * 10 ^ 18)) (stakeState Bonded) s' HU)
    as (_ & Hstore & _ & Hbank & _).
  by split.
Defined.

(** X4 at work: no validator "nobody" to redelegate to. *)
Lemma BeginRedelegation_unknown_validator_at_work :
  BeginRedelegation demoKeeper demoCtx "alice" "src" "nobody" 5 (stakeState Bonded)
  = Done (0, Some ErrBadRedelegationDst) (stakeState Bonded).
Proof.
  apply (BeginRedelegation_unknown_validator demoKeeper demoCtx "alice" "src" "nobody" 5
           (stakeState Bonded)).
  - discriminate.
  - left. vm_compute; reflexivity.
Defined.

(** X5 at work: alice is receiving a redelegation into "src" from
    "other". *)
Lemma BeginRedelegation_transitive_at_work :
  BeginRedelegation demoKeeper demoCtx "alice" "src" "dst" 5
    (with_store (<[KREDByValDstIndex "src" "alice" "other" := VEmpty]>) (stakeState Bonded))
  = Done (0, Some ErrTransitiveRedelegation)
      (with_store (<[KREDByValDstIndex "src" "alice" "other" := VEmpty]>) (stakeState Bonded)).
Proof.
  apply (BeginRedelegation_transitive demoKeeper demoCtx "alice" "src" "dst" 5
           (demoValidator "src" Bonded) (demoValidator "dst" Bonded) "other" VEmpty).
  - discriminate.
  - vm_compute; reflexivity.
  - vm_compute; reflexivity.
  - vm_compute; reflexivity.
Defined.

(** X6 at work: with [MaxEntries] 2, alice's redelegation from "src" to
    "dst" is full. *)
Lemma BeginRedelegation_max_entries_at_work :
  BeginRedelegation demoKeeper demoCtx "alice" "src" "dst" 5
    (mkState (redStore [rentry1; rentry2]) (validators (stakeState Bonded)) [] []
       (mkParams 100 2 "stake"))
  = Done (0, Some ErrMaxRedelegationEntries)
      (mkState (redStore [rentry1; rentry2]) (validators (stakeState Bonded)) [] []
         (mkParams 100 2 "stake")).
Proof.
  apply (BeginRedelegation_max_entries demoKeeper demoCtx "alice" "src" "dst" 5
           (demoValidator "src" Bonded) (demoValidator "dst" Bonded)
           (mkRED "alice" "src" "dst" [rentry1; rentry2])).
  - discriminate.
  - vm_compute; reflexivity.
  - vm_compute; reflexivity.
  - intros from. unfold redStore. simpl.
    rewrite !lookup_insert_ne by discriminate. apply lookup_singleton_ne. discriminate.
  - vm_compute; reflexivity.
  - vm_compute; discriminate.
Defined.

(** X7 at work: one share unit of "src" is worth no whole token; the
    redelegation fails, and alice's delegation is one unit shorter. *)
Lemma BeginRedelegation_tiny_amount_at_work :
  ∃ s1, BeginRedelegation demoKeeper demoCtx "alice" "src" "dst" 1 (stakeState Bonded)
        = Done (0, Some ErrTinyRedelegationAmount) s1
        ∧ 1 ≤ del_Shares (mkDelegation "alice" "src" (100 * 10 ^ 18))
        ∧ store s1 !! KDelegation "alice" "src"
          = (if del_Shares (mkDelegation "alice" "src" (100 * 10 ^ 18)) - 1 =? 0 then None
             else Some (VDelegation
                          (del_setShares
                             (del_Shares (mkDelegation "alice" "src" (100 * 10 ^ 18)) - 1)
                             (mkDelegation "alice" "src" (100 * 10 ^ 18))))).
Proof.
  assert (∃ s1, Unbond demoKeeper "alice" "src" 1 (stakeState Bonded) = Done (0, None) s1 ∧ True)
    as (s1 & HU & _) by run.
  exists s1.
  apply (BeginRedelegation_tiny_amount demoKeeper demoCtx "alice" "src" "dst" 1
           (demoValidator "src" Bonded) (demoValidator "dst" Bonded)
           (mkDelegation "alice" "src" (100 * 10 ^ 18)) (stakeState Bonded) s1).
  - discriminate.
  - vm_compute; reflexivity.
  - vm_compute; reflexivity.
  - intros from. apply lookup_singleton_ne. discriminate.
  - intros v Hv. vm_compute in Hv. discriminate.
  - vm_compute; reflexivity.
  - reflexivity.
  - reflexivity.
  - exact HU.
Defined.

(** X8 at work: a redelegation of alice from "src" to "dst" is written. *)
Lemma SetRedelegation_lookup_at_work :
  ∃ s1, SetRedelegation demoKeeper (mkRED "alice" "src" "dst" [rentry1]) (stakeState Bonded)
        = Done tt s1
        ∧ GetRedelegation "alice" "src" "dst" s1
          = Done (Some (mkRED "alice" "src" "dst" [rentry1])) s1
        ∧ HasReceivingRedelegation "alice" "dst" s1 = Done true s1.
Proof.
  apply (SetRedelegation_lookup demoKeeper (mkRED "alice" "src" "dst" [rentry1])
           "alice" "src" "dst" (stakeState Bonded)); reflexivity.
Defined.

(** X9 at work: the redelegation of alice from "src" to "dst" is removed. *)
Lemma RemoveRedelegation_lookup_at_work :
  ∃ s1, RemoveRedelegation demoKeeper (mkRED "alice" "src" "dst" [rentry1]) (redState [rentry1])
        = Done tt s1
        ∧ GetRedelegation "alice" "src" "dst" s1 = Done None s1
        ∧ HasReceivingRedelegation "alice" "dst" s1 = Done false s1.
Proof.
  apply (RemoveRedelegation_lookup demoKeeper (mkRED "alice" "src" "dst" [rentry1])
           "alice" "src" "dst" (redState [rentry1])); try reflexivity.
  intros from Hne. unfold redState, redStore. simpl.
  rewrite !lookup_insert_ne by discriminate. apply lookup_singleton_ne. congruence.
Defined.

(** X10 at work: the first two ids on a store without a counter are 1
    and 2. *)
Lemma IncrementUnbondingOpId_consecutive_at_work :
  (store (stakeState Bonded) !! KUnbondingDelegationEntryId = None → 1%N = 1%N)
  ∧ (1 < 2 ^ 64)%N
  ∧ store (with_store (<[KUnbondingDelegationEntryId := VUint64 1]>) (stakeState Bonded))
      !! KUnbondingDelegationEntryId = Some (VUint64 1)
  ∧ ∃ s2, IncrementUnbondingOpId
            (with_store (<[KUnbondingDelegationEntryId := VUint64 1]>) (stakeState Bonded))
          = Done (if decide (1 = 2 ^ 64 - 1)%N then 0%N else (1 + 1)%N) s2
          ∧ store s2
            = <[KUnbondingDelegationEntryId :=
                  VUint64 (if decide (1 = 2 ^ 64 - 1)%N then 0%N else (1 + 1)%N)]>
                (store (with_store (<[KUnbondingDelegationEntryId := VUint64 1]>)
                          (stakeState Bonded))).
Proof.
  apply (IncrementUnbondingOpId_consecutive 1%N (stakeState Bonded)).
  vm_compute; reflexivity.
Defined.

(** X11 at work: alice's record with "val" holds the entry with id 1 and
    the counter is at 1; the second entry gets the id 2 and is found under
    it at position 1. *)
Lemma SetUnbondingDelegationEntry_lookup_at_work :
  ∃ ubd s1,
    SetUnbondingDelegationEntry demoKeeper "alice" "val" 3 110 25
      (with_store (<[KUnbondingDelegationEntryId := VUint64 1]>) (ubdState [entry1]))
    = Done ubd s1
    ∧ ubd_Entries ubd = [entry1] ++ [mkUBDEntry ((1 + 1) mod 2 ^ 64)%N 3 110 25 25 false]
    ∧ store s1 !! KUnbondingDelegationEntryId = Some (VUint64 ((1 + 1) mod 2 ^ 64)%N)
    ∧ GetUnbondingDelegation "alice" "val" s1 = Done (Some ubd) s1
    ∧ GetUnbondingDelegationByUnbondingOpId ((1 + 1) mod 2 ^ 64)%N s1 = Done (Some ubd) s1
    ∧ hooks s1
      = hooks (with_store (<[KUnbondingDelegationEntryId := VUint64 1]>) (ubdState [entry1]))
        ++ [AfterUnbondingOpInitiated ((1 + 1) mod 2 ^ 64)%N]
    ∧ (Forall (λ e, (ubde_Id e ≤ 1)%N) [entry1] → (1 < 2 ^ 64 - 1)%N →
       unbondingDelegationEntryArrayIndex ubd ((1 + 1) mod 2 ^ 64)%N = Some (length [entry1])).
Proof.
  apply (SetUnbondingDelegationEntry_lookup demoKeeper "alice" "val" 3 110 25 1%N [entry1]
           (with_store (<[KUnbondingDelegationEntryId := VUint64 1]>) (ubdState [entry1]))).
  - reflexivity.
  - reflexivity.
  - vm_compute. eexists. repeat split.
  - vm_compute. reflexivity.
Defined.

(** X12 at work: the pair already queued at time 7 is queued once more. *)
Lemma InsertUBDQueue_appends_at_work :
  ∃ s1, InsertUBDQueue (mkUBD "alice" "val" [entry1]) 7 queueState = Done tt s1
        ∧ GetUBDQueueTimeSlice 7 s1
          = Done ([mkDVPair "alice" "val"]
                  ++ [mkDVPair (ubd_DelegatorAddress (mkUBD "alice" "val" [entry1]))
                        (ubd_ValidatorAddress (mkUBD "alice" "val" [entry1]))]) s1
        ∧ ∀ key, key ≠ KUnbondingDelegationTime 7 → store s1 !! key = store queueState !! key.
Proof.
  apply (InsertUBDQueue_appends (mkUBD "alice" "val" [entry1]) 7 [mkDVPair "alice" "val"]
           queueState).
  vm_compute; reflexivity.
Defined.

(** X13 at work: the same for the redelegation queue. *)
Lemma InsertRedelegationQueue_appends_at_work :
  ∃ s1, InsertRedelegationQueue (mkRED "alice" "src" "dst" [rentry1]) 7 redQueueState = Done tt s1
        ∧ GetRedelegationQueueTimeSlice 7 s1
          = Done ([mkDVVTriplet "alice" "src" "dst"]
                  ++ [mkDVVTriplet (red_DelegatorAddress (mkRED "alice" "src" "dst" [rentry1]))
                        (red_ValidatorSrcAddress (mkRED "alice" "src" "dst" [rentry1]))
                        (red_ValidatorDstAddress (mkRED "alice" "src" "dst" [rentry1]))]) s1
        ∧ ∀ key, key ≠ KRedelegationTime 7 → store s1 !! key = store redQueueState !! key.
Proof.
  apply (InsertRedelegationQueue_appends (mkRED "alice" "src" "dst" [rentry1]) 7
           [mkDVVTriplet "alice" "src" "dst"] redQueueState).
  vm_compute; reflexivity.
Defined.

(** X14 at work: alice unbonds 10 of her 100 shares of "src". *)
Lemma Unbond_touches_delegations_only_at_work :
  ∃ s1, Unbond demoKeeper "alice" "src" (10 * 10 ^ 18) (stakeState Bonded) = Done (10, None) s1
        ∧ params s1 = params (stakeState Bonded) ∧ bank s1 = bank (stakeState Bonded)
        ∧ ∀ key, (∀ d v, key ≠ KDelegation d v) →
                 store s1 !! key = store (stakeState Bonded) !! key.
Proof.
  assert (∃ s1, Unbond demoKeeper "alice" "src" (10 * 10 ^ 18) (stakeState Bonded)
                = Done (10, None) s1 ∧ True) as (s1 & HU & _) by run.
  exists s1. split; [exact HU|].
  exact (Unbond_touches_delegations_only demoKeeper "alice" "src" (10 * 10 ^ 18) (10, None)
           (stakeState Bonded) s1 HU).
Defined.

(** X15 at work: alice undelegates 10 of her 100 shares of the bonded
    validator "src" at time 10 and height 3; the unbonding time is 100,
    and the store has no counter yet: the entry gets the id 1. *)
Lemma Undelegate_schedules_entry_at_work :
  ∃ ubd s2,
    Undelegate demoKeeper demoCtx "alice" "src" (10 * 10 ^ 18) (stakeState Bonded)
    = Done (BlockTime demoCtx + p_UnbondingTime (params (stakeState Bonded)), None) s2
    ∧ store s2 !! KUBD "alice" "src" = Some (VUBD ubd)
    ∧ ubd_Entries ubd
      = [] ++ [mkUBDEntry ((0 + 1) mod 2 ^ 64)%N (BlockHeight demoCtx)
                 (BlockTime demoCtx + p_UnbondingTime (params (stakeState Bonded))) 10 10 false]
    ∧ store s2 !! KUnbondingDelegationEntryId = Some (VUint64 ((0 + 1) mod 2 ^ 64)%N)
    ∧ store s2 !! KUnbondingOpIndex ((0 + 1) mod 2 ^ 64)%N = Some (VKey (KUBD "alice" "src"))
    ∧ store s2 !! KUnbondingDelegationTime
                    (BlockTime demoCtx + p_UnbondingTime (params (stakeState Bonded)))
      = Some (VDVPairs (match store (stakeState Bonded)
                                !! KUnbondingDelegationTime
                                     (BlockTime demoCtx
                                      + p_UnbondingTime (params (stakeState Bonded))) with
                        | Some (VDVPairs l) => l
                        | _ => []
                        end ++ [mkDVPair (ubd_DelegatorAddress ubd) (ubd_ValidatorAddress ubd)]))
    ∧ bank s2 = bank (stakeState Bonded)
                ++ (if IsBonded (demoValidator "src" Bonded)
                    then [PoolToPool BondedPool NotBondedPool 10] else []).
Proof.
  assert (∃ s1, Unbond demoKeeper "alice" "src" (10 * 10 ^ 18) (stakeState Bonded)
                = Done (10, None) s1 ∧ True) as (s1 & HU & _) by run.
  apply (Undelegate_schedules_entry demoKeeper demoCtx "alice" "src" (10 * 10 ^ 18)
           (demoValidator "src" Bonded) 10 0%N [] (stakeState Bonded) s1).
  - vm_compute; reflexivity.
  - intros ubd Hubd. vm_compute in Hubd. discriminate.
  - exact HU.
  - intros _. split; [vm_compute; discriminate|reflexivity].
  - reflexivity.
  - reflexivity.
  - vm_compute. reflexivity.
  - vm_compute. reflexivity.
  - intros v Hv. vm_compute in Hv. discriminate.
Defined.

(** X17 at work: no unbonding operation has the id 9. *)
Lemma UnbondingOp_unknown_id_at_work :
  PutUnbondingOpOnHold demoKeeper 9 (ubdState [entry1]) = Done false (ubdState [entry1])
  ∧ UnbondingOpCanComplete demoKeeper demoCtx 9 (ubdState [entry1])
    = Done (false, None) (ubdState [entry1]).
Proof.
  apply (UnbondingOp_unknown_id demoKeeper demoCtx 9 (ubdState [entry1])).
  left. vm_compute; reflexivity.
Defined.

(** X18 at work: the second entry of alice's redelegation completes at
    time 50; it is put on hold and released at time 10. *)
Lemma Redelegation_hold_survives_early_release_at_work :
  ∃ s1 s2 held,
    PutRedelegationEntryOnHold demoKeeper 2 (redState [rentry1; rentry2]) = Done true s1
    ∧ RedelegationCanComplete demoKeeper demoCtx 2 s1 = Done (true, None) s2
    ∧ store s2 !! KRED "alice" "src" "dst" = Some (VRED held)
    ∧ red_Entries held
      = <[1%nat := rede_setOnHold true rentry2]>
          (red_Entries (mkRED "alice" "src" "dst" [rentry1; rentry2]))
    ∧ rede_OnHold <$> red_Entries held !! 1%nat = Some true.
Proof.
  apply (Redelegation_hold_survives_early_release demoKeeper demoCtx 2 "alice" "src" "dst"
           (mkRED "alice" "src" "dst" [rentry1; rentry2]) 1 rentry2
           (redState [rentry1; rentry2])).
  - vm_compute; reflexivity.
  - vm_compute; reflexivity.
  - reflexivity.
  - reflexivity.
  - reflexivity.
  - vm_compute; reflexivity.
  - reflexivity.
  - vm_compute; reflexivity.
Defined.

(** X19 at work: the second entry of alice's unbonding record is put on
    hold twice. *)
Lemma PutUnbondingOpOnHold_twice_at_work :
  ∃ s1 s2,
    PutUnbondingOpOnHold demoKeeper 2 (ubdState [entry1; entry2]) = Done true s1
    ∧ PutUnbondingOpOnHold demoKeeper 2 s1 = Done true s2
    ∧ store s2 = store s1
    ∧ store s1 !! KUBD "alice" "val"
      = Some (VUBD (ubd_setEntries
                      (<[1%nat := ubde_setOnHold true entry2]>
                         (ubd_Entries (mkUBD "alice" "val" [entry1; entry2])))
                      (mkUBD "alice" "val" [entry1; entry2]))).
Proof.
  apply (PutUnbondingOpOnHold_twice demoKeeper 2 "alice" "val"
           (mkUBD "alice" "val" [entry1; entry2]) 1 entry2 (ubdState [entry1; entry2])).
  - vm_compute; reflexivity.
  - vm_compute; reflexivity.
  - reflexivity.
  - reflexivity.
  - vm_compute; reflexivity.
  - reflexivity.
Defined.

(** X20 at work: alice has neither an unbonding record nor a redelegation
    from "src". *)
Lemma Complete_without_record_at_work :
  CompleteUnbonding demoKeeper demoCtx "alice" "src" (stakeState Bonded)
  = Done ([], Some ErrNoUnbondingDelegation) (stakeState Bonded)
  ∧ CompleteRedelegation demoKeeper demoCtx "alice" "src" "dst" (stakeState Bonded)
    = Done ([], Some ErrNoRedelegation) (stakeState Bonded).
Proof.
  apply (Complete_without_record demoKeeper demoCtx "alice" "src" "dst" (stakeState Bonded)).
  - vm_compute; reflexivity.
  - vm_compute; reflexivity.
Defined.

(** X21 at work: both entries of alice's record are mature at time 10.
    The custody keeper performs the first release and refuses the second:
    the call fails, one release is in the custody log, and the record
    still holds both entries. *)
Lemma CompleteUnbonding_error_keeps_record_at_work :
  ∃ s', CompleteUnbonding (demoKeeperWithBank oneTransferOnly) demoCtx "alice" "val"
          (ubdState [entry1; entry3])
        = Done ([], Some (ErrBank 5)) s'
        ∧ bank s' = [UndelegateCoinsFromModuleToAccount NotBondedPool "alice" [("stake", 20)]]
        ∧ store s' = store (ubdState [entry1; entry3]).
Proof.
  assert (∃ s', CompleteUnbonding (demoKeeperWithBank oneTransferOnly) demoCtx "alice" "val"
                  (ubdState [entry1; entry3])
                = Done ([], Some (ErrBank 5)) s'
                ∧ bank s'
                  = [UndelegateCoinsFromModuleToAccount NotBondedPool "alice" [("stake", 20)]])
    as (s' & Hrun & Hbank) by run.
  exists s'. split; [exact Hrun|]. split; [exact Hbank|].
  exact (proj1 (proj2 (CompleteUnbonding_error_keeps_record
                         (demoKeeperWithBank oneTransferOnly) demoCtx "alice" "val" []
                         (ErrBank 5) (ubdState [entry1; entry3]) s' Hrun))).
Defined.

(** X22 at work: at time 10 the entries completing at 5 and 8 are removed
    and the entry completing at 50 stays; no balance exceeds 20. *)
Lemma CompleteUnbonding_keeps_unfinished_at_work :
  ∃ coins kept s',
    CompleteUnbonding demoKeeper demoCtx "alice" "val" (ubdState [entry1; entry2; entry3])
    = Done (coins, None) s'
    ∧ kept = filter (λ e, ubde_IsMature e (BlockTime demoCtx) && negb (ubde_OnHold e) = false)
               (ubd_Entries (mkUBD "alice" "val" [entry1; entry2; entry3]))
    ∧ store s' !! KUBD "alice" "val"
      = (if decide (kept = []) then None
         else Some (VUBD (ubd_setEntries kept (mkUBD "alice" "val" [entry1; entry2; entry3]))))
    ∧ (length (bank s') + length kept
       ≤ length (bank (ubdState [entry1; entry2; entry3]))
         + length (ubd_Entries (mkUBD "alice" "val" [entry1; entry2; entry3])))%nat.
Proof.
  apply (CompleteUnbonding_keeps_unfinished demoKeeper demoCtx "alice" "val"
           (mkUBD "alice" "val" [entry1; entry2; entry3]) 20
           (ubdState [entry1; entry2; entry3])).
  - intros log c. reflexivity.
  - vm_compute; reflexivity.
  - reflexivity.
  - reflexivity.
  - repeat constructor; vm_compute; discriminate.
  - vm_compute; reflexivity.
Defined.

(** X23 at work: alice's redelegation with one mature entry is completed;
    the custody log stays as it was. *)
Lemma CompleteRedelegation_moves_no_tokens_at_work :
  ∃ s', CompleteRedelegation demoKeeper demoCtx "alice" "src" "dst"
          (redState [rentry1; rentry2])
        = Done ([("stake", 20)], None) s'
        ∧ bank s' = bank (redState [rentry1; rentry2]).
Proof.
  assert (∃ s', CompleteRedelegation demoKeeper demoCtx "alice" "src" "dst"
                  (redState [rentry1; rentry2])
                = Done ([("stake", 20)], None) s' ∧ True) as (s' & Hrun & _) by run.
  exists s'. split; [exact Hrun|].
  exact (proj1 (CompleteRedelegation_moves_no_tokens demoKeeper demoCtx "alice" "src" "dst"
                  [("stake", 20)] None (redState [rentry1; rentry2]) s' Hrun)).
Defined.

(** X24 at work: at time 10 the entry completing at 5 is removed and the
    entry completing at 50 stays; no initial balance exceeds 20. *)
Lemma CompleteRedelegation_keeps_unfinished_at_work :
  ∃ coins kept s',
    CompleteRedelegation demoKeeper demoCtx "alice" "src" "dst" (redState [rentry1; rentry2])
    = Done (coins, None) s'
    ∧ kept = filter (λ e, rede_IsMature e (BlockTime demoCtx) && negb (rede_OnHold e) = false)
               (red_Entries (mkRED "alice" "src" "dst" [rentry1; rentry2]))
    ∧ store s' !! KRED "alice" "src" "dst"
      = (if decide (kept = []) then None
         else Some (VRED (red_setEntries kept (mkRED "alice" "src" "dst" [rentry1; rentry2]))))
    ∧ (kept = [] →
       store s' !! KREDByValSrcIndex "src" "alice" "dst" = None
       ∧ store s' !! KREDByValDstIndex "dst" "alice" "src" = None).
Proof.
  apply (CompleteRedelegation_keeps_unfinished demoKeeper demoCtx "alice" "src" "dst"
           (mkRED "alice" "src" "dst" [rentry1; rentry2]) 20 (redState [rentry1; rentry2])).
  - vm_compute; reflexivity.
  - reflexivity.
  - reflexivity.
  - reflexivity.
  - repeat constructor; vm_compute; discriminate.
  - vm_compute; reflexivity.
Defined.

(** X25 at work: the custody keeper refuses alice's transfer for a new
    delegation to "dst". *)
Lemma Delegate_error_writes_nothing_at_work :
  ∃ s', Delegate (demoKeeperWithBank (λ _ _, Some (ErrBank 5))) "alice" 5 Unbonded
          (demoValidator "dst" Bonded) true (stakeState Bonded)
        = Done (0, Some (ErrBank 5)) s'
        ∧ store s' = store (stakeState Bonded) ∧ bank s' = bank (stakeState Bonded).
Proof.
  assert (∃ s', Delegate (demoKeeperWithBank (λ _ _, Some (ErrBank 5))) "alice" 5 Unbonded
                  (demoValidator "dst" Bonded) true (stakeState Bonded)
                = Done (0, Some (ErrBank 5)) s' ∧ True) as (s' & Hrun & _) by run.
  exists s'. split; [exact Hrun|].
  destruct (Delegate_error_writes_nothing (demoKeeperWithBank (λ _ _, Some (ErrBank 5)))
              "alice" 5 Unbonded (demoValidator "dst" Bonded) true 0 (ErrBank 5)
              (stakeState Bonded) s' Hrun) as (_ & Hstore & _ & Hbank & _).
  by split.
Defined.

(** X26 at work: a delegation from alice's account marked as bonded
    tokens. *)
Lemma Delegate_from_account_bonded_source_panics_at_work :
  ∃ msg, Delegate demoKeeper "alice" 5 Bonded (demoValidator "dst" Bonded) true
           (stakeState Bonded) = Panic msg.
Proof.
  apply (Delegate_from_account_bonded_source_panics demoKeeper "alice" 5
           (demoValidator "dst" Bonded) (stakeState Bonded)).
  reflexivity.
Defined.

(** X27 at work: 10 tokens unbonding from elsewhere are delegated to the
    bonded validator "dst": they move to the bonded pool. *)
Lemma Delegate_from_pool_at_work :
  ∃ s', Delegate demoKeeper "alice" 10 Unbonding (demoValidator "dst" Bonded) false
          (stakeState Bonded)
        = Done (10 * 10 ^ 18, None) s'
        ∧ bank s' = bank (stakeState Bonded)
                    ++ (if bool_decide (Unbonding = Bonded)
                        then if IsBonded (demoValidator "dst" Bonded) then []
                             else [PoolToPool BondedPool NotBondedPool 10]
                        else if IsBonded (demoValidator "dst" Bonded)
                             then [PoolToPool NotBondedPool BondedPool 10]
                             else []).
Proof.
  assert (∃ s', Delegate demoKeeper "alice" 10 Unbonding (demoValidator "dst" Bonded) false
                  (stakeState Bonded)
                = Done (10 * 10 ^ 18, None) s' ∧ True) as (s' & Hrun & _) by run.
  exists s'. split; [exact Hrun|].
  refine (proj2 (proj2 (proj2 (proj2
            (Delegate_from_pool demoKeeper "alice" 10 Unbonding (demoValidator "dst" Bonded)
               (10 * 10 ^ 18) (stakeState Bonded) s' Hrun _ _ _))))).
  - reflexivity.
  - reflexivity.
  - intros d Hd. vm_compute in Hd. discriminate.
Defined.

(** X28 at work: 100 tokens convert to a little more than the 100 shares
    alice holds, by rounding; the shares returned are the 100 she holds. *)
Lemma ValidateUnbondAmount_capped_at_work :
  ∃ s', ValidateUnbondAmount (λ _ amt, (amt * 10 ^ 18 + 1, None))
          (λ _ amt, (amt * 10 ^ 18, None)) "alice" "src" 100 (stakeState Bonded)
        = Done (100 * 10 ^ 18, None) s'
        ∧ s' = stakeState Bonded.
Proof.
  assert (∃ s', ValidateUnbondAmount (λ _ amt, (amt * 10 ^ 18 + 1, None))
                  (λ _ amt, (amt * 10 ^ 18, None)) "alice" "src" 100 (stakeState Bonded)
                = Done (100 * 10 ^ 18, None) s' ∧ True) as (s' & Hrun & _) by run.
  exists s'. split; [exact Hrun|].
  exact (proj1 (ValidateUnbondAmount_capped (λ _ amt, (amt * 10 ^ 18 + 1, None))
                  (λ _ amt, (amt * 10 ^ 18, None)) "alice" "src" 100 (100 * 10 ^ 18)
                  (stakeState Bonded) s' Hrun)).
Defined.

(** X29 at work: at block time 10 the slot of time 7 is returned and
    deleted, whatever [currTime] is. *)
Lemma DequeueAllMatureUBDQueue_block_time_at_work :
  ∃ l s', DequeueAllMatureUBDQueue demoCtx 5 queueState = Done l s'
          ∧ store s' !! KUnbondingDelegationTime 7 = None.
Proof.
  destruct (DequeueAllMatureUBDQueue_block_time demoCtx 5 queueState)
    as (ts & buckets & s' & Hrun & _ & _ & _ & _ & Hstore & _).
  { intros t v _ Hv. unfold queueState in Hv. cbn [store] in Hv.
    apply lookup_singleton_Some in Hv as [_ <-]. eauto. }
  exists (concat buckets), s'. split; [exact Hrun|].
  rewrite Hstore. reflexivity.
Defined.

(** X30 at work: the same for the redelegation queue. *)
Lemma DequeueAllMatureRedelegationQueue_block_time_at_work :
  ∃ l s', DequeueAllMatureRedelegationQueue demoCtx 5 redQueueState = Done l s'
          ∧ store s' !! KRedelegationTime 7 = None.
Proof.
  destruct (DequeueAllMatureRedelegationQueue_block_time demoCtx 5 redQueueState)
    as (ts & buckets & s' & Hrun & _ & _ & _ & _ & Hstore & _).
  { intros t v _ Hv. unfold redQueueState in Hv. cbn [store] in Hv.
    apply lookup_singleton_Some in Hv as [_ <-]. eauto. }
  exists (concat buckets), s'. split; [exact Hrun|].
  rewrite Hstore. reflexivity.
Defined.
